(** * MSviewer: the data-normalisation and visual-encoding pipeline

    A shallow embedding of the three Python modules of the repository

      - [MSView.py]          (class [MSPlot]:   event catalog -> point cloud),
      - [WellView.py]        (class [WellPlot]: well surveys  -> polylines),
      - [VisualizeModel.py]  (class [DataViewer]: scene composition),

    together with the properties that the specification states about them.

    Modelling conventions.
      - A Python method that mutates [self] and may raise is a function
        [self -> self * Result a]: the instance after the call is returned
        also when the call raises, because assignments made before the
        exception stay on the instance.
      - pandas [float64] columns are binary64 primitive floats, [int64]
        columns are [Z] with the wrap-around of numpy written out,
        [datetime64[ns]] values are counts of nanoseconds since the epoch
        or [NaT], and a cell of a text column is a string or missing.
      - pandas and plotly are not part of the repository.  Where the
        source relies on an operation of theirs whose result depends on
        their implementation (the parsing of date text, the order in
        which a sort leaves equal keys, the reading of a delimited
        file), the operation is a parameter of the embedding, given with
        the part of its behaviour that is relied on; every property is
        proved for all operations of that behaviour and shown on one of
        them.  The other operations are written out. *)

From Stdlib Require Import ZArith List String Ascii Bool Lia DecimalString.
From Stdlib Require Import Floats.
From Stdlib Require Import Sorted Permutation.
Import ListNotations.

Local Open Scope string_scope.
Local Open Scope list_scope.
Local Open Scope Z_scope.

(* ================================================================== *)
(** * Python exceptions and results *)
(* ================================================================== *)

Inductive PyError : Type :=
| FileNotFoundError (msg : string)
| AttributeError (attr : string)
| KeyError (key : string)
| TypeError (msg : string)
| ValueError (msg : string)
| IndexError (msg : string)
| OutOfBoundsError.

Inductive Result (A : Type) : Type :=
| Ok (a : A)
| Raise (e : PyError).

Arguments Ok {A} a.
Arguments Raise {A} e.

Definition bind {A B : Type} (m : Result A) (k : A -> Result B) : Result B :=
  match m with
  | Ok a => k a
  | Raise e => Raise e
  end.

Notation "x <- m ;; k" := (bind m (fun x => k))
  (at level 61, m at next level, right associativity).

(** A vectorised operation raises as soon as one element raises. *)
Fixpoint mapM {A B : Type} (f : A -> Result B) (l : list A) : Result (list B) :=
  match l with
  | [] => Ok []
  | a :: l' =>
      b <- f a ;;
      bs <- mapM f l' ;;
      Ok (b :: bs)
  end.

(* ================================================================== *)
(** * Scalars, columns and traces shared by the three modules *)
(* ================================================================== *)

(** A pandas [Timestamp]: a count of nanoseconds, or [NaT]. *)
Inductive Timestamp : Type :=
| NaT
| Ts (ns : Z).

(** A pandas [Series], by dtype.  A cell of an object column holds a
    string, or nothing where the value is missing ([NaN]). *)
Inductive Series : Type :=
| SObject (l : list (option string))
| SInt64 (l : list Z)
| SFloat64 (l : list float)
| SDatetime (l : list Timestamp).

(** The result of a reduction such as [Series.min()]. *)
Inductive Scalar : Type :=
| VStr (s : string)
| VInt (z : Z)
| VFloat (f : float)
| VTime (t : Timestamp).

Definition series_length (s : Series) : nat :=
  match s with
  | SObject l => List.length l
  | SInt64 l => List.length l
  | SFloat64 l => List.length l
  | SDatetime l => List.length l
  end.

(** [plotly.graph_objects], imported as [go] by every module of the
    repository: marker and line dictionaries and the [go.Scatter3d] trace.
    The trace stores the keyword arguments it was built from; properties
    that a call does not pass stay [None]. *)
Module go.

Record Marker : Type := mkMarker {
  sizemode : string;
  sizeref : Z;
  size : Series;
  color : Series;
  colorscale : string;
  cmin : Scalar;
  cmax : Scalar;
  colorbar_title : string
}.

Record Line : Type := mkLine {
  line_color : string;
  line_width : Z
}.

(** One hover entry holds the three values the f-string of [MSView.py]
    interpolates (file name, stage, magnitude); their rendering to text,
    [:.2f] included, is left to Python. *)
Record Hover : Type := mkHover {
  hover_file : option string;
  hover_stage : Z;
  hover_magnitude : float
}.

(** The color scales plotly knows by name.  The list belongs to plotly;
    ['Viridis'], the default of [MSPlot], is on it. *)
Record Plotly : Type := mkPlotly {
  named_colorscale : string -> bool;
  Viridis_named : named_colorscale "Viridis" = true
}.

Record Scatter3d : Type := mkScatter3d {
  x : Series;
  y : Series;
  z : Series;
  text : option (list Hover);
  mode : string;
  marker : option Marker;
  line : option Line;
  name : option string
}.

End go.

(* ================================================================== *)
(** * 64-bit integers and nanosecond time *)
(* ================================================================== *)

Definition int64_min : Z := - 2 ^ 63.
Definition int64_max : Z := 2 ^ 63 - 1.

(** numpy integer arithmetic wraps silently. *)
Definition wrap64 (n : Z) : Z := (n + 2 ^ 63) mod 2 ^ 64 - 2 ^ 63.

(** pandas checks instead of wrapping; [int64_min] itself encodes [NaT]. *)
Definition in_ns_bounds (n : Z) : bool := (int64_min <? n) && (n <=? int64_max).

Definition ns_per_ms : Z := 1000000.
Definition ns_per_second : Z := 1000000000.

(** [pd.to_timedelta(n, unit='ms')]. *)
Definition to_timedelta_ms (n : Z) : Result Z :=
  let ns := n * ns_per_ms in
  if in_ns_bounds ns then Ok ns else Raise OutOfBoundsError.

(** [datetime64 + timedelta64], with the overflow check of pandas;
    [NaT] plus anything is [NaT]. *)
Definition add_timedelta (t : Timestamp) (d : Z) : Result Timestamp :=
  match t with
  | NaT => Ok NaT
  | Ts n => if in_ns_bounds (n + d) then Ok (Ts (n + d)) else Raise OutOfBoundsError
  end.

(* ================================================================== *)
(** * Reductions and arithmetic on columns *)
(* ================================================================== *)

Definition is_nan (f : float) : bool := negb (PrimFloat.eqb f f).

Definition float_min (a b : float) : float := if PrimFloat.ltb b a then b else a.
Definition float_max (a b : float) : float := if PrimFloat.ltb a b then b else a.

(** The fold of a binary choice over a list, [default] when it is empty. *)
Definition reduce {A R : Type} (op : A -> A -> A) (inj : A -> R) (default : R)
    (l : list A) : R :=
  match l with
  | [] => default
  | a :: l' => inj (fold_left op l' a)
  end.

(** The values present in a column that may miss some. *)
Definition present {A : Type} (l : list (option A)) : list A :=
  flat_map (fun o => match o with Some a => [a] | None => [] end) l.

Definition stamps (l : list Timestamp) : list Z :=
  flat_map (fun t => match t with Ts n => [n] | NaT => [] end) l.

(** [min()] and [max()] of a [datetime64] column: [NaT] is skipped, and is
    the result when nothing else is there. *)
Definition datetime_min (l : list Timestamp) : Timestamp :=
  reduce Z.min Ts NaT (stamps l).
Definition datetime_max (l : list Timestamp) : Timestamp :=
  reduce Z.max Ts NaT (stamps l).

Definition is_missing {A : Type} (o : option A) : bool :=
  match o with
  | Some _ => false
  | None => true
  end.

(** [abs(series)].  numpy has no [absolute] for datetimes; on an object
    column Python's [abs] is applied to each element, leaves a missing
    value ([nan]) as it is and rejects the first string it meets. *)
Definition series_abs (s : Series) : Result Series :=
  match s with
  | SObject l =>
      if forallb is_missing l then Ok (SObject l)
      else Raise (TypeError "bad operand type for abs(): 'str'")
  | SInt64 l => Ok (SInt64 (map (fun n => wrap64 (Z.abs n)) l))
  | SFloat64 l => Ok (SFloat64 (map PrimFloat.abs l))
  | SDatetime _ => Raise (TypeError "ufunc 'absolute' not supported for datetime64")
  end.

Fixpoint string_repeat (n : nat) (s : string) : string :=
  match n with
  | O => EmptyString
  | S n' => (s ++ string_repeat n' s)%string
  end.

(** [series * 100]: integer columns wrap, float columns round as binary64
    does, a string is repeated and a missing value stays missing. *)
Definition series_times_100 (s : Series) : Result Series :=
  match s with
  | SObject l => Ok (SObject (map (option_map (string_repeat 100)) l))
  | SInt64 l => Ok (SInt64 (map (fun n => wrap64 (n * 100)) l))
  | SFloat64 l => Ok (SFloat64 (map (fun f => PrimFloat.mul f 100%float) l))
  | SDatetime _ => Raise (TypeError "unsupported operand type(s) for *: datetime64 and int")
  end.

(* ------------------------------------------------------------------ *)
(** ** The checks of [go.Scatter3d] on the marker

    The constructor validates the properties it is given and raises
    [ValueError] on the first invalid one.  [marker.size] must be a number
    or an array of numbers, each at least 0 (which [nan] is not).
    [marker.cmin] and [marker.cmax] must be numbers ([nan] is one; a
    string, a [Timestamp] and [NaT] are not).  [marker.color], beside a
    color scale, may be an array of numbers; in an object array a missing
    value is the number [nan]; a column with a string in it is refused
    (the string would have to name a color, and the minimum of such a
    column is no number).  [marker.colorscale], given as a string, must
    name a color scale.  The coordinate and hover arrays are taken as
    they are. *)

Definition valid_size (s : Series) : bool :=
  match s with
  | SInt64 l => forallb (fun n => 0 <=? n) l
  | SFloat64 l => forallb (fun f => PrimFloat.leb 0%float f) l
  | SObject _ | SDatetime _ => false
  end.

Definition valid_number (v : Scalar) : bool :=
  match v with
  | VInt _ | VFloat _ => true
  | VStr _ | VTime _ => false
  end.

Definition valid_color (s : Series) : bool :=
  match s with
  | SInt64 _ | SFloat64 _ => true
  | SObject l => forallb is_missing l
  | SDatetime _ => false
  end.

Definition valid_marker (plotly : go.Plotly) (m : go.Marker) : bool :=
  valid_size (go.size m) && valid_color (go.color m)
  && go.named_colorscale plotly (go.colorscale m)
  && valid_number (go.cmin m) && valid_number (go.cmax m).

(* ================================================================== *)
(** * MSView.py: class MSPlot *)
(* ================================================================== *)

Module MSPlot.

(** One row of the table [pd.read_csv] returns for the catalog: the nine
    columns of [usecols], with the dtypes of [dtype].  A cell of a [str]
    column may be missing; a missing cell of an [int] column makes
    [read_csv] raise, and one of a [float] column is [nan]. *)
Record CatalogRow : Type := mkCatalogRow {
  File_Name : option string;
  Easting : float;
  Northing : float;
  Depth_TVDSS : float;
  Origin_Date : option string;
  Origin_Time : option string;
  Origin_Millisecond : Z;
  Brune_Magnitude : float;
  Stage : Z
}.

(** One row of [parsed_data]: the renamed catalog columns and the derived
    column ['Origin DateTime']. *)
Record EventRow : Type := mkEventRow {
  source : CatalogRow;
  Origin_DateTime : Timestamp
}.

Definition DataFrame : Type := list EventRow.

(** The part of the outside world [load_csv] looks at: [os.path.exists]
    and the table that
    [pd.read_csv(path, usecols=..., skiprows=[1], dtype=...)]
    returns for a path, or the exception it raises (a missing column, a
    cell that does not coerce to the declared dtype). *)
Record Env : Type := mkEnv {
  path_exists : string -> bool;
  read_csv : string -> Result (list CatalogRow)
}.

(** Ascending order of ['Origin DateTime'], [NaT] last. *)
Definition ascending (a b : EventRow) : Prop :=
  match Origin_DateTime a, Origin_DateTime b with
  | Ts m, Ts n => m <= n
  | _, NaT => True
  | NaT, Ts _ => False
  end.

(** The operations of pandas whose result is pandas' own choice.

    [to_datetime] is [pd.to_datetime] on a column of texts, some of them
    missing: the column of timestamps, or an exception.  Which texts it
    accepts and how it reads them (the format is guessed from the data)
    is left to pandas; only the length of the result is relied on.

    [sort_values] is [df.sort_values(by='Origin DateTime')]: the rows in
    ascending order of the column, [NaT] last.  The order in which rows
    with equal timestamps come out is left to pandas (its default sort is
    not stable).

    [object_min] and [object_max] are [min()] and [max()] of an object
    column: the order of its values, and what is done about missing ones,
    is left to pandas. *)
Record Pandas : Type := mkPandas {
  to_datetime : list (option string) -> Result (list Timestamp);
  to_datetime_length :
    forall texts parsed,
      to_datetime texts = Ok parsed -> List.length parsed = List.length texts;
  sort_values : DataFrame -> DataFrame;
  sort_values_permutes : forall df, Permutation (sort_values df) df;
  sort_values_ascending : forall df, StronglySorted ascending (sort_values df);
  object_min : list (option string) -> Result Scalar;
  object_max : list (option string) -> Result Scalar
}.

(** The instance.  [data] is [None] until [load_csv] has assigned the
    attribute.  A time bound is [None] when unset; a bound given as text is
    taken as the [Timestamp] pandas compares it as. *)
Record t : Type := mk {
  MScatalog : option string;
  color_by : string;
  color_scale : string;
  size_by : string;
  size_range : list Z;
  plot_start_time : option Timestamp;
  plot_end_time : option Timestamp;
  title : string;
  data : option DataFrame
}.

Definition init : t :=
  {| MScatalog := None;
     color_by := "Stage";
     color_scale := "Viridis";
     size_by := "Brune Magnitude";
     size_range := [10; 100];
     plot_start_time := None;
     plot_end_time := None;
     title := "3D Bubble Chart of Cumulative Seismic Entries";
     data := None |}.

Definition set_colorby (self : t) (v : string) : t :=
  mk (MScatalog self) v (color_scale self) (size_by self) (size_range self)
     (plot_start_time self) (plot_end_time self) (title self) (data self).

Definition set_colorscale (self : t) (v : string) : t :=
  mk (MScatalog self) (color_by self) v (size_by self) (size_range self)
     (plot_start_time self) (plot_end_time self) (title self) (data self).

Definition set_sizeby (self : t) (v : string) : t :=
  mk (MScatalog self) (color_by self) (color_scale self) v (size_range self)
     (plot_start_time self) (plot_end_time self) (title self) (data self).

Definition set_sizerange (self : t) (v : list Z) : t :=
  mk (MScatalog self) (color_by self) (color_scale self) (size_by self) v
     (plot_start_time self) (plot_end_time self) (title self) (data self).

Definition set_start_time (self : t) (v : option Timestamp) : t :=
  mk (MScatalog self) (color_by self) (color_scale self) (size_by self)
     (size_range self) v (plot_end_time self) (title self) (data self).

Definition set_end_time (self : t) (v : option Timestamp) : t :=
  mk (MScatalog self) (color_by self) (color_scale self) (size_by self)
     (size_range self) (plot_start_time self) v (title self) (data self).

Definition set_title (self : t) (v : string) : t :=
  mk (MScatalog self) (color_by self) (color_scale self) (size_by self)
     (size_range self) (plot_start_time self) (plot_end_time self) v (data self).

(** The assignment [self.data = parsed_data]. *)
Definition set_data (self : t) (v : DataFrame) : t :=
  mk (MScatalog self) (color_by self) (color_scale self) (size_by self)
     (size_range self) (plot_start_time self) (plot_end_time self) (title self)
     (Some v).

(* ------------------------------------------------------------------ *)
(** ** load_csv

    The line [load_csv] prints on success is not modelled. *)

(** One element of [date + ' ' + time]: the date, one space, the time;
    missing when either is. *)
Definition datetime_text (r : CatalogRow) : option string :=
  match Origin_Date r, Origin_Time r with
  | Some d, Some tm => Some (d ++ " " ++ tm)%string
  | _, _ => None
  end.

(** The two assignments to [parsed_data['Origin DateTime']], column by
    column as the source computes them. *)
Definition origin_datetime_column (pd : Pandas) (rows : list CatalogRow)
    : Result (list Timestamp) :=
  parsed <- to_datetime pd (map datetime_text rows) ;;
  offsets <- mapM to_timedelta_ms (map Origin_Millisecond rows) ;;
  mapM (fun p => add_timedelta (fst p) (snd p)) (combine parsed offsets).

Definition attach_origin (rows : list CatalogRow) (col : list Timestamp) : DataFrame :=
  map (fun p => mkEventRow (fst p) (snd p)) (combine rows col).

Definition load_csv (pd : Pandas) (env : Env) (path : string) (self : t)
    : t * Result bool :=
  if negb (path_exists env path) then
    (self, Raise (FileNotFoundError ("File not found: " ++ path)%string))
  else
    match read_csv env path with
    | Raise e => (self, Raise e)
    | Ok needed_cols =>
        match origin_datetime_column pd needed_cols with
        | Raise e => (self, Raise e)
        | Ok col => (set_data self (attach_origin needed_cols col), Ok true)
        end
    end.

(* ------------------------------------------------------------------ *)
(** ** create_plot *)

(** [df[name]] on the parsed table; an unknown name raises [KeyError]. *)
Definition column (name : string) (df : DataFrame) : Result Series :=
  if String.eqb name "File Name" then
    Ok (SObject (map (fun r => File_Name (source r)) df))
  else if String.eqb name "Easting (ft)" then
    Ok (SFloat64 (map (fun r => Easting (source r)) df))
  else if String.eqb name "Northing (ft)" then
    Ok (SFloat64 (map (fun r => Northing (source r)) df))
  else if String.eqb name "Depth TVDSS (ft)" then
    Ok (SFloat64 (map (fun r => Depth_TVDSS (source r)) df))
  else if String.eqb name "Origin Time - Date (UTC) - MM/DD/YYYY" then
    Ok (SObject (map (fun r => Origin_Date (source r)) df))
  else if String.eqb name "Origin Time - Time (UTC) - HH:MM:ss" then
    Ok (SObject (map (fun r => Origin_Time (source r)) df))
  else if String.eqb name "Origin Time - Millisecond (UTC)" then
    Ok (SInt64 (map (fun r => Origin_Millisecond (source r)) df))
  else if String.eqb name "Brune Magnitude" then
    Ok (SFloat64 (map (fun r => Brune_Magnitude (source r)) df))
  else if String.eqb name "Stage" then
    Ok (SInt64 (map (fun r => Stage (source r)) df))
  else if String.eqb name "Origin DateTime" then
    Ok (SDatetime (map Origin_DateTime df))
  else Raise (KeyError name).

(** [Series.min()] and [Series.max()].  Missing values are skipped
    ([skipna=True]); a numeric column that is empty or holds missing
    values only gives [nan], a datetime column [NaT]. *)
Definition series_min (pd : Pandas) (s : Series) : Result Scalar :=
  match s with
  | SObject l => object_min pd l
  | SInt64 l => Ok (reduce Z.min VInt (VFloat nan) l)
  | SFloat64 l =>
      Ok (reduce float_min VFloat (VFloat nan) (filter (fun f => negb (is_nan f)) l))
  | SDatetime l => Ok (VTime (datetime_min l))
  end.

Definition series_max (pd : Pandas) (s : Series) : Result Scalar :=
  match s with
  | SObject l => object_max pd l
  | SInt64 l => Ok (reduce Z.max VInt (VFloat nan) l)
  | SFloat64 l =>
      Ok (reduce float_max VFloat (VFloat nan) (filter (fun f => negb (is_nan f)) l))
  | SDatetime l => Ok (VTime (datetime_max l))
  end.

(** [column >= bound] and [column <= bound] for one row; a comparison
    with [NaT], on either side, is false. *)
Definition at_or_after (bound : Timestamp) (r : EventRow) : bool :=
  match bound, Origin_DateTime r with
  | Ts b, Ts n => b <=? n
  | _, _ => false
  end.

Definition at_or_before (bound : Timestamp) (r : EventRow) : bool :=
  match bound, Origin_DateTime r with
  | Ts b, Ts n => n <=? b
  | _, _ => false
  end.

(** The boolean-mask selection that builds [df_filtered]. *)
Definition window_filter (lower upper : Timestamp) (df : DataFrame) : DataFrame :=
  filter (fun r => at_or_after lower r && at_or_before upper r) df.

(** Reading a stored bound for the comparison; [None] cannot be compared
    with a datetime column. *)
Definition bound_operand (b : option Timestamp) : Result Timestamp :=
  match b with
  | Some ts => Ok ts
  | None => Raise (TypeError "Invalid comparison between dtype=datetime64[ns] and NoneType")
  end.

(** [df_filtered.apply(lambda row: ..., axis=1)]: one entry per row.  (On
    a table without rows the model keeps the empty list.) *)
Definition hover_text (df : DataFrame) : list go.Hover :=
  map (fun row => go.mkHover (File_Name (source row)) (Stage (source row))
                             (Brune_Magnitude (source row))) df.

(** The [go.Scatter3d(...)] call.  Its keyword arguments are evaluated in
    the order they are written, so an exception of the size expression
    comes before one of the color expression; the constructor then checks
    the marker. *)
Definition scatter_of (pd : Pandas) (plotly : go.Plotly) (self : t)
    (df_filtered : DataFrame) : Result go.Scatter3d :=
  size_col <- column (size_by self) df_filtered ;;
  magnitude <- series_abs size_col ;;
  marker_size <- series_times_100 magnitude ;;
  color_col <- column (color_by self) df_filtered ;;
  color_min <- series_min pd color_col ;;
  color_max <- series_max pd color_col ;;
  let marker := {| go.sizemode := "diameter";
                   go.sizeref := 25;
                   go.size := marker_size;
                   go.color := color_col;
                   go.colorscale := color_scale self;
                   go.cmin := color_min;
                   go.cmax := color_max;
                   go.colorbar_title := color_by self |} in
  if valid_marker plotly marker then
    Ok {| go.x := SFloat64 (map (fun r => Easting (source r)) df_filtered);
          go.y := SFloat64 (map (fun r => Northing (source r)) df_filtered);
          go.z := SFloat64 (map (fun r => Depth_TVDSS (source r)) df_filtered);
          go.text := Some (hover_text df_filtered);
          go.mode := "markers";
          go.marker := Some marker;
          go.line := None;
          go.name := None |}
  else Raise (ValueError "Invalid value received for a property of scatter3d.marker").

(** The rows [create_plot] works on: [data.iloc[:101]], sorted. *)
Definition considered (pd : Pandas) (data : DataFrame) : DataFrame :=
  sort_values pd (firstn 101 data).

(** The two [if ... is None] assignments. *)
Definition fill_start (self : t) (df_100 : DataFrame) : t :=
  match plot_start_time self with
  | None => set_start_time self (Some (datetime_min (map Origin_DateTime df_100)))
  | Some _ => self
  end.

Definition fill_end (self : t) (df_100 : DataFrame) : t :=
  match plot_end_time self with
  | None => set_end_time self (Some (datetime_max (map Origin_DateTime df_100)))
  | Some _ => self
  end.

Definition create_plot (pd : Pandas) (plotly : go.Plotly) (self : t)
    : t * Result go.Scatter3d :=
  match data self with
  | None => (self, Raise (AttributeError "data"))
  | Some data =>
      let df_100 := considered pd data in
      let self := fill_start self df_100 in
      let self := fill_end self df_100 in
      (self,
       lower <- bound_operand (plot_start_time self) ;;
       upper <- bound_operand (plot_end_time self) ;;
       scatter_of pd plotly self (window_filter lower upper df_100))
  end.

End MSPlot.

(* ================================================================== *)
(** * WellView.py: class WellPlot *)
(* ================================================================== *)

Module WellPlot.

(** A delimited text file, as the list of its lines, each the list of
    its cells.  Cells stay text: the dtype inference of pandas is not
    modelled. *)
Definition CsvFile : Type := list (list string).

(** The files that exist, by path. *)
Definition FileSystem : Type := string -> option CsvFile.

(** A parsed table: the selected column names and, per record, the cells
    under them. *)
Record Table : Type := mkTable {
  columns : list string;
  rows : list (list string)
}.

(** What an attribute [well1] ... [well4] holds: the path given to the
    constructor, or the table [load_csv] put in its place. *)
Inductive WellAttr : Type :=
| Path (p : string)
| Frame (df : Table).

Record t : Type := mk {
  well1 : WellAttr;
  well2 : WellAttr;
  well3 : WellAttr;
  well4 : WellAttr
}.

Definition init (well1 well2 well3 well4 : string) : t :=
  mk (Path well1) (Path well2) (Path well3) (Path well4).

(* ------------------------------------------------------------------ *)
(** ** [pd.read_csv] on the lines of a file

    What [pd.read_csv] makes of a file depends on its parser engine and
    options in many ways (blank lines, lines with too few or too many
    cells, repeated or empty column names, the index it may infer).  The
    reader is therefore a parameter, [Reader], and is relied on for the
    files without such irregularities only: there it does what the
    documentation of [skiprows], [skipfooter], [usecols] and [names]
    says. *)

Definition mem_string (s : string) (l : list string) : bool :=
  existsb (String.eqb s) l.

(** The cell a line holds under a name of the header: the cell at the
    place of the name in the header. *)
Fixpoint cell_under (name : string) (header : list string) (record : list string)
    : string :=
  match header with
  | [] => EmptyString
  | h :: header' =>
      if String.eqb name h then hd EmptyString record
      else cell_under name header' (tl record)
  end.

(** The table of some lines under a header, restricted to the columns
    named in [usecols]; the columns keep the order of the header. *)
Definition by_name (header usecols : list string) (stations : CsvFile) : Table :=
  let kept := filter (fun h => mem_string h usecols) header in
  {| columns := kept;
     rows := map (fun record => map (fun c => cell_under c header record) kept)
                 stations |}.

Fixpoint only_spaces (s : string) : bool :=
  match s with
  | EmptyString => true
  | String c s' => (Ascii.eqb c " " || Ascii.eqb c "009") && only_spaces s'
  end.

(** A blank line: no cell, or one cell of white space. *)
Definition blank (record : list string) : bool :=
  match record with
  | [] => true
  | [c] => only_spaces c
  | _ => false
  end.

(** A file with a header line: after [skiprows] leading lines comes the
    header, whose names are distinct and not empty and include those of
    [usecols]; then the stations, at least one, each with one cell per
    name of the header; then [skipfooter] trailing lines.  No line of the
    file is blank. *)
Definition headed_layout (file : CsvFile) (skiprows skipfooter : nat)
    (usecols header : list string) (stations : CsvFile) : Prop :=
  Forall (fun record => blank record = false) file /\
  (exists footer : CsvFile,
      skipn skiprows file = header :: stations ++ footer /\
      List.length footer = skipfooter) /\
  NoDup header /\
  Forall (fun h => h <> EmptyString) header /\
  Forall (fun c => In c header) usecols /\
  stations <> [] /\
  Forall (fun record => List.length record = List.length header) stations.

(** A file without a header line, read with [names]: after [skiprows]
    leading lines come the stations and nothing else, at least one, each
    with one cell per name; the names are distinct.  No line of the file
    is blank. *)
Definition named_layout (file : CsvFile) (skiprows : nat)
    (names : list string) (stations : CsvFile) : Prop :=
  Forall (fun record => blank record = false) file /\
  skipn skiprows file = stations /\
  NoDup names /\
  stations <> [] /\
  Forall (fun record => List.length record = List.length names) stations.

(** [parse file skiprows skipfooter usecols names] is the table
    [pd.read_csv(..., skiprows=, skipfooter=, usecols=, names=)] makes of
    the lines of a file, or the exception it raises; [refused] is the
    exception it raises when it is handed a table instead of a path.

    Relied on: a table that is returned has the columns of [usecols]; a
    file with a header line gives the stations under the selected names;
    a file read with [names], all of them selected, gives the stations as
    they are; and when [skiprows] leaves no line to take the header from,
    the read raises. *)
Record Reader : Type := mkReader {
  parse : CsvFile -> nat -> nat -> list string -> option (list string) -> Result Table;
  refused : PyError;
  parse_selects :
    forall file skiprows skipfooter usecols names tbl,
      parse file skiprows skipfooter usecols names = Ok tbl ->
      Forall (fun c => In c (columns tbl)) usecols;
  parse_headed :
    forall file skiprows skipfooter usecols header stations,
      headed_layout file skiprows skipfooter usecols header stations ->
      parse file skiprows skipfooter usecols None
      = Ok (by_name header usecols stations);
  parse_named :
    forall file skiprows names stations,
      named_layout file skiprows names stations ->
      parse file skiprows 0 names (Some names)
      = Ok {| columns := names; rows := stations |};
  parse_nothing :
    forall file skiprows skipfooter usecols,
      (List.length file <= skiprows)%nat ->
      exists e, parse file skiprows skipfooter usecols None = Raise e
}.

(** [pd.read_csv(source, ...)]: the source must be a path. *)
Definition read_csv (pd : Reader) (fs : FileSystem) (source : WellAttr)
    (skiprows skipfooter : nat) (usecols : list string)
    (names : option (list string)) : Result Table :=
  match source with
  | Frame _ => Raise (refused pd)
  | Path p =>
      match fs p with
      | None => Raise (FileNotFoundError p)
      | Some file => parse pd file skiprows skipfooter usecols names
      end
  end.

(* ------------------------------------------------------------------ *)
(** ** A method body: state passing with exceptions *)

Definition Method (A : Type) : Type := t -> t * Result A.

Definition ret {A : Type} (a : A) : Method A := fun self => (self, Ok a).

Definition seq {A B : Type} (m : Method A) (k : A -> Method B) : Method B :=
  fun self =>
    match m self with
    | (self', Ok a) => k a self'
    | (self', Raise e) => (self', Raise e)
    end.

(** Evaluate an expression that reads the instance and may raise. *)
Definition eval {A : Type} (e : t -> Result A) : Method A :=
  fun self => (self, e self).

(** An attribute assignment. *)
Definition assign (f : t -> t) : Method unit := fun self => (f self, Ok tt).

Notation "'let*' x ':=' m 'in' k" := (seq m (fun x => k))
  (at level 10, x name, m at level 100, k at level 200).

Definition set_well1 (v : WellAttr) (self : t) : t :=
  mk v (well2 self) (well3 self) (well4 self).
Definition set_well2 (v : WellAttr) (self : t) : t :=
  mk (well1 self) v (well3 self) (well4 self).
Definition set_well3 (v : WellAttr) (self : t) : t :=
  mk (well1 self) (well2 self) v (well4 self).
Definition set_well4 (v : WellAttr) (self : t) : t :=
  mk (well1 self) (well2 self) (well3 self) v.

Definition survey_columns : list string := ["Azimuth"; "TVD"; "NS"; "EW"].

(** ** load_csv

    Each attribute is assigned as soon as its file is read, so a read
    that raises leaves the earlier attributes replaced.  The line printed
    on success is not modelled. *)
Definition load_csv (pd : Reader) (fs : FileSystem) : Method bool :=
  let* df := eval (fun self =>
      read_csv pd fs (well1 self) 27 5 survey_columns None) in
  let* _ := assign (set_well1 (Frame df)) in
  let* df := eval (fun self =>
      read_csv pd fs (well2 self) 22 0 survey_columns (Some survey_columns)) in
  let* _ := assign (set_well2 (Frame df)) in
  let* df := eval (fun self =>
      read_csv pd fs (well3 self) 22 0 survey_columns (Some survey_columns)) in
  let* _ := assign (set_well3 (Frame df)) in
  let* df := eval (fun self =>
      read_csv pd fs (well4 self) 22 0 survey_columns (Some survey_columns)) in
  let* _ := assign (set_well4 (Frame df)) in
  ret true.

(* ------------------------------------------------------------------ *)
(** ** create_plot *)

(** The position of a name in a list of names. *)
Fixpoint index_of (name : string) (l : list string) : option nat :=
  match l with
  | [] => None
  | h :: l' =>
      if String.eqb name h then Some O
      else option_map S (index_of name l')
  end.

(** [df[name]]: a column of a table; indexing a path with a column name
    is a [TypeError]. *)
Definition getitem (df : WellAttr) (name : string) : Result Series :=
  match df with
  | Path _ => Raise (TypeError "string indices must be integers")
  | Frame tbl =>
      match index_of name (columns tbl) with
      | None => Raise (KeyError name)
      | Some i => Ok (SObject (map (fun r => Some (nth i r EmptyString)) (rows tbl)))
      end
  end.

Definition colors : list string := ["red"; "blue"; "green"; "orange"].

(** [f'{n}H'] *)
Definition label (n : nat) : string :=
  (NilEmpty.string_of_uint (Nat.to_uint n) ++ "H")%string.

(** The body of the [for] loop for one [(i, df)] of the enumeration. *)
Definition well_trace (i : nat) (df : WellAttr) : Result go.Scatter3d :=
  nxtcolor <- match nth_error colors (Nat.modulo i (List.length colors)) with
              | Some c => Ok c
              | None => Raise (IndexError "list index out of range")
              end ;;
  ew <- getitem df "EW" ;;
  ns <- getitem df "NS" ;;
  tvd <- getitem df "TVD" ;;
  Ok {| go.x := ew;
        go.y := ns;
        go.z := tvd;
        go.text := None;
        go.mode := "lines";
        go.marker := None;
        go.line := Some {| go.line_color := nxtcolor; go.line_width := 3 |};
        go.name := Some (label (i + 1)) |}.

(** The loop over [enumerate(dataframes)], from index [i], appending to
    [well_traces]. *)
Fixpoint trace_loop (i : nat) (dataframes : list WellAttr)
    (well_traces : list go.Scatter3d) : Result (list go.Scatter3d) :=
  match dataframes with
  | [] => Ok well_traces
  | df :: rest =>
      well <- well_trace i df ;;
      trace_loop (S i) rest (well_traces ++ [well])
  end.

Definition create_plot (self : t) : Result (list go.Scatter3d) :=
  let dataframes := [well1 self; well2 self; well3 self; well4 self] in
  trace_loop 0 dataframes [].

End WellPlot.


(* ================================================================== *)
(** * VisualizeModel.py: class DataViewer *)
(* ================================================================== *)

Module DataViewer.

Local Set Warnings "-register-all".

(** The values [plot_objects] may hold: a trace, a Python list, or any
    other object (kept as its text). *)
Inductive PyObject : Type :=
| Trace (tr : go.Scatter3d)
| PyList (items : list PyObject)
| Other (repr : string).

(** [go.Figure]: the traces added so far, in the order they were added. *)
Record Figure : Type := mkFigure {
  traces : list go.Scatter3d
}.

(** One line printed by [print(f"Invalid object: {c}")], kept as the
    value [c] that the line shows. *)
Inductive Diagnostic : Type :=
| Invalid_object (c : PyObject).

Record t : Type := mk {
  plot_objects : list PyObject
}.

Definition isinstance_Scatter3d (c : PyObject) : bool :=
  match c with
  | Trace _ => true
  | _ => false
  end.

Definition add_trace (fig : Figure) (tr : go.Scatter3d) : Figure :=
  mkFigure (traces fig ++ [tr]).

(** The [if isinstance(c, go.Scatter3d) ... else print ...] statement, on
    the figure and the lines printed so far. *)
Definition add_or_report (st : Figure * list Diagnostic) (c : PyObject)
    : Figure * list Diagnostic :=
  match c with
  | Trace tr => (add_trace (fst st) tr, snd st)
  | _ => (fst st, snd st ++ [Invalid_object c])
  end.

(** The body of the outer loop. *)
Definition visit (st : Figure * list Diagnostic) (b : PyObject)
    : Figure * list Diagnostic :=
  match b with
  | PyList items => fold_left add_or_report items st
  | _ => add_or_report st b
  end.

(** [draw]: the figure handed to [fig.show()] and the lines printed.
    [fig.update_layout()] is called without arguments and changes
    nothing. *)
Definition draw (self : t) : Figure * list Diagnostic :=
  fold_left visit (plot_objects self) (mkFigure [], []).

End DataViewer.


(* ================================================================== *)
(** * Notions used to state the properties *)
(* ================================================================== *)

(** ** MSPlot: timestamps, window and encoding *)

(** The text of a record's date and time of day: the date string, one
    space, the time string; missing when one of the two is. *)
Definition origin_text (c : MSPlot.CatalogRow) : option string :=
  match MSPlot.Origin_Date c with
  | None => None
  | Some date =>
      match MSPlot.Origin_Time c with
      | None => None
      | Some time_of_day => Some (date ++ String " " time_of_day)%string
      end
  end.

(** What the derived column holds for one row, given the datetime parsed
    from its text: that datetime plus the millisecond count as
    nanoseconds, nothing lost (a whole second plus a count between 0 and
    999 has exactly that many milliseconds as its sub-second part); and
    no datetime when none was parsed. *)
Definition origin_derived (r : MSPlot.EventRow) (parsed : Timestamp) : Prop :=
  match parsed with
  | NaT => MSPlot.Origin_DateTime r = NaT
  | Ts base =>
      exists stamp : Z,
        MSPlot.Origin_DateTime r = Ts stamp /\
        stamp = base + MSPlot.Origin_Millisecond (MSPlot.source r) * 1000000 /\
        (base mod 1000000000 = 0 ->
         0 <= MSPlot.Origin_Millisecond (MSPlot.source r) < 1000 ->
         stamp mod 1000000000 = MSPlot.Origin_Millisecond (MSPlot.source r) * 1000000)
  end.

(** The bounds the filter compares with: the stored bound, or the
    extreme timestamp of the considered rows when none is stored. *)
Definition lower_bound (pd : MSPlot.Pandas) (self : MSPlot.t) (data : MSPlot.DataFrame)
    : Timestamp :=
  match MSPlot.plot_start_time self with
  | Some b => b
  | None => datetime_min (map MSPlot.Origin_DateTime (MSPlot.considered pd data))
  end.

Definition upper_bound (pd : MSPlot.Pandas) (self : MSPlot.t) (data : MSPlot.DataFrame)
    : Timestamp :=
  match MSPlot.plot_end_time self with
  | Some b => b
  | None => datetime_max (map MSPlot.Origin_DateTime (MSPlot.considered pd data))
  end.

(** The filtered record set of a call on [data]. *)
Definition df_filtered (pd : MSPlot.Pandas) (self : MSPlot.t) (data : MSPlot.DataFrame)
    : MSPlot.DataFrame :=
  MSPlot.window_filter (lower_bound pd self data) (upper_bound pd self data)
    (MSPlot.considered pd data).

(** The instance a call on [data] leaves behind. *)
Definition after_create_plot (pd : MSPlot.Pandas) (self : MSPlot.t)
    (data : MSPlot.DataFrame) : MSPlot.t :=
  MSPlot.fill_end (MSPlot.fill_start self (MSPlot.considered pd data))
    (MSPlot.considered pd data).

(** A numeric dtype: the columns [abs] and [* 100] accept. *)
Definition numeric_dtype (s : Series) : bool :=
  match s with
  | SInt64 _ | SFloat64 _ => true
  | _ => false
  end.

(** The value of a text cell; a missing one is [nan]. *)
Definition text_value (cell : option string) : Scalar :=
  match cell with
  | Some s => VStr s
  | None => VFloat nan
  end.

(** The values of a column, in row order. *)
Definition series_values (s : Series) : list Scalar :=
  match s with
  | SObject l => map text_value l
  | SInt64 l => map VInt l
  | SFloat64 l => map VFloat l
  | SDatetime l => map VTime l
  end.

(** [row[name]]: the value one record has under a column name of the
    parsed catalog; no value under any other name. *)
Definition attribute (name : string) (r : MSPlot.EventRow) : option Scalar :=
  let event := MSPlot.source r in
  if String.eqb name "Stage" then Some (VInt (MSPlot.Stage event))
  else if String.eqb name "Brune Magnitude" then
    Some (VFloat (MSPlot.Brune_Magnitude event))
  else if String.eqb name "Origin DateTime" then
    Some (VTime (MSPlot.Origin_DateTime r))
  else if String.eqb name "Origin Time - Millisecond (UTC)" then
    Some (VInt (MSPlot.Origin_Millisecond event))
  else if String.eqb name "Origin Time - Time (UTC) - HH:MM:ss" then
    Some (text_value (MSPlot.Origin_Time event))
  else if String.eqb name "Origin Time - Date (UTC) - MM/DD/YYYY" then
    Some (text_value (MSPlot.Origin_Date event))
  else if String.eqb name "Depth TVDSS (ft)" then
    Some (VFloat (MSPlot.Depth_TVDSS event))
  else if String.eqb name "Northing (ft)" then Some (VFloat (MSPlot.Northing event))
  else if String.eqb name "Easting (ft)" then Some (VFloat (MSPlot.Easting event))
  else if String.eqb name "File Name" then Some (text_value (MSPlot.File_Name event))
  else None.

(** [abs(v) * 100] on one value, in the arithmetic of its dtype: binary64
    for a float, 64-bit two's complement for an integer. *)
Definition scaled_magnitude (v : Scalar) : Scalar :=
  match v with
  | VFloat f => VFloat (PrimFloat.mul (PrimFloat.abs f) 100%float)
  | VInt n => VInt (wrap64 (wrap64 (Z.abs n) * 100))
  | other => other
  end.

(** A marker size plotly accepts: a number that is at least 0. *)
Definition plottable (size : option Scalar) : Prop :=
  match size with
  | Some (VInt n) => 0 <= n
  | Some (VFloat f) => PrimFloat.leb 0%float f = true
  | _ => False
  end.

(** ** Order of column values *)

(** binary64 values other than NaN, and their order. *)
Definition not_nan (f : float) : Prop := is_nan f = false.
Definition float_le (f g : float) : Prop := PrimFloat.leb f g = true.

(** The order of the values of one column, and the missing values that
    [min] and [max] skip. *)
Definition scalar_leb (a b : Scalar) : bool :=
  match a, b with
  | VStr s, VStr s' => String.leb s s'
  | VInt m, VInt n => m <=? n
  | VFloat f, VFloat g => PrimFloat.leb f g
  | VTime (Ts m), VTime (Ts n) => m <=? n
  | _, _ => false
  end.

Definition missing (v : Scalar) : bool :=
  match v with
  | VFloat f => is_nan f
  | VTime NaT => true
  | _ => false
  end.

Definition least (m : Scalar) (vs : list Scalar) : Prop :=
  In m vs /\ missing m = false /\
  forall v, In v vs -> missing v = false -> scalar_leb m v = true.

Definition greatest (m : Scalar) (vs : list Scalar) : Prop :=
  In m vs /\ missing m = false /\
  forall v, In v vs -> missing v = false -> scalar_leb v m = true.

(** A record is in the window when both bounds are timestamps, the
    record has a timestamp, and it lies between them, bounds included. *)
Definition in_window (lower upper : Timestamp) (r : MSPlot.EventRow) : Prop :=
  exists lo hi stamp : Z,
    lower = Ts lo /\ upper = Ts hi /\ MSPlot.Origin_DateTime r = Ts stamp /\
    lo <= stamp <= hi.

(** The same, decided. *)
Definition inside (lower upper : Timestamp) (r : MSPlot.EventRow) : bool :=
  match lower, MSPlot.Origin_DateTime r, upper with
  | Ts lo, Ts stamp, Ts hi => (lo <=? stamp) && (stamp <=? hi)
  | _, _, _ => false
  end.

Definition has_timestamp (r : MSPlot.EventRow) : bool :=
  match MSPlot.Origin_DateTime r with
  | Ts _ => true
  | NaT => false
  end.

(** [selects P l l']: [l'] is [l] with exactly the elements that satisfy
    [P], each kept once and in place. *)
Inductive selects {A : Type} (P : A -> Prop) : list A -> list A -> Prop :=
| selects_nil : selects P [] []
| selects_keep (a : A) (l l' : list A) :
    P a -> selects P l l' -> selects P (a :: l) (a :: l')
| selects_drop (a : A) (l l' : list A) :
    ~ P a -> selects P l l' -> selects P (a :: l) l'.

(** The column names of the parsed catalog, and those of its numeric
    columns. *)
Definition column_names : list string :=
  ["File Name"; "Easting (ft)"; "Northing (ft)"; "Depth TVDSS (ft)";
   "Origin Time - Date (UTC) - MM/DD/YYYY"; "Origin Time - Time (UTC) - HH:MM:ss";
   "Origin Time - Millisecond (UTC)"; "Brune Magnitude"; "Stage"; "Origin DateTime"].

Definition numeric_columns : list string :=
  ["Easting (ft)"; "Northing (ft)"; "Depth TVDSS (ft)";
   "Origin Time - Millisecond (UTC)"; "Brune Magnitude"; "Stage"].

(** The trace [create_plot] builds from a filtered record set and a
    marker. *)
Definition point_cloud (df : MSPlot.DataFrame) (marker : go.Marker) : go.Scatter3d :=
  {| go.x := SFloat64 (map (fun r => MSPlot.Easting (MSPlot.source r)) df);
     go.y := SFloat64 (map (fun r => MSPlot.Northing (MSPlot.source r)) df);
     go.z := SFloat64 (map (fun r => MSPlot.Depth_TVDSS (MSPlot.source r)) df);
     go.text := Some (MSPlot.hover_text df);
     go.mode := "markers";
     go.marker := Some marker;
     go.line := None;
     go.name := None |}.

(** ** DataViewer: leaves of the input *)

(** The leaves of the input: its elements, with the elements of a
    nested list in the list's place (one level). *)
Definition leaves (plot_objects : list DataViewer.PyObject) : list DataViewer.PyObject :=
  flat_map (fun b => match b with
                     | DataViewer.PyList items => items
                     | _ => [b]
                     end) plot_objects.

(** The drawables among some leaves, in order. *)
Definition drawables (l : list DataViewer.PyObject) : list go.Scatter3d :=
  flat_map (fun c => match c with
                     | DataViewer.Trace tr => [tr]
                     | _ => []
                     end) l.

(** The other leaves, in order. *)
Definition rejected (l : list DataViewer.PyObject) : list DataViewer.PyObject :=
  filter (fun c => negb (DataViewer.isinstance_Scatter3d c)) l.

(** ** WellPlot: columns, polylines and file layouts *)

(** The column of a table under a name, one cell per record, in the
    order of the records. *)
Definition column_under (name : string) (df : WellPlot.Table) : Series :=
  SObject (map (fun record =>
                  Some (WellPlot.cell_under name (WellPlot.columns df) record))
               (WellPlot.rows df)).

(** The polyline expected for one trajectory. *)
Definition polyline (df : WellPlot.Table) (stroke label : string) : go.Scatter3d :=
  {| go.x := column_under "EW" df;
     go.y := column_under "NS" df;
     go.z := column_under "TVD" df;
     go.text := None;
     go.mode := "lines";
     go.marker := None;
     go.line := Some {| go.line_color := stroke; go.line_width := 3 |};
     go.name := Some label |}.

Definition has_positions (df : WellPlot.Table) : Prop :=
  In "EW" (WellPlot.columns df) /\ In "NS" (WellPlot.columns df) /\
  In "TVD" (WellPlot.columns df).

(** The polylines expected for any number of loaded trajectories, the
    first of them at index [i]: the palette color at the index modulo 4
    and the label made of the index plus one and [H]. *)
Fixpoint polylines_from (i : nat) (frames : list WellPlot.Table) : list go.Scatter3d :=
  match frames with
  | [] => []
  | df :: rest =>
      polyline df (nth (Nat.modulo i 4) WellPlot.colors EmptyString)
               (WellPlot.label (i + 1))
      :: polylines_from (S i) rest
  end.

(** The reading of a variant-A file in the words of the specification:
    the header is present, as the first line; the one line after it,
    which describes the header, is skipped; the 5 trailing lines are
    skipped; the four columns are selected by name. *)
Definition spec_variant_A (pd : WellPlot.Reader) (file : WellPlot.CsvFile)
    : Result WellPlot.Table :=
  WellPlot.parse pd (firstn 1 file ++ skipn 2 file) 0 5 WellPlot.survey_columns None.

(** The stations under the header of a file, read by name: for each of
    the four survey columns, the cells the stations have under it. *)
Definition stations_under (header : list string) (stations : WellPlot.CsvFile)
    (df : WellPlot.Table) : Prop :=
  forall name, In name WellPlot.survey_columns ->
    WellPlot.getitem (WellPlot.Frame df) name
    = Ok (SObject (map (fun record => Some (WellPlot.cell_under name header record))
                       stations)).

(* ================================================================== *)
(** * One pandas, one plotly and one reader

    The properties below hold for every [MSPlot.Pandas], [go.Plotly] and
    [WellPlot.Reader].  To show them on data, one of each is fixed here. *)
(* ================================================================== *)

Ltac inv H := inversion H; subst; clear H.

(** ** Results and vectorised operations *)

Lemma bind_Ok {A B : Type} (m : Result A) (k : A -> Result B) (b : B) :
  bind m k = Ok b -> exists a, m = Ok a /\ k a = Ok b.
Proof.
  destruct m as [a|e]; simpl; intros H; [eauto | discriminate].
Qed.

Lemma mapM_Forall2 {A B : Type} (f : A -> Result B) (l : list A) (l' : list B) :
  mapM f l = Ok l' -> Forall2 (fun a b => f a = Ok b) l l'.
Proof.
  revert l'. induction l as [|a l IH]; simpl; intros l' H.
  - inv H. constructor.
  - apply bind_Ok in H. destruct H as (b & Hb & H).
    apply bind_Ok in H. destruct H as (bs & Hbs & H). inv H.
    constructor; auto.
Qed.

Lemma Forall2_map_left {A B C : Type} (R : B -> C -> Prop) (g : A -> B) l l' :
  Forall2 R (map g l) l' -> Forall2 (fun a c => R (g a) c) l l'.
Proof.
  revert l'. induction l as [|a l IH]; intros l' H; inv H; constructor; auto.
Qed.

Lemma mapM_length {A B : Type} (f : A -> Result B) (l : list A) (l' : list B) :
  mapM f l = Ok l' -> List.length l' = List.length l.
Proof.
  intros H. apply mapM_Forall2 in H. symmetry. eapply Forall2_length; eauto.
Qed.

(* ------------------------------------------------------------------ *)
(** ** A [to_datetime] for the catalog's documented format

    It reads the format the class documents for the catalog,
    [MM/DD/YYYY HH:MM:ss]: month, day and a four-digit year separated by
    [/], one space, hour, minute and second separated by [:], each of one
    or two digits.  A missing text gives [NaT]; any other text makes it
    raise. *)

Definition digit_of_ascii (c : ascii) : option Z :=
  let n := Z.of_nat (nat_of_ascii c) in
  if (48 <=? n) && (n <=? 57) then Some (n - 48) else None.

Fixpoint digits_from (acc : Z) (s : string) : option Z :=
  match s with
  | EmptyString => Some acc
  | String c s' =>
      match digit_of_ascii c with
      | Some d => digits_from (10 * acc + d) s'
      | None => None
      end
  end.

Definition parse_decimal (s : string) : option Z :=
  match s with
  | EmptyString => None
  | _ => digits_from 0 s
  end.

(** [split_on sep s]: the fields of [s] between occurrences of [sep]. *)
Fixpoint split_on (sep : ascii) (s : string) : list string :=
  match s with
  | EmptyString => [EmptyString]
  | String c s' =>
      if Ascii.eqb c sep then EmptyString :: split_on sep s'
      else
        match split_on sep s' with
        | [] => [String c EmptyString]
        | f :: fs => String c f :: fs
        end
  end.

Definition is_leap_year (yr : Z) : bool :=
  (yr mod 4 =? 0) && (negb (yr mod 100 =? 0) || (yr mod 400 =? 0)).

Definition days_in_month (yr mo : Z) : Z :=
  if mo =? 2 then (if is_leap_year yr then 29 else 28)
  else if (mo =? 4) || (mo =? 6) || (mo =? 9) || (mo =? 11) then 30
  else 31.

(** Days between 1970-01-01 and the given proleptic Gregorian date. *)
Definition days_from_civil (yr mo dy : Z) : Z :=
  let y' := if mo <=? 2 then yr - 1 else yr in
  let era := y' / 400 in
  let yoe := y' - era * 400 in
  let mp := if mo <=? 2 then mo + 9 else mo - 3 in
  let doy := (153 * mp + 2) / 5 + dy - 1 in
  let doe := yoe * 365 + yoe / 4 - yoe / 100 + doy in
  era * 146097 + doe - 719468.

Definition seconds_of_fields (mo dy yr hh mi ss : Z) : option Z :=
  if (1 <=? mo) && (mo <=? 12) && (1 <=? dy) && (dy <=? days_in_month yr mo)
     && (hh <? 24) && (mi <? 60) && (ss <? 60)
  then Some (((days_from_civil yr mo dy * 24 + hh) * 60 + mi) * 60 + ss)
  else None.

(** A decimal field of [lo] to [hi] digits. *)
Definition parse_field (lo hi : nat) (s : string) : option Z :=
  if ((lo <=? String.length s) && (String.length s <=? hi))%nat
  then parse_decimal s else None.

Definition parse_seconds (s : string) : option Z :=
  match split_on " " s with
  | [d; t] =>
      match split_on "/" d, split_on ":" t with
      | [mo; dy; yr], [hh; mi; ss] =>
          match parse_field 1 2 mo, parse_field 1 2 dy, parse_field 4 4 yr,
                parse_field 1 2 hh, parse_field 1 2 mi, parse_field 1 2 ss with
          | Some mo, Some dy, Some yr, Some hh, Some mi, Some ss =>
              seconds_of_fields mo dy yr hh mi ss
          | _, _, _, _, _, _ => None
          end
      | _, _ => None
      end
  | _ => None
  end.

Definition mdy_to_timestamp (text : option string) : Result Timestamp :=
  match text with
  | None => Ok NaT
  | Some s =>
      match parse_seconds s with
      | Some secs =>
          let ns := secs * ns_per_second in
          if in_ns_bounds ns then Ok (Ts ns) else Raise OutOfBoundsError
      | None => Raise (ValueError s)
      end
  end.

Definition mdy_to_datetime (texts : list (option string)) : Result (list Timestamp) :=
  mapM mdy_to_timestamp texts.

Lemma mdy_to_datetime_length (texts : list (option string)) (parsed : list Timestamp) :
  mdy_to_datetime texts = Ok parsed -> List.length parsed = List.length texts.
Proof. apply mapM_length. Qed.

(* ------------------------------------------------------------------ *)
(** ** A [sort_values]: insertion, which keeps the order of rows with
    equal timestamps *)

Definition not_after (a b : Timestamp) : bool :=
  match a, b with
  | Ts m, Ts n => m <=? n
  | _, NaT => true
  | NaT, Ts _ => false
  end.

Fixpoint insert_by_time (r : MSPlot.EventRow) (l : MSPlot.DataFrame) : MSPlot.DataFrame :=
  match l with
  | [] => [r]
  | h :: l' =>
      if not_after (MSPlot.Origin_DateTime r) (MSPlot.Origin_DateTime h) then r :: l
      else h :: insert_by_time r l'
  end.

Definition insertion_sort (df : MSPlot.DataFrame) : MSPlot.DataFrame :=
  fold_right insert_by_time [] df.

Lemma not_after_ascending (a b : MSPlot.EventRow) :
  not_after (MSPlot.Origin_DateTime a) (MSPlot.Origin_DateTime b) = true
  <-> MSPlot.ascending a b.
Proof.
  unfold MSPlot.ascending, not_after.
  destruct (MSPlot.Origin_DateTime a), (MSPlot.Origin_DateTime b);
    rewrite ?Z.leb_le; intuition congruence.
Qed.

Lemma ascending_total (a b : MSPlot.EventRow) :
  MSPlot.ascending a b \/ MSPlot.ascending b a.
Proof.
  unfold MSPlot.ascending.
  destruct (MSPlot.Origin_DateTime a), (MSPlot.Origin_DateTime b); auto; lia.
Qed.

Lemma ascending_trans (a b c : MSPlot.EventRow) :
  MSPlot.ascending a b -> MSPlot.ascending b c -> MSPlot.ascending a c.
Proof.
  unfold MSPlot.ascending.
  destruct (MSPlot.Origin_DateTime a), (MSPlot.Origin_DateTime b),
    (MSPlot.Origin_DateTime c); auto; try contradiction; lia.
Qed.

Lemma insert_by_time_In (r a : MSPlot.EventRow) (l : MSPlot.DataFrame) :
  In r (insert_by_time a l) <-> r = a \/ In r l.
Proof.
  induction l as [|h l IH]; simpl.
  - intuition congruence.
  - destruct (not_after _ _); simpl.
    + intuition congruence.
    + rewrite IH. intuition congruence.
Qed.

Lemma insert_by_time_sorted (r : MSPlot.EventRow) (l : MSPlot.DataFrame) :
  StronglySorted MSPlot.ascending l ->
  StronglySorted MSPlot.ascending (insert_by_time r l).
Proof.
  induction 1 as [|h l Hs IH Hh]; simpl.
  - constructor; constructor.
  - destruct (not_after (MSPlot.Origin_DateTime r) (MSPlot.Origin_DateTime h)) eqn:E.
    + apply not_after_ascending in E.
      constructor; [now constructor|].
      constructor; [exact E|].
      rewrite Forall_forall in Hh |- *. intros b Hb.
      eapply ascending_trans; eauto.
    + assert (Hhr : MSPlot.ascending h r).
      { destruct (ascending_total r h) as [H|H]; [|exact H].
        apply not_after_ascending in H. congruence. }
      constructor; [exact IH|].
      rewrite Forall_forall in Hh |- *. intros b Hb.
      apply insert_by_time_In in Hb. destruct Hb as [-> | Hb]; auto.
Qed.

Lemma insertion_sort_sorted (df : MSPlot.DataFrame) :
  StronglySorted MSPlot.ascending (insertion_sort df).
Proof.
  unfold insertion_sort. induction df as [|r df IH]; simpl.
  - constructor.
  - now apply insert_by_time_sorted.
Qed.

Lemma insert_by_time_perm (r : MSPlot.EventRow) (l : MSPlot.DataFrame) :
  Permutation (insert_by_time r l) (r :: l).
Proof.
  induction l as [|h l IH]; simpl; [reflexivity|].
  destruct (not_after _ _); [reflexivity|].
  rewrite IH. apply perm_swap.
Qed.

Lemma insertion_sort_perm (df : MSPlot.DataFrame) :
  Permutation (insertion_sort df) df.
Proof.
  unfold insertion_sort. induction df as [|r df IH]; simpl; [reflexivity|].
  rewrite insert_by_time_perm. now constructor.
Qed.

(* ------------------------------------------------------------------ *)
(** ** [min()] and [max()] of text: missing cells skipped, the rest in
    the order of [String.compare] *)

Definition string_min (a b : string) : string := if String.ltb b a then b else a.
Definition string_max (a b : string) : string := if String.ltb a b then b else a.

Definition text_min (l : list (option string)) : Result Scalar :=
  Ok (reduce string_min VStr (VFloat nan) (present l)).

Definition text_max (l : list (option string)) : Result Scalar :=
  Ok (reduce string_max VStr (VFloat nan) (present l)).

Definition mdy_pandas : MSPlot.Pandas :=
  {| MSPlot.to_datetime := mdy_to_datetime;
     MSPlot.to_datetime_length := mdy_to_datetime_length;
     MSPlot.sort_values := insertion_sort;
     MSPlot.sort_values_permutes := insertion_sort_perm;
     MSPlot.sort_values_ascending := insertion_sort_sorted;
     MSPlot.object_min := text_min;
     MSPlot.object_max := text_max |}.

(** Five of the color scales plotly names. *)
Definition named_plotly : go.Plotly :=
  {| go.named_colorscale :=
       fun s => existsb (String.eqb s) ["Viridis"; "Cividis"; "Plasma"; "Inferno"; "Magma"];
     go.Viridis_named := eq_refl |}.

(* ------------------------------------------------------------------ *)
(** ** A reader that takes every file for a regular one

    After the leading lines it takes the header (or the names), drops the
    trailing lines and reads every remaining line by name. *)

Definition drop_footer (skipfooter : nat) (records : WellPlot.CsvFile) : WellPlot.CsvFile :=
  firstn (List.length records - skipfooter) records.

Definition select_columns (header : list string) (records : WellPlot.CsvFile)
    (usecols : list string) : Result WellPlot.Table :=
  if forallb (fun c => WellPlot.mem_string c header) usecols then
    Ok (WellPlot.by_name header usecols records)
  else Raise (ValueError "Usecols do not match columns").

Definition plain_parse (file : WellPlot.CsvFile) (skiprows skipfooter : nat)
    (usecols : list string) (names : option (list string)) : Result WellPlot.Table :=
  match names, skipn skiprows file with
  | Some ns, body => select_columns ns (drop_footer skipfooter body) usecols
  | None, header :: body => select_columns header (drop_footer skipfooter body) usecols
  | None, [] => Raise (ValueError "No columns to parse from file")
  end.

Lemma mem_string_In (s : string) (l : list string) :
  WellPlot.mem_string s l = true <-> In s l.
Proof.
  unfold WellPlot.mem_string. rewrite existsb_exists. split.
  - intros (x & Hx & E). apply String.eqb_eq in E. now subst.
  - intros H. exists s. split; [assumption | apply String.eqb_refl].
Qed.

Lemma select_columns_selects (header : list string) (records : WellPlot.CsvFile)
    (usecols : list string) (tbl : WellPlot.Table) :
  select_columns header records usecols = Ok tbl ->
  Forall (fun c => In c (WellPlot.columns tbl)) usecols.
Proof.
  unfold select_columns. destruct (forallb _ usecols) eqn:E; [|discriminate].
  intros H. inv H. rewrite forallb_forall in E.
  apply Forall_forall. intros c Hc. cbn [WellPlot.by_name WellPlot.columns].
  apply filter_In. split.
  - apply mem_string_In. now apply E.
  - now apply mem_string_In.
Qed.

Lemma select_columns_all (header : list string) (records : WellPlot.CsvFile)
    (usecols : list string) :
  Forall (fun c => In c header) usecols ->
  select_columns header records usecols = Ok (WellPlot.by_name header usecols records).
Proof.
  intros H. unfold select_columns.
  replace (forallb _ usecols) with true; [reflexivity|].
  symmetry. apply forallb_forall. intros c Hc. apply mem_string_In.
  rewrite Forall_forall in H. auto.
Qed.

Lemma drop_footer_app (stations footer : WellPlot.CsvFile) :
  drop_footer (List.length footer) (stations ++ footer) = stations.
Proof.
  unfold drop_footer. rewrite length_app, Nat.add_sub.
  rewrite firstn_app, Nat.sub_diag, firstn_all. simpl. apply app_nil_r.
Qed.

Lemma cells_under_names (names record : list string) :
  NoDup names -> List.length record = List.length names ->
  map (fun c => WellPlot.cell_under c names record) names = record.
Proof.
  revert record. induction names as [|h names IH]; intros [|a record] Hnd Hlen;
    try discriminate; [reflexivity|].
  inv Hnd. simpl. rewrite String.eqb_refl. f_equal.
  transitivity (map (fun c => WellPlot.cell_under c names record) names);
    [|apply IH; [assumption | simpl in Hlen; lia]].
  apply map_ext_in. intros c Hc.
  destruct (String.eqb_spec c h) as [->|_]; [contradiction | reflexivity].
Qed.

Lemma filter_mem_all (names : list string) :
  filter (fun h => WellPlot.mem_string h names) names = names.
Proof.
  assert (H : forall l, incl l names ->
                filter (fun h => WellPlot.mem_string h names) l = l).
  { induction l as [|a l IH]; intros Hincl; [reflexivity|]. simpl.
    replace (WellPlot.mem_string a names) with true
      by (symmetry; apply mem_string_In, Hincl; now left).
    f_equal. apply IH. intros x Hx. apply Hincl. now right. }
  apply H, incl_refl.
Qed.

Lemma by_name_all (names : list string) (stations : WellPlot.CsvFile) :
  NoDup names ->
  Forall (fun record => List.length record = List.length names) stations ->
  WellPlot.by_name names names stations
  = {| WellPlot.columns := names; WellPlot.rows := stations |}.
Proof.
  intros Hnd Hall. unfold WellPlot.by_name. rewrite filter_mem_all. f_equal.
  induction Hall as [|record stations Hlen _ IH]; [reflexivity|].
  simpl. now rewrite cells_under_names, IH.
Qed.

Lemma plain_parse_selects (file : WellPlot.CsvFile) (skiprows skipfooter : nat)
    (usecols : list string) (names : option (list string)) (tbl : WellPlot.Table) :
  plain_parse file skiprows skipfooter usecols names = Ok tbl ->
  Forall (fun c => In c (WellPlot.columns tbl)) usecols.
Proof.
  unfold plain_parse. destruct names as [ns|].
  - apply select_columns_selects.
  - destruct (skipn skiprows file) as [|header body]; [discriminate|].
    apply select_columns_selects.
Qed.

Lemma plain_parse_headed (file : WellPlot.CsvFile) (skiprows skipfooter : nat)
    (usecols header : list string) (stations : WellPlot.CsvFile) :
  WellPlot.headed_layout file skiprows skipfooter usecols header stations ->
  plain_parse file skiprows skipfooter usecols None
  = Ok (WellPlot.by_name header usecols stations).
Proof.
  intros (_ & (footer & Hskip & Hfoot) & _ & _ & Hcols & _). unfold plain_parse.
  rewrite Hskip, <- Hfoot, drop_footer_app. now apply select_columns_all.
Qed.

Lemma plain_parse_named (file : WellPlot.CsvFile) (skiprows : nat)
    (names : list string) (stations : WellPlot.CsvFile) :
  WellPlot.named_layout file skiprows names stations ->
  plain_parse file skiprows 0 names (Some names)
  = Ok {| WellPlot.columns := names; WellPlot.rows := stations |}.
Proof.
  intros (_ & Hskip & Hnd & _ & Hall). unfold plain_parse. rewrite Hskip.
  change 0%nat with (List.length (@nil (list string))).
  rewrite <- (app_nil_r stations) at 1. rewrite drop_footer_app.
  rewrite select_columns_all by (apply Forall_forall; auto).
  now rewrite by_name_all.
Qed.

Lemma plain_parse_nothing (file : WellPlot.CsvFile) (skiprows skipfooter : nat)
    (usecols : list string) :
  (List.length file <= skiprows)%nat ->
  exists e, plain_parse file skiprows skipfooter usecols None = Raise e.
Proof.
  intros H. unfold plain_parse. rewrite skipn_all2 by assumption. eauto.
Qed.

Definition plain_reader : WellPlot.Reader :=
  {| WellPlot.parse := plain_parse;
     WellPlot.refused := TypeError "argument of type 'method' is not iterable";
     WellPlot.parse_selects := plain_parse_selects;
     WellPlot.parse_headed := plain_parse_headed;
     WellPlot.parse_named := plain_parse_named;
     WellPlot.parse_nothing := plain_parse_nothing |}.

(* ------------------------------------------------------------------ *)
(** ** A demonstration catalog

    Three rows, chronological, with magnitudes -1.2, -0.5, -2.0 and
    stages 1, 1, 2. *)
Module Demo.

Local Set Warnings "-inexact-float".

Definition event_001 : MSPlot.CatalogRow :=
  MSPlot.mkCatalogRow (Some "event_001") 1000.5 2000.25 (-7500)
    (Some "01/19/2025") (Some "12:00:00") 250 (-1.2) 1.

Definition event_002 : MSPlot.CatalogRow :=
  MSPlot.mkCatalogRow (Some "event_002") 1010 2010 (-7510)
    (Some "01/19/2025") (Some "12:00:01") 0 (-0.5) 1.

Definition event_003 : MSPlot.CatalogRow :=
  MSPlot.mkCatalogRow (Some "event_003") 990 1990 (-7490)
    (Some "01/19/2025") (Some "12:00:02") 999 (-2.0) 2.

Definition catalog : list MSPlot.CatalogRow := [event_001; event_002; event_003].

(** A row whose date cell is empty, and a catalog that holds it. *)
Definition event_undated : MSPlot.CatalogRow :=
  MSPlot.mkCatalogRow (Some "event_undated") 1005 2005 (-7505)
    None (Some "12:00:01") 500 (-0.8) 1.

Definition catalog_undated : list MSPlot.CatalogRow :=
  [event_001; event_undated; event_003].

Definition env : MSPlot.Env :=
  MSPlot.mkEnv (fun p => String.eqb p "catalog.csv" || String.eqb p "undated.csv")
               (fun p => if String.eqb p "catalog.csv" then Ok catalog
                         else if String.eqb p "undated.csv" then Ok catalog_undated
                         else Raise (FileNotFoundError p)).

(** The instance after [load_csv('catalog.csv')]. *)
Definition loaded : MSPlot.t :=
  fst (MSPlot.load_csv mdy_pandas env "catalog.csv" MSPlot.init).

Definition rows : MSPlot.DataFrame :=
  match MSPlot.data loaded with
  | Some d => d
  | None => []
  end.

(** The instance after [load_csv('undated.csv')]. *)
Definition loaded_undated : MSPlot.t :=
  fst (MSPlot.load_csv mdy_pandas env "undated.csv" MSPlot.init).

Definition rows_undated : MSPlot.DataFrame :=
  match MSPlot.data loaded_undated with
  | Some d => d
  | None => []
  end.

(** The instance [loaded] with the window set to 12:00:00 - 12:00:01,
    which holds the first two events. *)
Definition windowed : MSPlot.t :=
  MSPlot.set_end_time
    (MSPlot.set_start_time loaded (Some (Ts 1737288000000000000)))
    (Some (Ts 1737288001000000000)).

(** Two parsed rows, to build long tables from. *)
Definition early : MSPlot.EventRow :=
  MSPlot.mkEventRow event_001 (Ts 1737288000250000000).
Definition late : MSPlot.EventRow :=
  MSPlot.mkEventRow event_003 (Ts 1737288002999000000).

(** An instance loaded with a table without rows, and one whose size
    attribute is no column. *)
Definition no_rows : MSPlot.t := MSPlot.set_data MSPlot.init [].

Definition by_name : MSPlot.t := MSPlot.set_sizeby loaded "Magnitude".

End Demo.

(** ** Demonstration surveys

    Four survey files: the first with 27 leading lines, a header, two
    stations and 5 trailing lines; the others with 22 leading lines and
    stations of four cells. *)
Module WellDemo.

Definition preamble (n : nat) : WellPlot.CsvFile := repeat ["Survey report"] n.

Definition header : list string := ["MD"; "Inc"; "Azimuth"; "TVD"; "NS"; "EW"].

Definition stations_A : WellPlot.CsvFile :=
  [["100"; "0.5"; "181.2"; "99.9"; "-0.4"; "0.1"];
   ["200"; "1.0"; "182.0"; "199.8"; "-1.7"; "0.3"]].

Definition file_A : WellPlot.CsvFile :=
  preamble 27 ++ [header] ++ stations_A ++ repeat ["End of survey"] 5.

Definition stations_B : WellPlot.CsvFile :=
  [["180.0"; "100.0"; "-0.5"; "0.2"];
   ["180.5"; "200.0"; "-1.9"; "0.6"];
   ["181.0"; "300.0"; "-4.1"; "1.1"]].

Definition file_B : WellPlot.CsvFile := preamble 22 ++ stations_B.

(** A file laid out as the header, one line describing it, two stations
    and 5 trailing lines. *)
Definition file_units : WellPlot.CsvFile :=
  [header; ["ft"; "deg"; "deg"; "ft"; "ft"; "ft"]]
  ++ stations_A ++ repeat ["End of survey"] 5.

Definition fs : WellPlot.FileSystem :=
  fun p =>
    if String.eqb p "well1.csv" then Some file_A
    else if String.eqb p "well2.csv" then Some file_B
    else if String.eqb p "well3.csv" then Some file_B
    else if String.eqb p "well4.csv" then Some file_B
    else if String.eqb p "units.csv" then Some file_units
    else None.

Definition wells : WellPlot.t :=
  WellPlot.init "well1.csv" "well2.csv" "well3.csv" "well4.csv".

Definition table_A : WellPlot.Table :=
  {| WellPlot.columns := ["Azimuth"; "TVD"; "NS"; "EW"];
     WellPlot.rows := [["181.2"; "99.9"; "-0.4"; "0.1"];
                       ["182.0"; "199.8"; "-1.7"; "0.3"]] |}.

Definition table_B : WellPlot.Table :=
  {| WellPlot.columns := ["Azimuth"; "TVD"; "NS"; "EW"];
     WellPlot.rows := stations_B |}.

Definition loaded : WellPlot.t :=
  WellPlot.mk (WellPlot.Frame table_A) (WellPlot.Frame table_B)
              (WellPlot.Frame table_B) (WellPlot.Frame table_B).

End WellDemo.

(* ================================================================== *)
(** * Properties *)
(* ================================================================== *)

(** ** Nanosecond arithmetic *)

Lemma to_timedelta_ms_exact (n d : Z) :
  to_timedelta_ms n = Ok d -> d = n * 1000000.
Proof.
  unfold to_timedelta_ms, ns_per_ms. destruct (in_ns_bounds _); intros H; now inv H.
Qed.

Lemma add_timedelta_NaT (d : Z) (r : Timestamp) :
  add_timedelta NaT d = Ok r -> r = NaT.
Proof. simpl. intros H. now inv H. Qed.

Lemma add_timedelta_exact (base d : Z) (r : Timestamp) :
  add_timedelta (Ts base) d = Ok r -> r = Ts (base + d).
Proof.
  unfold add_timedelta. destruct (in_ns_bounds _); intros H; now inv H.
Qed.

Lemma subsecond_part (base ms : Z) :
  base mod 1000000000 = 0 -> 0 <= ms < 1000 ->
  (base + ms * 1000000) mod 1000000000 = ms * 1000000.
Proof.
  intros Hb Hms.
  rewrite Z.add_mod by lia. rewrite Hb. simpl.
  rewrite Z.mod_mod by lia. apply Z.mod_small. lia.
Qed.

(** ** MSPlot.load_csv *)

Lemma datetime_text_origin_text (rows : list MSPlot.CatalogRow) :
  map MSPlot.datetime_text rows = map origin_text rows.
Proof.
  apply map_ext. intros c. unfold MSPlot.datetime_text, origin_text.
  destruct (MSPlot.Origin_Date c), (MSPlot.Origin_Time c); reflexivity.
Qed.

Lemma shifted_rows (rows : list MSPlot.CatalogRow) :
  forall (parsed : list Timestamp) (offsets : list Z) (col : list Timestamp),
    List.length parsed = List.length rows ->
    Forall2 (fun c d => to_timedelta_ms (MSPlot.Origin_Millisecond c) = Ok d)
            rows offsets ->
    Forall2 (fun p stamp => add_timedelta (fst p) (snd p) = Ok stamp)
            (combine parsed offsets) col ->
    List.length col = List.length rows /\
    Forall2 origin_derived (MSPlot.attach_origin rows col) parsed.
Proof.
  unfold MSPlot.attach_origin.
  induction rows as [|c rows IH]; intros parsed offsets col Hlen Hoff Hadd.
  - destruct parsed; [|discriminate]. inv Hoff. inv Hadd. split; [reflexivity|constructor].
  - destruct parsed as [|p parsed]; [discriminate|]. inv Hoff. simpl in Hadd. inv Hadd.
    destruct (IH parsed l' l'0) as [IHlen IHall]; auto.
    split; [simpl; now rewrite IHlen|].
    simpl. constructor; [|exact IHall].
    match goal with
    | Hd : to_timedelta_ms _ = Ok _ |- _ => apply to_timedelta_ms_exact in Hd; subst
    end.
    unfold origin_derived. cbn [fst snd] in *. destruct p as [|base].
    + match goal with Ha : add_timedelta NaT _ = _ |- _ =>
        apply add_timedelta_NaT in Ha; now subst end.
    + match goal with Ha : add_timedelta (Ts base) _ = _ |- _ =>
        apply add_timedelta_exact in Ha; subst end.
      eexists. split; [reflexivity|]. split; [reflexivity|].
      cbn [MSPlot.source MSPlot.Origin_DateTime]. apply subsecond_part.
Qed.

Lemma origin_datetime_column_rows (pd : MSPlot.Pandas)
    (rows : list MSPlot.CatalogRow) (col : list Timestamp) :
  MSPlot.origin_datetime_column pd rows = Ok col ->
  List.length col = List.length rows /\
  exists parsed : list Timestamp,
    MSPlot.to_datetime pd (map origin_text rows) = Ok parsed /\
    Forall2 origin_derived (MSPlot.attach_origin rows col) parsed.
Proof.
  unfold MSPlot.origin_datetime_column. intros H.
  apply bind_Ok in H. destruct H as (parsed & Hp & H).
  apply bind_Ok in H. destruct H as (offsets & Ho & H).
  apply mapM_Forall2 in Ho. apply Forall2_map_left in Ho.
  apply mapM_Forall2 in H.
  pose proof (MSPlot.to_datetime_length pd _ _ Hp) as Hlen.
  rewrite length_map in Hlen.
  destruct (shifted_rows rows parsed offsets col Hlen Ho H) as [Hcol Hall].
  split; [exact Hcol|]. exists parsed.
  rewrite <- datetime_text_origin_text. auto.
Qed.

Lemma attach_origin_source (rows : list MSPlot.CatalogRow) (col : list Timestamp) :
  List.length col = List.length rows ->
  map MSPlot.source (MSPlot.attach_origin rows col) = rows.
Proof.
  unfold MSPlot.attach_origin. revert col.
  induction rows as [|c rows IH]; intros [|stamp col] Hlen; try discriminate;
    [reflexivity|].
  simpl. f_equal. apply IH. simpl in Hlen. lia.
Qed.

(** C1.  Whenever [load_csv] succeeds, the instance holds a table whose
    rows are the rows read from the file.  [pd.to_datetime] was given,
    row by row, the row's date text, one space and the row's time text,
    and on every row the derived ['Origin DateTime'] is the datetime it
    parsed there plus the row's millisecond count, added exactly (one
    millisecond is 1,000,000 ns, no rounding): for a parsed datetime that
    is a whole second and a count between 0 and 999, the sub-second part
    of the timestamp is exactly that many milliseconds.  A row for which
    nothing was parsed ([NaT]) has no timestamp. *)
Theorem load_csv_origin_datetime
    (pd : MSPlot.Pandas) (env : MSPlot.Env) (path : string) (self self' : MSPlot.t) :
  MSPlot.load_csv pd env path self = (self', Ok true) ->
  exists (rows : MSPlot.DataFrame) (parsed : list Timestamp),
    MSPlot.data self' = Some rows /\
    MSPlot.read_csv env path = Ok (map MSPlot.source rows) /\
    MSPlot.to_datetime pd (map origin_text (map MSPlot.source rows)) = Ok parsed /\
    Forall2 origin_derived rows parsed.
Proof.
  unfold MSPlot.load_csv. intros H.
  destruct (negb (MSPlot.path_exists env path)); [inv H|].
  destruct (MSPlot.read_csv env path) as [needed|e]; [|inv H].
  destruct (MSPlot.origin_datetime_column pd needed) as [col|e] eqn:Hcol; inv H.
  apply origin_datetime_column_rows in Hcol.
  destruct Hcol as (Hlen & parsed & Hparsed & Hall).
  exists (MSPlot.attach_origin needed col), parsed.
  rewrite (attach_origin_source _ _ Hlen). auto.
Qed.

(** C1, on the three-row catalog: the load succeeds and the rows, with
    250, 0 and 999 ms, are stamped 2025-01-19 12:00:00.250, 12:00:01.000
    and 12:00:02.999.  In the catalog whose second row has no date, that
    row has no timestamp. *)
Lemma load_csv_origin_datetime_witness :
  (exists (rows : MSPlot.DataFrame) (parsed : list Timestamp),
      MSPlot.data Demo.loaded = Some rows /\
      MSPlot.read_csv Demo.env "catalog.csv" = Ok (map MSPlot.source rows) /\
      MSPlot.to_datetime mdy_pandas (map origin_text (map MSPlot.source rows)) = Ok parsed /\
      Forall2 origin_derived rows parsed) /\
  map MSPlot.Origin_DateTime Demo.rows
  = [Ts 1737288000250000000; Ts 1737288001000000000; Ts 1737288002999000000] /\
  map MSPlot.Origin_DateTime Demo.rows_undated
  = [Ts 1737288000250000000; NaT; Ts 1737288002999000000].
Proof.
  split; [|split; vm_compute; reflexivity].
  apply (load_csv_origin_datetime mdy_pandas Demo.env "catalog.csv" MSPlot.init Demo.loaded).
  vm_compute. reflexivity.
Defined.

(** ** MSPlot.create_plot: the window and the instance after the call *)

Lemma after_create_plot_bounds (pd : MSPlot.Pandas) (self : MSPlot.t)
    (data : MSPlot.DataFrame) :
  MSPlot.plot_start_time (after_create_plot pd self data)
  = Some (lower_bound pd self data) /\
  MSPlot.plot_end_time (after_create_plot pd self data)
  = Some (upper_bound pd self data).
Proof.
  unfold after_create_plot, MSPlot.fill_end, MSPlot.fill_start, lower_bound, upper_bound.
  destruct self as [cat cb cs sb sr st en ti da]; simpl.
  destruct st, en; simpl; auto.
Qed.

Lemma after_create_plot_frame (pd : MSPlot.Pandas) (self : MSPlot.t)
    (data : MSPlot.DataFrame) :
  MSPlot.size_by (after_create_plot pd self data) = MSPlot.size_by self /\
  MSPlot.color_by (after_create_plot pd self data) = MSPlot.color_by self /\
  MSPlot.color_scale (after_create_plot pd self data) = MSPlot.color_scale self /\
  MSPlot.data (after_create_plot pd self data) = MSPlot.data self.
Proof.
  unfold after_create_plot, MSPlot.fill_end, MSPlot.fill_start.
  destruct self as [cat cb cs sb sr st en ti da]; simpl.
  destruct st, en; simpl; auto.
Qed.

Lemma scatter_of_frame (pd : MSPlot.Pandas) (plotly : go.Plotly)
    (self self' : MSPlot.t) (df : MSPlot.DataFrame) :
  MSPlot.size_by self' = MSPlot.size_by self ->
  MSPlot.color_by self' = MSPlot.color_by self ->
  MSPlot.color_scale self' = MSPlot.color_scale self ->
  MSPlot.scatter_of pd plotly self' df = MSPlot.scatter_of pd plotly self df.
Proof.
  unfold MSPlot.scatter_of. intros -> -> ->. reflexivity.
Qed.

(** [create_plot] in one equation: the instance after the call, and the
    trace built from the filtered record set. *)
Lemma create_plot_eq (pd : MSPlot.Pandas) (plotly : go.Plotly) (self : MSPlot.t)
    (data : MSPlot.DataFrame) :
  MSPlot.data self = Some data ->
  MSPlot.create_plot pd plotly self
  = (after_create_plot pd self data,
     MSPlot.scatter_of pd plotly self (df_filtered pd self data)).
Proof.
  intros Hd. unfold MSPlot.create_plot. rewrite Hd.
  fold (after_create_plot pd self data).
  destruct (after_create_plot_bounds pd self data) as [-> ->].
  destruct (after_create_plot_frame pd self data) as (Hs & Hc & Hcs & _).
  simpl. f_equal. now apply scatter_of_frame.
Qed.

Lemma filter_sorted {A : Type} (R : A -> A -> Prop) (f : A -> bool) (l : list A) :
  StronglySorted R l -> StronglySorted R (filter f l).
Proof.
  induction 1 as [|a l Hs IH Ha]; simpl; [constructor|].
  destruct (f a); [|exact IH].
  constructor; [exact IH|].
  rewrite Forall_forall in Ha |- *. intros b Hb. apply filter_In in Hb. now apply Ha.
Qed.

Lemma filter_permutation (keep : MSPlot.EventRow -> bool) (l l' : MSPlot.DataFrame) :
  Permutation l l' -> Permutation (filter keep l) (filter keep l').
Proof.
  induction 1 as [|r l l' _ IH|a b l|l l' l'' _ IH1 _ IH2]; simpl.
  - constructor.
  - destruct (keep r); [now constructor | exact IH].
  - destruct (keep a), (keep b); try reflexivity. apply perm_swap.
  - now rewrite IH1.
Qed.

Lemma window_filter_inside (lower upper : Timestamp) (df : MSPlot.DataFrame) :
  MSPlot.window_filter lower upper df = filter (inside lower upper) df.
Proof.
  unfold MSPlot.window_filter. apply filter_ext. intros r.
  unfold MSPlot.at_or_after, MSPlot.at_or_before, inside.
  destruct lower, (MSPlot.Origin_DateTime r), upper; try reflexivity.
  now rewrite andb_false_r.
Qed.

(** The filtered record set holds the rows among the first 101 that lie
    within the bounds, each as often as it is there, oldest first. *)
Lemma df_filtered_spec (pd : MSPlot.Pandas) (self : MSPlot.t) (data : MSPlot.DataFrame) :
  StronglySorted MSPlot.ascending (df_filtered pd self data) /\
  Permutation (df_filtered pd self data)
    (filter (inside (lower_bound pd self data) (upper_bound pd self data))
            (firstn 101 data)).
Proof.
  unfold df_filtered. split.
  - unfold MSPlot.window_filter, MSPlot.considered.
    apply filter_sorted, MSPlot.sort_values_ascending.
  - rewrite window_filter_inside. apply filter_permutation.
    unfold MSPlot.considered. apply MSPlot.sort_values_permutes.
Qed.

(** The trace of a successful [scatter_of], taken apart. *)
Lemma scatter_of_Ok (pd : MSPlot.Pandas) (plotly : go.Plotly) (self : MSPlot.t)
    (df : MSPlot.DataFrame) (trace : go.Scatter3d) :
  MSPlot.scatter_of pd plotly self df = Ok trace ->
  exists size_col magnitude marker_size color_col color_min color_max,
    MSPlot.column (MSPlot.size_by self) df = Ok size_col /\
    series_abs size_col = Ok magnitude /\
    series_times_100 magnitude = Ok marker_size /\
    MSPlot.column (MSPlot.color_by self) df = Ok color_col /\
    MSPlot.series_min pd color_col = Ok color_min /\
    MSPlot.series_max pd color_col = Ok color_max /\
    valid_size marker_size = true /\ valid_color color_col = true /\
    trace = point_cloud df
              (go.mkMarker "diameter" 25 marker_size color_col (MSPlot.color_scale self)
                 color_min color_max (MSPlot.color_by self)).
Proof.
  unfold MSPlot.scatter_of. intros H.
  apply bind_Ok in H. destruct H as (size_col & H1 & H).
  apply bind_Ok in H. destruct H as (magnitude & H2 & H).
  apply bind_Ok in H. destruct H as (marker_size & H3 & H).
  apply bind_Ok in H. destruct H as (color_col & H4 & H).
  apply bind_Ok in H. destruct H as (color_min & H5 & H).
  apply bind_Ok in H. destruct H as (color_max & H6 & H).
  destruct (valid_marker plotly _) eqn:Hv; [|discriminate]. inv H.
  unfold valid_marker in Hv. cbn [go.size go.color] in Hv.
  apply andb_true_iff in Hv. destruct Hv as [Hv _].
  apply andb_true_iff in Hv. destruct Hv as [Hv _].
  apply andb_true_iff in Hv. destruct Hv as [Hv _].
  apply andb_true_iff in Hv. destruct Hv as [Hsize Hcolor].
  exists size_col, magnitude, marker_size, color_col, color_min, color_max.
  repeat split; assumption.
Qed.

(** With the columns there, the arithmetic done and a marker that plotly
    accepts, the trace is built. *)
Lemma scatter_of_returns (pd : MSPlot.Pandas) (plotly : go.Plotly) (self : MSPlot.t)
    (df : MSPlot.DataFrame) (size_col magnitude marker_size color_col : Series)
    (color_min color_max : Scalar) :
  MSPlot.column (MSPlot.size_by self) df = Ok size_col ->
  series_abs size_col = Ok magnitude ->
  series_times_100 magnitude = Ok marker_size ->
  MSPlot.column (MSPlot.color_by self) df = Ok color_col ->
  MSPlot.series_min pd color_col = Ok color_min ->
  MSPlot.series_max pd color_col = Ok color_max ->
  valid_size marker_size = true -> valid_color color_col = true ->
  go.named_colorscale plotly (MSPlot.color_scale self) = true ->
  valid_number color_min = true -> valid_number color_max = true ->
  exists trace, MSPlot.scatter_of pd plotly self df = Ok trace.
Proof.
  intros H1 H2 H3 H4 H5 H6 Hs Hc Hn Hlo Hhi. unfold MSPlot.scatter_of.
  rewrite H1. cbn [bind]. rewrite H2. cbn [bind]. rewrite H3. cbn [bind].
  rewrite H4. cbn [bind]. rewrite H5. cbn [bind]. rewrite H6. cbn [bind].
  unfold valid_marker. cbn [go.size go.color go.colorscale go.cmin go.cmax].
  rewrite Hs, Hc, Hn, Hlo, Hhi. simpl. eauto.
Qed.

(** ** Columns, record by record *)

Lemma column_attribute (name : string) (df : MSPlot.DataFrame) (col : Series) :
  MSPlot.column name df = Ok col ->
  map Some (series_values col) = map (attribute name) df.
Proof.
  unfold MSPlot.column.
  repeat match goal with
         | |- context [String.eqb name ?s] =>
             destruct (String.eqb_spec name s) as [->|_];
             [intros H; inv H; cbn [series_values]; rewrite !map_map;
              apply map_ext; intros r; reflexivity|]
         end.
  discriminate.
Qed.

Lemma series_values_length (s : Series) :
  List.length (series_values s) = series_length s.
Proof. destruct s; simpl; now rewrite length_map. Qed.

Lemma column_length (name : string) (df : MSPlot.DataFrame) (col : Series) :
  MSPlot.column name df = Ok col -> series_length col = List.length df.
Proof.
  intros H. apply column_attribute in H.
  apply (f_equal (@List.length _)) in H.
  rewrite !length_map in H. now rewrite <- series_values_length.
Qed.

Lemma column_KeyError (name : string) (df : MSPlot.DataFrame) :
  ~ In name column_names -> MSPlot.column name df = Raise (KeyError name).
Proof.
  intros Hnot. unfold MSPlot.column.
  repeat match goal with
         | |- context [String.eqb name ?s] =>
             destruct (String.eqb_spec name s) as [E|_];
             [exfalso; apply Hnot; rewrite E; simpl; auto 12|]
         end.
  reflexivity.
Qed.

Lemma column_numeric (name : string) (df : MSPlot.DataFrame) :
  In name numeric_columns ->
  exists col, MSPlot.column name df = Ok col /\ numeric_dtype col = true.
Proof.
  intros Hin. simpl in Hin.
  repeat (destruct Hin as [<- | Hin]; [eexists; split; reflexivity|]).
  contradiction.
Qed.

(** Only the six numeric columns have a numeric dtype. *)
Lemma column_numeric_inv (name : string) (df : MSPlot.DataFrame) (col : Series) :
  MSPlot.column name df = Ok col -> numeric_dtype col = true ->
  In name numeric_columns.
Proof.
  unfold MSPlot.column.
  repeat match goal with
         | |- context [String.eqb name ?s] =>
             destruct (String.eqb_spec name s) as [->|_];
             [intros H Hn; inv H; first [discriminate Hn | simpl; auto 12]|]
         end.
  discriminate.
Qed.

(** ** Marker size (C2) *)

Lemma wrap64_small (n : Z) : int64_min <= n <= int64_max -> wrap64 n = n.
Proof.
  unfold wrap64, int64_min, int64_max. intros H.
  rewrite Z.mod_small; lia.
Qed.

Lemma scaled_magnitude_int_exact (n : Z) :
  Z.abs n * 100 <= int64_max ->
  scaled_magnitude (VInt n) = VInt (Z.abs n * 100).
Proof.
  intros H. simpl. f_equal.
  assert (Hb : int64_min <= Z.abs n <= int64_max)
    by (unfold int64_min, int64_max in *; lia).
  rewrite (wrap64_small _ Hb). apply wrap64_small.
  unfold int64_min, int64_max in *. lia.
Qed.

Lemma abs_times_100_dtype (size_col magnitude marker_size : Series) :
  series_abs size_col = Ok magnitude ->
  series_times_100 magnitude = Ok marker_size ->
  numeric_dtype marker_size = numeric_dtype size_col.
Proof.
  destruct size_col as [l|l|l|l]; simpl.
  - destruct (forallb is_missing l); [|discriminate].
    intros H1 H2. inv H1. simpl in H2. now inv H2.
  - intros H1 H2. inv H1. simpl in H2. now inv H2.
  - intros H1 H2. inv H1. simpl in H2. now inv H2.
  - discriminate.
Qed.

Lemma abs_times_100_values (size_col magnitude marker_size : Series) :
  numeric_dtype size_col = true ->
  series_abs size_col = Ok magnitude ->
  series_times_100 magnitude = Ok marker_size ->
  series_values marker_size = map scaled_magnitude (series_values size_col).
Proof.
  destruct size_col as [l|l|l|l]; simpl; try discriminate; intros _ H1 H2;
    inv H1; simpl in H2; inv H2; simpl; now rewrite !map_map.
Qed.

Lemma numeric_abs_times_100 (size_col : Series) :
  numeric_dtype size_col = true ->
  exists magnitude marker_size,
    series_abs size_col = Ok magnitude /\
    series_times_100 magnitude = Ok marker_size.
Proof.
  destruct size_col; try discriminate; intros _; simpl;
    do 2 eexists; split; reflexivity.
Qed.

Lemma valid_size_numeric (s : Series) : valid_size s = true -> numeric_dtype s = true.
Proof. destruct s; simpl; congruence. Qed.

(** The sizes of a trace that was built, record by record. *)
Lemma scatter_of_sizes (pd : MSPlot.Pandas) (plotly : go.Plotly) (self : MSPlot.t)
    (df : MSPlot.DataFrame) (trace : go.Scatter3d) :
  MSPlot.scatter_of pd plotly self df = Ok trace ->
  exists m : go.Marker,
    go.marker trace = Some m /\
    In (MSPlot.size_by self) numeric_columns /\
    map Some (series_values (go.size m))
    = map (fun r => option_map scaled_magnitude (attribute (MSPlot.size_by self) r)) df.
Proof.
  intros H. apply scatter_of_Ok in H.
  destruct H as (sc & mg & ms & cc & lo & hi & Hs & Ha & Ht & _ & _ & _ & Hv & _ & ->).
  eexists. split; [reflexivity|]. cbn [go.size].
  assert (Hn : numeric_dtype sc = true).
  { rewrite <- (abs_times_100_dtype _ _ _ Ha Ht). now apply valid_size_numeric. }
  split; [eapply column_numeric_inv; eauto|].
  rewrite (abs_times_100_values _ _ _ Hn Ha Ht), map_map.
  rewrite <- (map_map Some (option_map scaled_magnitude)).
  rewrite (column_attribute _ _ _ Hs), map_map. reflexivity.
Qed.

(** C2.  In the trace [create_plot] returns, the marker sizes are,
    record by record of the filtered set and in its order, the absolute
    value of the record's size attribute times 100.  The product is the
    one of the column's dtype; for an integer whose product fits 64 bits
    it is the exact integer product.  (A trace is returned only for a
    numeric size attribute whose sizes plotly accepts.) *)
Theorem create_plot_marker_size
    (pd : MSPlot.Pandas) (plotly : go.Plotly) (self self' : MSPlot.t)
    (data : MSPlot.DataFrame) (trace : go.Scatter3d) :
  MSPlot.data self = Some data ->
  MSPlot.create_plot pd plotly self = (self', Ok trace) ->
  exists m : go.Marker,
    go.marker trace = Some m /\
    map Some (series_values (go.size m))
    = map (fun r => option_map scaled_magnitude (attribute (MSPlot.size_by self) r))
          (df_filtered pd self data) /\
    (forall n : Z, Z.abs n * 100 <= int64_max ->
                   scaled_magnitude (VInt n) = VInt (Z.abs n * 100)) /\
    (forall f : float,
        scaled_magnitude (VFloat f) = VFloat (PrimFloat.mul (PrimFloat.abs f) 100%float)).
Proof.
  intros Hd Hplot. rewrite (create_plot_eq _ _ _ _ Hd) in Hplot.
  inversion Hplot as [[Hself Htrace]].
  apply scatter_of_sizes in Htrace. destruct Htrace as (m & Hm & _ & Hsizes).
  exists m. split; [exact Hm|]. split; [exact Hsizes|].
  split; [exact scaled_magnitude_int_exact | reflexivity].
Qed.

(** C2, the example of the specification: magnitudes -1.2, -0.5, -2.0
    give the sizes 120, 50, 200. *)
Lemma create_plot_marker_size_example :
  exists (trace : go.Scatter3d) (m : go.Marker),
    snd (MSPlot.create_plot mdy_pandas named_plotly Demo.loaded) = Ok trace /\
    go.marker trace = Some m /\
    series_values (go.size m) = [VFloat 120; VFloat 50; VFloat 200].
Proof.
  destruct (MSPlot.create_plot mdy_pandas named_plotly Demo.loaded) as [self' [trace|e]] eqn:E;
    [|vm_compute in E; discriminate].
  destruct (create_plot_marker_size mdy_pandas named_plotly Demo.loaded self' Demo.rows trace)
    as (m & Hm & Hsize & _); [reflexivity | exact E |].
  exists trace, m. split; [reflexivity|]. split; [exact Hm|].
  apply (f_equal (map (fun o => match o with Some v => v | None => VFloat nan end)))
    in Hsize.
  rewrite map_map, map_id in Hsize. rewrite Hsize.
  vm_compute. reflexivity.
Defined.

(** ** Minimum and maximum of a column *)

(** The fold of a choice operator picks a least element. *)
Section Reduce.

Variable A : Type.
Variable valid : A -> Prop.
Variable le : A -> A -> Prop.
Variable op : A -> A -> A.

Hypothesis op_choice : forall a b, op a b = a \/ op a b = b.
Hypothesis op_le_l : forall a b, valid a -> valid b -> le (op a b) a.
Hypothesis op_le_r : forall a b, valid a -> valid b -> le (op a b) b.
Hypothesis le_trans :
  forall a b c, valid a -> valid b -> valid c -> le a b -> le b c -> le a c.

Lemma op_valid (a b : A) : valid a -> valid b -> valid (op a b).
Proof. intros Ha Hb. destruct (op_choice a b) as [-> | ->]; assumption. Qed.

Lemma fold_left_least (l : list A) (a : A) :
  valid a -> Forall valid l ->
  valid (fold_left op l a) /\
  In (fold_left op l a) (a :: l) /\
  forall b, In b (a :: l) -> le (fold_left op l a) b.
Proof.
  revert a. induction l as [|h l IH]; intros a Ha Hl; simpl.
  - split; [assumption|]. split; [now left|].
    intros b [<- | []].
    destruct (op_choice a a) as [E | E]; rewrite <- E at 1; now apply op_le_l.
  - inv Hl.
    assert (Hv : valid (op a h)) by now apply op_valid.
    destruct (IH (op a h) Hv) as (Hvalid & Hin & Hle); [assumption|].
    split; [assumption|]. split.
    + destruct Hin as [Hin | Hin]; [|now right; right].
      rewrite <- Hin. destruct (op_choice a h) as [-> | ->]; [now left | now right; left].
    + assert (Hfirst : le (fold_left op l (op a h)) (op a h))
        by (apply Hle; now left).
      intros b [<- | [<- | Hb]].
      * eapply le_trans; [| | | exact Hfirst |]; auto.
      * eapply le_trans; [| | | exact Hfirst |]; auto.
      * apply Hle. now right.
Qed.

End Reduce.

(** binary64 values that are not NaN are totally preordered by [<=]. *)
Ltac compare_cases :=
  repeat match goal with
  | H : context [Z.compare ?a ?b] |- _ =>
      destruct (Z.compare_spec a b); simpl in H
  | |- context [Z.compare ?a ?b] =>
      destruct (Z.compare_spec a b); simpl
  | H : context [Pos.compare_cont Eq ?a ?b] |- _ =>
      change (Pos.compare_cont Eq a b) with (Pos.compare a b) in H;
      destruct (Pos.compare_spec a b); simpl in H
  | |- context [Pos.compare_cont Eq ?a ?b] =>
      change (Pos.compare_cont Eq a b) with (Pos.compare a b);
      destruct (Pos.compare_spec a b); simpl
  end.

Lemma SFleb_trans (a b c : spec_float) :
  SFleb a b = true -> SFleb b c = true -> SFleb a c = true.
Proof.
  unfold SFleb, SFcompare.
  destruct a as [[|]|[|]| |[|] ma ea], b as [[|]|[|]| |[|] mb eb],
           c as [[|]|[|]| |[|] mc ec];
    simpl; try congruence; intros H1 H2; compare_cases; subst;
    try congruence; try lia.
Qed.

Lemma SFleb_refl (a : spec_float) : a <> S754_nan -> SFleb a a = true.
Proof.
  unfold SFleb, SFcompare.
  destruct a as [[|]|[|]| |[|] ma ea]; simpl; try congruence; intros _;
    rewrite Z.compare_refl;
    change (Pos.compare_cont Eq ma ma) with (Pos.compare ma ma);
    rewrite Pos.compare_refl; reflexivity.
Qed.

Lemma SFltb_leb (a b : spec_float) : SFltb a b = true -> SFleb a b = true.
Proof. unfold SFltb, SFleb. destruct (SFcompare a b) as [[| |]|]; congruence. Qed.

Lemma SFleb_total (a b : spec_float) :
  a <> S754_nan -> b <> S754_nan -> SFltb b a = false -> SFleb a b = true.
Proof.
  unfold SFleb, SFltb, SFcompare.
  destruct a as [[|]|[|]| |[|] ma ea], b as [[|]|[|]| |[|] mb eb];
    simpl; try congruence; intros _ _ H; compare_cases; subst;
    try congruence; try lia.
Qed.

Lemma not_nan_spec (f : float) : not_nan f -> Prim2SF f <> S754_nan.
Proof.
  unfold not_nan, is_nan. rewrite FloatAxioms.eqb_spec. intros H E.
  rewrite E in H. discriminate.
Qed.

Lemma float_le_trans (a b c : float) : float_le a b -> float_le b c -> float_le a c.
Proof. unfold float_le. rewrite !leb_spec. apply SFleb_trans. Qed.

Lemma float_min_le_l (a b : float) :
  not_nan a -> not_nan b -> float_le (float_min a b) a.
Proof.
  unfold float_min, float_le. intros Ha Hb.
  destruct (PrimFloat.ltb b a) eqn:E; rewrite leb_spec.
  - rewrite ltb_spec in E. now apply SFltb_leb.
  - now apply SFleb_refl, not_nan_spec.
Qed.

Lemma float_min_le_r (a b : float) :
  not_nan a -> not_nan b -> float_le (float_min a b) b.
Proof.
  unfold float_min, float_le. intros Ha Hb.
  destruct (PrimFloat.ltb b a) eqn:E; rewrite leb_spec.
  - now apply SFleb_refl, not_nan_spec.
  - rewrite ltb_spec in E. apply SFleb_total; auto using not_nan_spec.
Qed.

Lemma float_max_le_l (a b : float) :
  not_nan a -> not_nan b -> float_le a (float_max a b).
Proof.
  unfold float_max, float_le. intros Ha Hb.
  destruct (PrimFloat.ltb a b) eqn:E; rewrite leb_spec.
  - rewrite ltb_spec in E. now apply SFltb_leb.
  - now apply SFleb_refl, not_nan_spec.
Qed.

Lemma float_max_le_r (a b : float) :
  not_nan a -> not_nan b -> float_le b (float_max a b).
Proof.
  unfold float_max, float_le. intros Ha Hb.
  destruct (PrimFloat.ltb a b) eqn:E; rewrite leb_spec.
  - now apply SFleb_refl, not_nan_spec.
  - rewrite ltb_spec in E. apply SFleb_total; auto using not_nan_spec.
Qed.

Lemma reduce_least {A R : Type} (valid : A -> Prop) (le : A -> A -> Prop)
    (op : A -> A -> A) (inj : A -> R) (default : R) (l : list A) :
  (forall a b, op a b = a \/ op a b = b) ->
  (forall a b, valid a -> valid b -> le (op a b) a) ->
  (forall a b, valid a -> valid b -> le (op a b) b) ->
  (forall a b c, valid a -> valid b -> valid c -> le a b -> le b c -> le a c) ->
  l <> [] -> Forall valid l ->
  exists m, reduce op inj default l = inj m /\ valid m /\ In m l /\
            forall b, In b l -> le m b.
Proof.
  intros Hc Hl Hr Ht Hne Hv. destruct l as [|a l]; [congruence|]. inv Hv.
  destruct (fold_left_least A valid le op Hc Hl Hr Ht l a)
    as (Hvalid & Hin & Hle); auto.
  exists (fold_left op l a). simpl. auto.
Qed.

Lemma Z_min_choice (a b : Z) : Z.min a b = a \/ Z.min a b = b.
Proof. lia. Qed.

Lemma Z_max_choice (a b : Z) : Z.max a b = a \/ Z.max a b = b.
Proof. lia. Qed.

Lemma if_choice {A : Type} (c : bool) (a b : A) :
  (if c then b else a) = a \/ (if c then b else a) = b.
Proof. destruct c; auto. Qed.

Lemma Forall_True {A : Type} (l : list A) : Forall (fun _ => True) l.
Proof. induction l; constructor; auto. Qed.

Lemma not_nan_filter (l : list float) :
  Forall not_nan (filter (fun f => negb (is_nan f)) l).
Proof.
  apply Forall_forall. intros f Hf. apply filter_In in Hf.
  destruct Hf as [_ Hf]. unfold not_nan. now destruct (is_nan f).
Qed.

Lemma reduce_cases {A R : Type} (op : A -> A -> A) (inj : A -> R) (default : R)
    (l : list A) :
  reduce op inj default l = default \/ exists a, reduce op inj default l = inj a.
Proof. destruct l; simpl; eauto. Qed.

Lemma present_values (l : list (option string)) :
  forallb is_missing l = true ->
  forall v, In v (series_values (SObject l)) -> missing v = true.
Proof.
  intros H v Hv. simpl in Hv. apply in_map_iff in Hv. destruct Hv as (cell & <- & Hc).
  rewrite forallb_forall in H. specialize (H cell Hc).
  destruct cell; [discriminate | reflexivity].
Qed.

Lemma series_min_least (pd : MSPlot.Pandas) (s : Series) (m : Scalar) :
  valid_color s = true ->
  MSPlot.series_min pd s = Ok m ->
  (exists v, In v (series_values s) /\ missing v = false) ->
  least m (series_values s).
Proof.
  intros Hvalid Hmin (v & Hin & Hv). unfold least.
  destruct s as [l|l|l|l]; simpl in Hvalid, Hmin; try discriminate.
  - rewrite (present_values l Hvalid v Hin) in Hv. discriminate.
  - inv Hmin. simpl in *. apply in_map_iff in Hin. destruct Hin as (a & <- & Ha).
    destruct (reduce_least (fun _ => True) Z.le Z.min VInt (VFloat nan) l)
      as (m & -> & _ & Hm & Hle);
      auto using Z_min_choice, Forall_True; try (intros; lia).
    + intros ->. contradiction.
    + split; [now apply in_map|]. split; [reflexivity|].
      intros u Hu _. apply in_map_iff in Hu. destruct Hu as (b & <- & Hb).
      simpl. apply Z.leb_le. auto.
  - inv Hmin. simpl in *. apply in_map_iff in Hin. destruct Hin as (a & <- & Ha).
    simpl in Hv.
    assert (Hf : In a (filter (fun f => negb (is_nan f)) l))
      by (apply filter_In; split; [assumption | now rewrite Hv]).
    destruct (reduce_least not_nan float_le float_min VFloat (VFloat nan)
                (filter (fun f => negb (is_nan f)) l))
      as (m & -> & Hnan & Hm & Hle);
      auto using float_min_le_l, float_min_le_r, not_nan_filter.
    + intros x y. apply if_choice.
    + intros x y z0 _ _ _. apply float_le_trans.
    + intros E. rewrite E in Hf. contradiction.
    + apply filter_In in Hm. destruct Hm as [Hm _].
      split; [now apply in_map|]. split; [exact Hnan|].
      intros u Hu Hmiss. apply in_map_iff in Hu. destruct Hu as (b & <- & Hb).
      simpl in *. apply Hle. apply filter_In. split; [assumption | now rewrite Hmiss].
Qed.

Lemma series_max_greatest (pd : MSPlot.Pandas) (s : Series) (m : Scalar) :
  valid_color s = true ->
  MSPlot.series_max pd s = Ok m ->
  (exists v, In v (series_values s) /\ missing v = false) ->
  greatest m (series_values s).
Proof.
  intros Hvalid Hmax (v & Hin & Hv). unfold greatest.
  destruct s as [l|l|l|l]; simpl in Hvalid, Hmax; try discriminate.
  - rewrite (present_values l Hvalid v Hin) in Hv. discriminate.
  - inv Hmax. simpl in *. apply in_map_iff in Hin. destruct Hin as (a & <- & Ha).
    destruct (reduce_least (fun _ => True) Z.ge Z.max VInt (VFloat nan) l)
      as (m & -> & _ & Hm & Hle);
      auto using Z_max_choice, Forall_True; try (intros; lia).
    + intros ->. contradiction.
    + split; [now apply in_map|]. split; [reflexivity|].
      intros u Hu _. apply in_map_iff in Hu. destruct Hu as (b & <- & Hb).
      simpl. apply Z.leb_le. apply Z.ge_le. auto.
  - inv Hmax. simpl in *. apply in_map_iff in Hin. destruct Hin as (a & <- & Ha).
    simpl in Hv.
    assert (Hf : In a (filter (fun f => negb (is_nan f)) l))
      by (apply filter_In; split; [assumption | now rewrite Hv]).
    destruct (reduce_least not_nan (fun x y => float_le y x) float_max VFloat
                (VFloat nan) (filter (fun f => negb (is_nan f)) l))
      as (m & -> & Hnan & Hm & Hle);
      auto using float_max_le_l, float_max_le_r, not_nan_filter.
    + intros x y. apply if_choice.
    + intros x y z0 _ _ _ H1 H2. eapply float_le_trans; eauto.
    + intros E. rewrite E in Hf. contradiction.
    + apply filter_In in Hm. destruct Hm as [Hm _].
      split; [now apply in_map|]. split; [exact Hnan|].
      intros u Hu Hmiss. apply in_map_iff in Hu. destruct Hu as (b & <- & Hb).
      simpl in *. apply Hle. apply filter_In. split; [assumption | now rewrite Hmiss].
Qed.

(** The minimum and the maximum of a numeric column are numbers. *)
Lemma numeric_min_max (pd : MSPlot.Pandas) (s : Series) :
  numeric_dtype s = true ->
  exists lo hi,
    MSPlot.series_min pd s = Ok lo /\ MSPlot.series_max pd s = Ok hi /\
    valid_number lo = true /\ valid_number hi = true /\ valid_color s = true.
Proof.
  destruct s as [l|l|l|l]; try discriminate; intros _; simpl;
    do 2 eexists; (split; [reflexivity|]); (split; [reflexivity|]);
    repeat split;
    match goal with
    | |- valid_number (reduce ?op ?inj ?d ?l) = true =>
        destruct (reduce_cases op inj d l) as [-> | [a ->]]; reflexivity
    end.
Qed.

(** ** Color encoding (C3) *)

Lemma least_constant (m v : Scalar) (vs : list Scalar) :
  In m vs -> (forall u, In u vs -> u = v) -> m = v.
Proof. intros Hm Hall. now apply Hall. Qed.

Lemma valid_size_plottable (s : Series) :
  numeric_dtype s = true ->
  Forall plottable (map Some (series_values s)) -> valid_size s = true.
Proof.
  destruct s as [l|l|l|l]; try discriminate; intros _ H; simpl in *;
    apply forallb_forall; intros a Ha; rewrite Forall_forall in H.
  - apply Z.leb_le. apply (H (Some (VInt a))). now apply in_map, in_map.
  - apply (H (Some (VFloat a))). now apply in_map, in_map.
Qed.

(** The colors of a trace that was built, record by record, and their
    range. *)
Lemma scatter_of_colors (pd : MSPlot.Pandas) (plotly : go.Plotly) (self : MSPlot.t)
    (df : MSPlot.DataFrame) (trace : go.Scatter3d) :
  MSPlot.scatter_of pd plotly self df = Ok trace ->
  exists m : go.Marker,
    go.marker trace = Some m /\
    map Some (series_values (go.color m)) = map (attribute (MSPlot.color_by self)) df /\
    ((exists v, In v (series_values (go.color m)) /\ missing v = false) ->
     least (go.cmin m) (series_values (go.color m)) /\
     greatest (go.cmax m) (series_values (go.color m))).
Proof.
  intros H. apply scatter_of_Ok in H.
  destruct H as (sc & mg & ms & cc & lo & hi & _ & _ & _ & Hc & Hlo & Hhi & _ & Hv & ->).
  eexists. split; [reflexivity|]. cbn [go.color go.cmin go.cmax].
  split; [now apply column_attribute|].
  intros Hex. split; [eapply series_min_least | eapply series_max_greatest]; eauto.
Qed.

Lemma scatter_of_numeric (pd : MSPlot.Pandas) (plotly : go.Plotly) (self : MSPlot.t)
    (df : MSPlot.DataFrame) :
  In (MSPlot.color_by self) numeric_columns ->
  In (MSPlot.size_by self) numeric_columns ->
  go.named_colorscale plotly (MSPlot.color_scale self) = true ->
  Forall plottable
    (map (fun r => option_map scaled_magnitude (attribute (MSPlot.size_by self) r)) df) ->
  exists trace, MSPlot.scatter_of pd plotly self df = Ok trace.
Proof.
  intros Hcolor Hsize Hscale Hplottable.
  destruct (column_numeric _ df Hsize) as (sc & Hsc & Hn).
  destruct (numeric_abs_times_100 _ Hn) as (mg & ms & Ha & Ht).
  destruct (column_numeric _ df Hcolor) as (cc & Hcc & Hcn).
  destruct (numeric_min_max pd cc Hcn) as (lo & hi & Hlo & Hhi & Vlo & Vhi & Vc).
  eapply scatter_of_returns; eauto.
  apply valid_size_plottable.
  - now rewrite (abs_times_100_dtype _ _ _ Ha Ht).
  - rewrite (abs_times_100_values _ _ _ Hn Ha Ht), map_map.
    rewrite <- (map_map Some (option_map scaled_magnitude)).
    rewrite (column_attribute _ _ _ Hsc), map_map. exact Hplottable.
Qed.

(** C3.  The filtered set holds the rows among the first 101 loaded that
    lie within the bounds.  In the trace [create_plot] returns, the color
    of each record of the filtered set is the raw value of its color
    attribute; [cmin] and [cmax] are the least and the greatest of these
    values, the values of the filtered set and of no other row; and when
    all of them are one value [v], every record has color [v] and
    [cmin = cmax = v].  The
    trace is returned whenever the color and the size attribute are
    numeric columns, the color scale is one plotly names and the sizes
    are numbers plotly accepts (at least 0, not [nan]); whether the color
    values differ or are all the same plays no part in that. *)
Theorem create_plot_color_encoding
    (pd : MSPlot.Pandas) (plotly : go.Plotly) (self : MSPlot.t)
    (data : MSPlot.DataFrame) :
  MSPlot.data self = Some data ->
  Permutation (df_filtered pd self data)
    (filter (inside (lower_bound pd self data) (upper_bound pd self data))
            (firstn 101 data)) /\
  (forall (self' : MSPlot.t) (trace : go.Scatter3d),
      MSPlot.create_plot pd plotly self = (self', Ok trace) ->
      exists m : go.Marker,
        go.marker trace = Some m /\
        map Some (series_values (go.color m))
        = map (attribute (MSPlot.color_by self)) (df_filtered pd self data) /\
        ((exists v, In v (series_values (go.color m)) /\ missing v = false) ->
         least (go.cmin m) (series_values (go.color m)) /\
         greatest (go.cmax m) (series_values (go.color m))) /\
        (forall v : Scalar,
            df_filtered pd self data <> [] -> missing v = false ->
            (forall u, In u (series_values (go.color m)) -> u = v) ->
            go.cmin m = v /\ go.cmax m = v)) /\
  (In (MSPlot.color_by self) numeric_columns ->
   In (MSPlot.size_by self) numeric_columns ->
   go.named_colorscale plotly (MSPlot.color_scale self) = true ->
   Forall plottable
     (map (fun r => option_map scaled_magnitude (attribute (MSPlot.size_by self) r))
          (df_filtered pd self data)) ->
   exists trace : go.Scatter3d,
     MSPlot.create_plot pd plotly self = (after_create_plot pd self data, Ok trace)).
Proof.
  intros Hd. rewrite (create_plot_eq _ _ _ _ Hd).
  split; [apply df_filtered_spec|]. split.
  - intros self' trace Hplot. inversion Hplot as [[Hself Htrace]].
    destruct (scatter_of_colors _ _ _ _ _ Htrace) as (m & Hm & Hraw & Hrange).
    exists m. split; [exact Hm|]. split; [exact Hraw|]. split; [exact Hrange|].
    intros v Hne Hv Hall.
    assert (Hex : exists u, In u (series_values (go.color m)) /\ missing u = false).
    { apply (f_equal (@List.length _)) in Hraw. rewrite !length_map in Hraw.
      destruct (series_values (go.color m)) as [|u us] eqn:E.
      - destruct (df_filtered pd self data); [congruence | discriminate].
      - exists u. split; [now left|]. rewrite (Hall u); [assumption | now left]. }
    destruct (Hrange Hex) as [(Hmin & _) (Hmax & _)].
    split; eapply least_constant; eauto.
  - intros Hcolor Hsize Hscale Hplottable.
    destruct (scatter_of_numeric pd plotly self _ Hcolor Hsize Hscale Hplottable)
      as [trace ->].
    now exists trace.
Qed.

(** C3, on the windowed three-row catalog: the window holds the two
    stage-1 events, so the color attribute is constant there; the trace is
    built with colors 1, 1 and [cmin = cmax = 1], although stage 2 occurs
    in the loaded table. *)
Lemma create_plot_color_encoding_example :
  exists (trace : go.Scatter3d) (m : go.Marker),
    snd (MSPlot.create_plot mdy_pandas named_plotly Demo.windowed) = Ok trace /\
    go.marker trace = Some m /\
    series_values (go.color m) = [VInt 1; VInt 1] /\
    go.cmin m = VInt 1 /\ go.cmax m = VInt 1 /\
    In (VInt 2) (map (fun r => VInt (MSPlot.Stage (MSPlot.source r))) Demo.rows).
Proof.
  destruct (create_plot_color_encoding mdy_pandas named_plotly Demo.windowed Demo.rows)
    as (_ & Hcolors & Hbuilt); [reflexivity|].
  destruct Hbuilt as [trace Hplot].
  - vm_compute. auto 10.
  - vm_compute. auto 10.
  - reflexivity.
  - vm_compute. repeat constructor.
  - destruct (Hcolors _ _ Hplot) as (m & Hm & Hraw & _ & Hconst).
    assert (Hvalues : series_values (go.color m) = [VInt 1; VInt 1]).
    { apply (f_equal (map (fun o => match o with Some v => v | None => VFloat nan end)))
        in Hraw.
      rewrite map_map, map_id in Hraw. rewrite Hraw. vm_compute. reflexivity. }
    exists trace, m. rewrite Hplot. split; [reflexivity|]. split; [exact Hm|].
    split; [exact Hvalues|].
    destruct (Hconst (VInt 1)) as [Hmin Hmax].
    + vm_compute. discriminate.
    + reflexivity.
    + rewrite Hvalues. simpl. intros u [<- | [<- | []]]; reflexivity.
    + split; [exact Hmin|]. split; [exact Hmax|]. vm_compute. auto.
Defined.

(** ** Window filter (C4) *)

Lemma in_window_iff (lower upper : Timestamp) (r : MSPlot.EventRow) :
  MSPlot.at_or_after lower r && MSPlot.at_or_before upper r = true
  <-> in_window lower upper r.
Proof.
  unfold in_window, MSPlot.at_or_after, MSPlot.at_or_before. split.
  - intros H. apply andb_true_iff in H. destruct H as [H1 H2].
    destruct lower as [|lo]; [discriminate|].
    destruct (MSPlot.Origin_DateTime r) as [|stamp]; [discriminate|].
    destruct upper as [|hi]; [discriminate|].
    exists lo, hi, stamp. repeat split; lia.
  - intros (lo & hi & stamp & -> & -> & -> & H). apply andb_true_iff. split; lia.
Qed.

Lemma window_filter_selects (lower upper : Timestamp) (df : MSPlot.DataFrame) :
  selects (in_window lower upper) df (MSPlot.window_filter lower upper df).
Proof.
  unfold MSPlot.window_filter.
  induction df as [|r df IH]; simpl; [constructor|].
  destruct (MSPlot.at_or_after lower r && MSPlot.at_or_before upper r) eqn:E.
  - apply selects_keep; [now apply in_window_iff | exact IH].
  - apply selects_drop; [|exact IH].
    intros H. apply in_window_iff in H. congruence.
Qed.

Lemma window_filter_In (lower upper : Timestamp) (df : MSPlot.DataFrame)
    (r : MSPlot.EventRow) :
  In r (MSPlot.window_filter lower upper df) <-> In r df /\ in_window lower upper r.
Proof.
  unfold MSPlot.window_filter. rewrite filter_In. now rewrite in_window_iff.
Qed.

Lemma window_filter_none (lower upper : Timestamp) (df : MSPlot.DataFrame) :
  (forall r, In r df -> ~ in_window lower upper r) ->
  MSPlot.window_filter lower upper df = [].
Proof.
  intros H. destruct (MSPlot.window_filter lower upper df) as [|r l] eqn:E;
    [reflexivity|].
  assert (Hin : In r (MSPlot.window_filter lower upper df)) by (rewrite E; now left).
  apply window_filter_In in Hin. destruct Hin as [Hr Hw]. now apply H in Hr.
Qed.

Lemma window_filter_out_of_order (lo hi : Z) (df : MSPlot.DataFrame) :
  hi < lo -> MSPlot.window_filter (Ts lo) (Ts hi) df = [].
Proof.
  intros H. apply window_filter_none.
  intros r _ (lo' & hi' & stamp & Elo & Ehi & _ & Hin). inv Elo. inv Ehi. lia.
Qed.

Lemma after_create_plot_bounds_set (pd : MSPlot.Pandas) (self : MSPlot.t)
    (data : MSPlot.DataFrame) (lower upper : Timestamp) :
  MSPlot.plot_start_time self = Some lower ->
  MSPlot.plot_end_time self = Some upper ->
  after_create_plot pd self data = self /\
  df_filtered pd self data
  = MSPlot.window_filter lower upper (MSPlot.considered pd data).
Proof.
  unfold after_create_plot, df_filtered, lower_bound, upper_bound,
    MSPlot.fill_end, MSPlot.fill_start.
  intros Hs He. rewrite Hs. rewrite He. auto.
Qed.

(** C4.  The window filter keeps exactly the records whose timestamp lies
    in [[lower, upper]], bounds included, each once and in place.  It is a
    total function of the bounds and the record set: when the bounds are
    out of order, and whenever no record lies in the window (bounds
    outside the data, or no data), it returns the empty record set. *)
Theorem window_filter_inclusive
    (lower upper : Timestamp) (df : MSPlot.DataFrame) :
  selects (in_window lower upper) df (MSPlot.window_filter lower upper df) /\
  (forall r, In r (MSPlot.window_filter lower upper df)
             <-> In r df /\ in_window lower upper r) /\
  (forall lo hi : Z,
      lower = Ts lo -> upper = Ts hi -> hi < lo ->
      MSPlot.window_filter lower upper df = []) /\
  ((forall r, In r df -> ~ in_window lower upper r) ->
   MSPlot.window_filter lower upper df = []).
Proof.
  split; [apply window_filter_selects|].
  split; [intros r; apply window_filter_In|].
  split; [|apply window_filter_none].
  intros lo hi -> -> H. now apply window_filter_out_of_order.
Qed.

(** C4, on the three-row catalog: with 12:00:02 as start and 12:00:01 as
    end the filter keeps nothing; with 12:00:00 and 12:00:01 it keeps the
    first two events. *)
Lemma window_filter_inclusive_example :
  MSPlot.window_filter (Ts 1737288002000000000) (Ts 1737288001000000000) Demo.rows
  = [] /\
  map (fun r => MSPlot.File_Name (MSPlot.source r))
      (MSPlot.window_filter (Ts 1737288000000000000) (Ts 1737288001000000000) Demo.rows)
  = [Some "event_001"; Some "event_002"].
Proof.
  split; [|vm_compute; reflexivity].
  destruct (window_filter_inclusive (Ts 1737288002000000000)
              (Ts 1737288001000000000) Demo.rows) as (_ & _ & Hempty & _).
  apply (Hempty 1737288002000000000 1737288001000000000); [reflexivity .. | lia].
Defined.

(** ** Default bounds (C7) and the development cap (C8) *)

Lemma stamps_In (l : list Timestamp) (n : Z) : In n (stamps l) <-> In (Ts n) l.
Proof.
  unfold stamps. rewrite in_flat_map. split.
  - intros ([|m] & Hin & Hm); simpl in Hm; [contradiction|].
    destruct Hm as [<- | []]. exact Hin.
  - intros H. exists (Ts n). split; [exact H | now left].
Qed.

Lemma datetime_min_spec (l : list Timestamp) :
  (exists n, In (Ts n) l) ->
  exists m, datetime_min l = Ts m /\ In (Ts m) l /\ forall n, In (Ts n) l -> m <= n.
Proof.
  intros [n Hn]. unfold datetime_min.
  destruct (reduce_least (fun _ => True) Z.le Z.min Ts NaT (stamps l))
    as (m & Hm & _ & Hin & Hle);
    auto using Z_min_choice, Forall_True; try (intros; lia).
  - apply stamps_In in Hn. intros E. rewrite E in Hn. contradiction.
  - exists m. split; [exact Hm|]. split; [now apply stamps_In|].
    intros k Hk. apply Hle. now apply stamps_In.
Qed.

Lemma datetime_max_spec (l : list Timestamp) :
  (exists n, In (Ts n) l) ->
  exists m, datetime_max l = Ts m /\ In (Ts m) l /\ forall n, In (Ts n) l -> n <= m.
Proof.
  intros [n Hn]. unfold datetime_max.
  destruct (reduce_least (fun _ => True) Z.ge Z.max Ts NaT (stamps l))
    as (m & Hm & _ & Hin & Hle);
    auto using Z_max_choice, Forall_True; try (intros; lia).
  - apply stamps_In in Hn. intros E. rewrite E in Hn. contradiction.
  - exists m. split; [exact Hm|]. split; [now apply stamps_In|].
    intros k Hk. apply Z.ge_le. apply Hle. now apply stamps_In.
Qed.

Lemma datetime_min_none (l : list Timestamp) :
  (forall n, ~ In (Ts n) l) -> datetime_min l = NaT.
Proof.
  intros H. unfold datetime_min. destruct (stamps l) as [|n ns] eqn:E; [reflexivity|].
  exfalso. apply (H n). apply stamps_In. rewrite E. now left.
Qed.

Lemma considered_In (pd : MSPlot.Pandas) (data : MSPlot.DataFrame) (r : MSPlot.EventRow) :
  In r (MSPlot.considered pd data) <-> In r (firstn 101 data).
Proof.
  unfold MSPlot.considered. split; apply Permutation_in.
  - apply MSPlot.sort_values_permutes.
  - symmetry. apply MSPlot.sort_values_permutes.
Qed.

Lemma considered_timestamps (pd : MSPlot.Pandas) (data : MSPlot.DataFrame)
    (stamp : Timestamp) :
  In stamp (map MSPlot.Origin_DateTime (MSPlot.considered pd data))
  <-> In stamp (map MSPlot.Origin_DateTime (firstn 101 data)).
Proof.
  rewrite !in_map_iff.
  split; intros (r & Hr & Hin); exists r; (split; [assumption|]);
    [apply (proj1 (considered_In pd data r)) | apply (proj2 (considered_In pd data r))];
    exact Hin.
Qed.

Lemma create_plot_bounds (pd : MSPlot.Pandas) (plotly : go.Plotly) (self : MSPlot.t)
    (data : MSPlot.DataFrame) :
  MSPlot.data self = Some data ->
  MSPlot.plot_start_time (fst (MSPlot.create_plot pd plotly self))
  = Some (lower_bound pd self data) /\
  MSPlot.plot_end_time (fst (MSPlot.create_plot pd plotly self))
  = Some (upper_bound pd self data).
Proof.
  intros Hd. rewrite (create_plot_eq _ _ _ _ Hd). simpl.
  apply after_create_plot_bounds.
Qed.

(** C7.  A call of [create_plot] on a loaded instance whose start bound
    is unset stores, on the instance, the minimum timestamp of the rows
    it considers (the sorted first 101 rows; [NaT] when none of them has
    a timestamp), and likewise the maximum for an unset end bound.  The
    stored value is the timestamp of one of these rows and bounds them
    all.  It persists: a later call, also after another table has been
    loaded, leaves the instance as it finds it and filters the new table
    with the stored bounds, not with the extremes of the new table. *)
Theorem create_plot_stores_default_bounds
    (pd : MSPlot.Pandas) (plotly : go.Plotly) (self : MSPlot.t)
    (data : MSPlot.DataFrame) :
  MSPlot.data self = Some data ->
  (MSPlot.plot_start_time self = None ->
   MSPlot.plot_start_time (fst (MSPlot.create_plot pd plotly self))
   = Some (datetime_min (map MSPlot.Origin_DateTime (MSPlot.considered pd data)))) /\
  (MSPlot.plot_end_time self = None ->
   MSPlot.plot_end_time (fst (MSPlot.create_plot pd plotly self))
   = Some (datetime_max (map MSPlot.Origin_DateTime (MSPlot.considered pd data)))) /\
  ((exists stamp : Z, In (Ts stamp) (map MSPlot.Origin_DateTime (firstn 101 data))) ->
   exists lo hi : Z,
     datetime_min (map MSPlot.Origin_DateTime (MSPlot.considered pd data)) = Ts lo /\
     datetime_max (map MSPlot.Origin_DateTime (MSPlot.considered pd data)) = Ts hi /\
     In (Ts lo) (map MSPlot.Origin_DateTime (firstn 101 data)) /\
     In (Ts hi) (map MSPlot.Origin_DateTime (firstn 101 data)) /\
     forall stamp : Z,
       In (Ts stamp) (map MSPlot.Origin_DateTime (firstn 101 data)) ->
       lo <= stamp <= hi) /\
  ((forall stamp : Z, ~ In (Ts stamp) (map MSPlot.Origin_DateTime (firstn 101 data))) ->
   datetime_min (map MSPlot.Origin_DateTime (MSPlot.considered pd data)) = NaT /\
   datetime_max (map MSPlot.Origin_DateTime (MSPlot.considered pd data)) = NaT) /\
  (forall data' : MSPlot.DataFrame,
      MSPlot.create_plot pd plotly
        (MSPlot.set_data (fst (MSPlot.create_plot pd plotly self)) data')
      = (MSPlot.set_data (fst (MSPlot.create_plot pd plotly self)) data',
         MSPlot.scatter_of pd plotly self
           (MSPlot.window_filter (lower_bound pd self data) (upper_bound pd self data)
              (MSPlot.considered pd data')))).
Proof.
  intros Hd. destruct (create_plot_bounds pd plotly self data Hd) as [Hs He].
  split; [|split; [|split; [|split]]].
  - intros Hnone. rewrite Hs. unfold lower_bound. now rewrite Hnone.
  - intros Hnone. rewrite He. unfold upper_bound. now rewrite Hnone.
  - intros [stamp Hstamp].
    apply (proj2 (considered_timestamps pd data (Ts stamp))) in Hstamp.
    destruct (datetime_min_spec _ (ex_intro _ stamp Hstamp)) as (lo & Hlo & Hinlo & Hlelo).
    destruct (datetime_max_spec _ (ex_intro _ stamp Hstamp)) as (hi & Hhi & Hinhi & Hlehi).
    exists lo, hi. split; [exact Hlo|]. split; [exact Hhi|].
    split; [apply (proj1 (considered_timestamps pd data (Ts lo))); exact Hinlo|].
    split; [apply (proj1 (considered_timestamps pd data (Ts hi))); exact Hinhi|].
    intros k Hk. apply (proj2 (considered_timestamps pd data (Ts k))) in Hk.
    split; auto.
  - intros Hnone.
    assert (H : forall n, ~ In (Ts n)
                  (map MSPlot.Origin_DateTime (MSPlot.considered pd data)))
      by (intros n Hn; apply (proj1 (considered_timestamps pd data (Ts n))) in Hn;
          now apply (Hnone n)).
    split; [now apply datetime_min_none|].
    unfold datetime_max. destruct (stamps _) as [|n ns] eqn:E; [reflexivity|].
    exfalso. apply (H n). apply stamps_In. rewrite E. now left.
  - intros data'.
    rewrite (create_plot_eq pd plotly
               (MSPlot.set_data (fst (MSPlot.create_plot pd plotly self)) data')
               data' eq_refl).
    destruct (after_create_plot_bounds_set pd
                (MSPlot.set_data (fst (MSPlot.create_plot pd plotly self)) data') data'
                (lower_bound pd self data) (upper_bound pd self data) Hs He) as [-> ->].
    f_equal. rewrite (create_plot_eq _ _ _ _ Hd). cbn [fst].
    destruct (after_create_plot_frame pd self data) as (Hsz & Hcb & Hcs & _).
    apply scatter_of_frame; assumption.
Qed.

(** C7, on the three-row catalog: the first call stores 12:00:00.250 and
    12:00:02.999, and a call after another table was assigned keeps
    them. *)
Lemma create_plot_stores_default_bounds_example :
  MSPlot.plot_start_time Demo.loaded = None /\
  MSPlot.plot_start_time (fst (MSPlot.create_plot mdy_pandas named_plotly Demo.loaded))
  = Some (Ts 1737288000250000000) /\
  MSPlot.plot_end_time (fst (MSPlot.create_plot mdy_pandas named_plotly Demo.loaded))
  = Some (Ts 1737288002999000000) /\
  MSPlot.plot_start_time
    (fst (MSPlot.create_plot mdy_pandas named_plotly
            (MSPlot.set_data (fst (MSPlot.create_plot mdy_pandas named_plotly Demo.loaded)) [])))
  = Some (Ts 1737288000250000000).
Proof.
  destruct (create_plot_stores_default_bounds mdy_pandas named_plotly Demo.loaded Demo.rows)
    as (Hs & He & _ & _ & Hkeep); [vm_compute; reflexivity|].
  split; [reflexivity|].
  split; [rewrite Hs by reflexivity; vm_compute; reflexivity|].
  split; [rewrite He by reflexivity; vm_compute; reflexivity|].
  rewrite Hkeep.
  change (MSPlot.plot_start_time (fst (MSPlot.create_plot mdy_pandas named_plotly Demo.loaded))
          = Some (Ts 1737288000250000000)).
  rewrite Hs by reflexivity. vm_compute. reflexivity.
Defined.

(** C8.  [create_plot] reads the loaded table through its first 101 rows
    only: two tables that agree on these rows give the same result (the
    trace or the exception) and the same stored bounds, whatever rows
    follow and however many. *)
Theorem create_plot_development_cap
    (pd : MSPlot.Pandas) (plotly : go.Plotly) (self : MSPlot.t)
    (data1 data2 : MSPlot.DataFrame) :
  firstn 101 data1 = firstn 101 data2 ->
  snd (MSPlot.create_plot pd plotly (MSPlot.set_data self data1))
  = snd (MSPlot.create_plot pd plotly (MSPlot.set_data self data2)) /\
  MSPlot.plot_start_time (fst (MSPlot.create_plot pd plotly (MSPlot.set_data self data1)))
  = MSPlot.plot_start_time
      (fst (MSPlot.create_plot pd plotly (MSPlot.set_data self data2))) /\
  MSPlot.plot_end_time (fst (MSPlot.create_plot pd plotly (MSPlot.set_data self data1)))
  = MSPlot.plot_end_time
      (fst (MSPlot.create_plot pd plotly (MSPlot.set_data self data2))).
Proof.
  intros H.
  assert (Hc : MSPlot.considered pd data1 = MSPlot.considered pd data2)
    by (unfold MSPlot.considered; now rewrite H).
  assert (Hlo : lower_bound pd (MSPlot.set_data self data1) data1
                = lower_bound pd (MSPlot.set_data self data2) data2)
    by (unfold lower_bound; simpl; now rewrite Hc).
  assert (Hhi : upper_bound pd (MSPlot.set_data self data1) data1
                = upper_bound pd (MSPlot.set_data self data2) data2)
    by (unfold upper_bound; simpl; now rewrite Hc).
  destruct (create_plot_bounds pd plotly (MSPlot.set_data self data1) data1 eq_refl)
    as [-> ->].
  destruct (create_plot_bounds pd plotly (MSPlot.set_data self data2) data2 eq_refl)
    as [-> ->].
  rewrite Hlo, Hhi. split; [|split; reflexivity].
  rewrite (create_plot_eq pd plotly (MSPlot.set_data self data1) data1 eq_refl).
  rewrite (create_plot_eq pd plotly (MSPlot.set_data self data2) data2 eq_refl).
  simpl. unfold df_filtered. rewrite Hlo, Hhi, Hc.
  apply scatter_of_frame; reflexivity.
Qed.

(** C8, on long tables: a 102nd row, later than all others, changes
    neither the result nor the stored end bound; the same row in 101st
    place does set the end bound. *)
Lemma create_plot_development_cap_example :
  snd (MSPlot.create_plot mdy_pandas named_plotly
         (MSPlot.set_data MSPlot.init (repeat Demo.early 101 ++ [Demo.late])))
  = snd (MSPlot.create_plot mdy_pandas named_plotly
           (MSPlot.set_data MSPlot.init (repeat Demo.early 101))) /\
  MSPlot.plot_end_time
    (fst (MSPlot.create_plot mdy_pandas named_plotly
            (MSPlot.set_data MSPlot.init (repeat Demo.early 101 ++ [Demo.late]))))
  = Some (MSPlot.Origin_DateTime Demo.early) /\
  MSPlot.plot_end_time
    (fst (MSPlot.create_plot mdy_pandas named_plotly
            (MSPlot.set_data MSPlot.init (repeat Demo.early 100 ++ [Demo.late]))))
  = Some (MSPlot.Origin_DateTime Demo.late).
Proof.
  destruct (create_plot_development_cap mdy_pandas named_plotly MSPlot.init
              (repeat Demo.early 101 ++ [Demo.late]) (repeat Demo.early 101))
    as (Hsame & _ & Hend); [vm_compute; reflexivity|].
  split; [exact Hsame|]. split; [rewrite Hend|]; vm_compute; reflexivity.
Defined.


(* ------------------------------------------------------------------ *)
(** ** DataViewer.draw (C5) *)

Lemma fold_add_or_report (items : list DataViewer.PyObject)
    (fig : DataViewer.Figure) (out : list DataViewer.Diagnostic) :
  fold_left DataViewer.add_or_report items (fig, out)
  = (DataViewer.mkFigure (DataViewer.traces fig ++ drawables items),
     out ++ map DataViewer.Invalid_object (rejected items)).
Proof.
  revert fig out. induction items as [|c items IH]; intros fig out; simpl.
  - rewrite !app_nil_r. now destruct fig.
  - destruct c; simpl; rewrite IH; simpl; now rewrite <- ?app_assoc.
Qed.

Lemma add_or_report_leaf (c : DataViewer.PyObject)
    (fig : DataViewer.Figure) (out : list DataViewer.Diagnostic) :
  DataViewer.add_or_report (fig, out) c
  = (DataViewer.mkFigure (DataViewer.traces fig ++ drawables [c]),
     out ++ map DataViewer.Invalid_object (rejected [c])).
Proof. apply (fold_add_or_report [c]). Qed.

Lemma drawables_app (l l' : list DataViewer.PyObject) :
  drawables (l ++ l') = drawables l ++ drawables l'.
Proof. apply flat_map_app. Qed.

Lemma rejected_app (l l' : list DataViewer.PyObject) :
  rejected (l ++ l') = rejected l ++ rejected l'.
Proof. apply filter_app. Qed.

Lemma fold_visit (objs : list DataViewer.PyObject)
    (fig : DataViewer.Figure) (out : list DataViewer.Diagnostic) :
  fold_left DataViewer.visit objs (fig, out)
  = (DataViewer.mkFigure (DataViewer.traces fig ++ drawables (leaves objs)),
     out ++ map DataViewer.Invalid_object (rejected (leaves objs))).
Proof.
  revert fig out. induction objs as [|b objs IH]; intros fig out.
  - simpl. rewrite !app_nil_r. now destruct fig.
  - change (leaves (b :: objs))
      with ((match b with DataViewer.PyList items => items | _ => [b] end)
            ++ leaves objs).
    rewrite drawables_app, rejected_app, map_app, !app_assoc.
    cbn [fold_left].
    assert (E : DataViewer.visit (fig, out) b
                = (DataViewer.mkFigure
                     (DataViewer.traces fig
                      ++ drawables match b with
                                   | DataViewer.PyList items => items
                                   | _ => [b]
                                   end),
                   out ++ map DataViewer.Invalid_object
                            (rejected match b with
                                      | DataViewer.PyList items => items
                                      | _ => [b]
                                      end))).
    { destruct b; unfold DataViewer.visit;
        [apply add_or_report_leaf | apply fold_add_or_report | apply add_or_report_leaf]. }
    rewrite E, IH. reflexivity.
Qed.

(** C5.  [draw] shows a figure holding exactly the drawables among the
    leaves of its input, in encounter order, and prints one line for each
    other leaf, showing that leaf, in encounter order; no value stops the
    composition.  One drawable and one other entry, in either order or
    together in a nested list, give one trace and one line. *)
Theorem draw_composition :
  (forall self : DataViewer.t,
      DataViewer.draw self
      = (DataViewer.mkFigure (drawables (leaves (DataViewer.plot_objects self))),
         map DataViewer.Invalid_object
             (rejected (leaves (DataViewer.plot_objects self))))) /\
  (forall (tr : go.Scatter3d) (bad : string),
      DataViewer.draw (DataViewer.mk [DataViewer.Trace tr; DataViewer.Other bad])
      = (DataViewer.mkFigure [tr], [DataViewer.Invalid_object (DataViewer.Other bad)]) /\
      DataViewer.draw (DataViewer.mk [DataViewer.Other bad; DataViewer.Trace tr])
      = (DataViewer.mkFigure [tr], [DataViewer.Invalid_object (DataViewer.Other bad)]) /\
      DataViewer.draw
        (DataViewer.mk [DataViewer.PyList [DataViewer.Trace tr; DataViewer.Other bad]])
      = (DataViewer.mkFigure [tr], [DataViewer.Invalid_object (DataViewer.Other bad)])).
Proof.
  split.
  - intros self. unfold DataViewer.draw. now rewrite fold_visit.
  - intros tr bad. repeat split.
Qed.

(* ------------------------------------------------------------------ *)
(** ** WellPlot: columns by name *)

Lemma nth_nil {A : Type} (i : nat) (d : A) : nth i [] d = d.
Proof. now destruct i. Qed.

Lemma index_of_cell (name : string) (header record : list string) :
  In name header ->
  exists i, WellPlot.index_of name header = Some i /\
            nth i record EmptyString = WellPlot.cell_under name header record.
Proof.
  revert record. induction header as [|h header IH]; intros record Hin; [contradiction|].
  simpl. destruct (String.eqb_spec name h) as [->|Hne].
  - exists O. split; [reflexivity|]. now destruct record.
  - destruct Hin as [E|Hin]; [congruence|].
    destruct (IH (tl record) Hin) as (i & -> & Hi).
    exists (S i). split; [reflexivity|].
    destruct record as [|c record]; [|exact Hi].
    rewrite nth_nil in Hi |- *. exact Hi.
Qed.

Lemma index_of_In (name : string) (header : list string) (i : nat) :
  WellPlot.index_of name header = Some i -> In name header.
Proof.
  revert i. induction header as [|h header IH]; intros i Hi; [discriminate|].
  simpl in Hi. destruct (String.eqb_spec name h) as [->|Hne]; [now left|].
  right. destruct (WellPlot.index_of name header); [eauto | discriminate].
Qed.

Lemma index_of_cells (name : string) (header : list string) (i : nat) :
  WellPlot.index_of name header = Some i ->
  forall record, nth i record EmptyString = WellPlot.cell_under name header record.
Proof.
  intros Hi record.
  destruct (index_of_cell name header record (index_of_In _ _ _ Hi)) as (j & Hj & E).
  rewrite Hi in Hj. now inv Hj.
Qed.

Lemma getitem_column (name : string) (df : WellPlot.Table) :
  In name (WellPlot.columns df) ->
  WellPlot.getitem (WellPlot.Frame df) name = Ok (column_under name df).
Proof.
  intros Hin. unfold WellPlot.getitem, column_under.
  destruct (index_of_cell name (WellPlot.columns df) [] Hin) as (i & Hi & _).
  rewrite Hi. do 2 f_equal. apply map_ext. intros record. f_equal.
  now apply index_of_cells.
Qed.

(** Selecting columns keeps, under each selected name, the cell the
    line had under that name. *)
Lemma by_name_cell (name : string) (header usecols record : list string) :
  In name usecols -> In name header ->
  WellPlot.cell_under name (filter (fun h => WellPlot.mem_string h usecols) header)
    (map (fun c => WellPlot.cell_under c header record)
         (filter (fun h => WellPlot.mem_string h usecols) header))
  = WellPlot.cell_under name header record.
Proof.
  intros Hu Hh.
  assert (Hk : In name (filter (fun h => WellPlot.mem_string h usecols) header))
    by (apply filter_In; split; [assumption | cbv beta; now apply mem_string_In]).
  revert Hk. generalize (filter (fun h => WellPlot.mem_string h usecols) header).
  induction l as [|k kept IH]; intros Hk; [contradiction|].
  simpl. destruct (String.eqb_spec name k) as [->|Hne]; [reflexivity|].
  destruct Hk as [E|Hk]; [congruence | now apply IH].
Qed.

Lemma getitem_by_name (name : string) (header usecols : list string)
    (stations : WellPlot.CsvFile) :
  In name usecols -> In name header ->
  WellPlot.getitem (WellPlot.Frame (WellPlot.by_name header usecols stations)) name
  = Ok (SObject (map (fun record => Some (WellPlot.cell_under name header record))
                     stations)).
Proof.
  intros Hu Hh. rewrite getitem_column.
  - unfold column_under, WellPlot.by_name. cbn [WellPlot.columns WellPlot.rows].
    rewrite map_map. do 2 f_equal.
    apply map_ext. intros record. f_equal. now apply by_name_cell.
  - cbn [WellPlot.by_name WellPlot.columns]. apply filter_In.
    split; [assumption | cbv beta; now apply mem_string_In].
Qed.

(** ** WellPlot.create_plot (C6) *)

Lemma well_trace_polyline (i : nat) (df : WellPlot.Table) :
  has_positions df ->
  WellPlot.well_trace i (WellPlot.Frame df)
  = Ok (polyline df (nth (Nat.modulo i 4) WellPlot.colors EmptyString)
                 (WellPlot.label (i + 1))).
Proof.
  intros (Hew & Hns & Htvd). unfold WellPlot.well_trace.
  assert (Hlt : (Nat.modulo i 4 < 4)%nat) by (apply Nat.mod_upper_bound; lia).
  change (List.length WellPlot.colors) with 4%nat.
  destruct (nth_error WellPlot.colors (Nat.modulo i 4)) as [c|] eqn:E.
  - apply (nth_error_nth _ _ EmptyString) in E. rewrite E. cbn [bind].
    rewrite !getitem_column by assumption. reflexivity.
  - apply nth_error_None in E.
    change (List.length WellPlot.colors) with 4%nat in E. lia.
Qed.

Lemma trace_loop_polylines (frames : list WellPlot.Table) (i : nat)
    (acc : list go.Scatter3d) :
  Forall has_positions frames ->
  WellPlot.trace_loop i (map WellPlot.Frame frames) acc
  = Ok (acc ++ polylines_from i frames).
Proof.
  revert i acc. induction frames as [|df frames IH]; intros i acc Hall; simpl.
  - now rewrite app_nil_r.
  - inv Hall. rewrite well_trace_polyline by assumption. simpl.
    rewrite IH by assumption. now rewrite <- app_assoc.
Qed.

(** C6.  With four loaded trajectories that have the columns [EW], [NS]
    and [TVD], [create_plot] returns exactly four polylines, in input
    order; each takes its positions from these three columns of its own
    table, record by record in the order of the table; the stroke colors
    are red, blue, green, orange and the labels 1H, 2H, 3H, 4H. *)
Theorem well_create_plot_polylines
    (self : WellPlot.t) (df1 df2 df3 df4 : WellPlot.Table) :
  WellPlot.well1 self = WellPlot.Frame df1 ->
  WellPlot.well2 self = WellPlot.Frame df2 ->
  WellPlot.well3 self = WellPlot.Frame df3 ->
  WellPlot.well4 self = WellPlot.Frame df4 ->
  Forall has_positions [df1; df2; df3; df4] ->
  WellPlot.create_plot self
  = Ok [polyline df1 "red" "1H"; polyline df2 "blue" "2H";
        polyline df3 "green" "3H"; polyline df4 "orange" "4H"].
Proof.
  intros H1 H2 H3 H4 Hall. unfold WellPlot.create_plot.
  rewrite H1, H2, H3, H4.
  apply (trace_loop_polylines [df1; df2; df3; df4] 0 [] Hall).
Qed.

(** C6, on the four demonstration surveys. *)
Lemma well_create_plot_polylines_example :
  WellPlot.create_plot WellDemo.loaded
  = Ok [polyline WellDemo.table_A "red" "1H"; polyline WellDemo.table_B "blue" "2H";
        polyline WellDemo.table_B "green" "3H"; polyline WellDemo.table_B "orange" "4H"] /\
  go.x (polyline WellDemo.table_A "red" "1H") = SObject [Some "0.1"; Some "0.3"] /\
  go.y (polyline WellDemo.table_A "red" "1H") = SObject [Some "-0.4"; Some "-1.7"] /\
  go.z (polyline WellDemo.table_A "red" "1H") = SObject [Some "99.9"; Some "199.8"].
Proof.
  split; [|repeat split].
  apply (well_create_plot_polylines WellDemo.loaded WellDemo.table_A WellDemo.table_B
           WellDemo.table_B WellDemo.table_B); try reflexivity.
  repeat (apply Forall_cons; [repeat split; simpl; auto 10|]). apply Forall_nil.
Defined.

(** ** WellPlot.load_csv (C9, C10) *)

(** The four reads of [load_csv], taken apart. *)
Lemma load_csv_Ok (pd : WellPlot.Reader) (fs : WellPlot.FileSystem)
    (self self' : WellPlot.t) :
  WellPlot.load_csv pd fs self = (self', Ok true) ->
  exists t1 t2 t3 t4 : WellPlot.Table,
    WellPlot.read_csv pd fs (WellPlot.well1 self) 27 5 WellPlot.survey_columns None
    = Ok t1 /\
    WellPlot.read_csv pd fs (WellPlot.well2 self) 22 0 WellPlot.survey_columns
      (Some WellPlot.survey_columns) = Ok t2 /\
    WellPlot.read_csv pd fs (WellPlot.well3 self) 22 0 WellPlot.survey_columns
      (Some WellPlot.survey_columns) = Ok t3 /\
    WellPlot.read_csv pd fs (WellPlot.well4 self) 22 0 WellPlot.survey_columns
      (Some WellPlot.survey_columns) = Ok t4 /\
    self' = WellPlot.mk (WellPlot.Frame t1) (WellPlot.Frame t2)
                        (WellPlot.Frame t3) (WellPlot.Frame t4).
Proof.
  unfold WellPlot.load_csv, WellPlot.seq, WellPlot.eval, WellPlot.assign, WellPlot.ret.
  destruct (WellPlot.read_csv pd fs (WellPlot.well1 self) _ _ _ _) as [t1|e];
    [|discriminate]. cbn -[WellPlot.read_csv].
  destruct (WellPlot.read_csv pd fs (WellPlot.well2 self) _ _ _ _) as [t2|e];
    [|discriminate]. cbn -[WellPlot.read_csv].
  destruct (WellPlot.read_csv pd fs (WellPlot.well3 self) _ _ _ _) as [t3|e];
    [|discriminate]. cbn -[WellPlot.read_csv].
  destruct (WellPlot.read_csv pd fs (WellPlot.well4 self) _ _ _ _) as [t4|e];
    [|discriminate]. cbn -[WellPlot.read_csv].
  intros H. inv H. exists t1, t2, t3, t4. auto.
Qed.

Lemma load_csv_returns (pd : WellPlot.Reader) (fs : WellPlot.FileSystem)
    (self : WellPlot.t) (t1 t2 t3 t4 : WellPlot.Table) :
  WellPlot.read_csv pd fs (WellPlot.well1 self) 27 5 WellPlot.survey_columns None
  = Ok t1 ->
  WellPlot.read_csv pd fs (WellPlot.well2 self) 22 0 WellPlot.survey_columns
    (Some WellPlot.survey_columns) = Ok t2 ->
  WellPlot.read_csv pd fs (WellPlot.well3 self) 22 0 WellPlot.survey_columns
    (Some WellPlot.survey_columns) = Ok t3 ->
  WellPlot.read_csv pd fs (WellPlot.well4 self) 22 0 WellPlot.survey_columns
    (Some WellPlot.survey_columns) = Ok t4 ->
  WellPlot.load_csv pd fs self
  = (WellPlot.mk (WellPlot.Frame t1) (WellPlot.Frame t2)
                 (WellPlot.Frame t3) (WellPlot.Frame t4), Ok true).
Proof.
  intros H1 H2 H3 H4.
  unfold WellPlot.load_csv, WellPlot.seq, WellPlot.eval, WellPlot.assign, WellPlot.ret.
  rewrite H1. cbn -[WellPlot.read_csv]. rewrite H2. cbn -[WellPlot.read_csv].
  rewrite H3. cbn -[WellPlot.read_csv]. rewrite H4. reflexivity.
Qed.

(** A [load_csv] whose first read raises stops there. *)
Lemma load_csv_first_raises (pd : WellPlot.Reader) (fs : WellPlot.FileSystem)
    (self : WellPlot.t) (e : PyError) :
  WellPlot.read_csv pd fs (WellPlot.well1 self) 27 5 WellPlot.survey_columns None
  = Raise e ->
  WellPlot.load_csv pd fs self = (self, Raise e).
Proof.
  intros H.
  unfold WellPlot.load_csv, WellPlot.seq, WellPlot.eval, WellPlot.assign, WellPlot.ret.
  now rewrite H.
Qed.

Lemma read_csv_Ok_path (pd : WellPlot.Reader) (fs : WellPlot.FileSystem)
    (source : WellPlot.WellAttr) (skiprows skipfooter : nat) (usecols : list string)
    (names : option (list string)) (tbl : WellPlot.Table) :
  WellPlot.read_csv pd fs source skiprows skipfooter usecols names = Ok tbl ->
  exists (p : string) (file : WellPlot.CsvFile),
    source = WellPlot.Path p /\ fs p = Some file /\
    WellPlot.parse pd file skiprows skipfooter usecols names = Ok tbl.
Proof.
  unfold WellPlot.read_csv. destruct source as [p|df]; [|discriminate].
  destruct (fs p) as [file|] eqn:E; [|discriminate].
  intros H. exists p, file. auto.
Qed.

(** C10.  After a successful [load_csv] the four attributes hold tables,
    so the instance holds no path any more (it has no other attribute),
    and the paths the instance was built with were read from.  A second
    [load_csv] on that instance reads no file: whatever the files then
    are, it raises on the first read, which is given a table instead of a
    path, and leaves the instance as it is. *)
Theorem load_csv_replaces_paths
    (pd : WellPlot.Reader) (fs : WellPlot.FileSystem) (self self' : WellPlot.t) :
  WellPlot.load_csv pd fs self = (self', Ok true) ->
  (exists p1 p2 p3 p4 : string,
      self = WellPlot.init p1 p2 p3 p4) /\
  (exists t1 t2 t3 t4 : WellPlot.Table,
      self' = WellPlot.mk (WellPlot.Frame t1) (WellPlot.Frame t2)
                          (WellPlot.Frame t3) (WellPlot.Frame t4)) /\
  (forall fs' : WellPlot.FileSystem,
   exists e : PyError, WellPlot.load_csv pd fs' self' = (self', Raise e)).
Proof.
  intros H. apply load_csv_Ok in H.
  destruct H as (t1 & t2 & t3 & t4 & H1 & H2 & H3 & H4 & ->).
  split; [|split].
  - apply read_csv_Ok_path in H1, H2, H3, H4.
    destruct H1 as (p1 & ? & E1 & _), H2 as (p2 & ? & E2 & _),
             H3 as (p3 & ? & E3 & _), H4 as (p4 & ? & E4 & _).
    exists p1, p2, p3, p4. destruct self. simpl in *. now subst.
  - exists t1, t2, t3, t4. reflexivity.
  - intros fs'. exists (WellPlot.refused pd). now apply load_csv_first_raises.
Qed.

(** The layouts of the demonstration files. *)
Ltac distinct_names :=
  repeat (apply NoDup_cons; [simpl; intuition discriminate|]); apply NoDup_nil.

Ltac each_line := repeat (apply Forall_cons; [simpl; try reflexivity; auto 10|]);
                  apply Forall_nil.

Lemma file_A_layout :
  WellPlot.headed_layout WellDemo.file_A 27 5 WellPlot.survey_columns
    WellDemo.header WellDemo.stations_A.
Proof.
  split; [each_line|].
  split; [exists (repeat ["End of survey"] 5); split; reflexivity|].
  split; [distinct_names|].
  split; [repeat (apply Forall_cons; [discriminate|]); apply Forall_nil|].
  split; [each_line|]. split; [discriminate | each_line].
Qed.

Lemma file_B_layout :
  WellPlot.named_layout WellDemo.file_B 22 WellPlot.survey_columns WellDemo.stations_B.
Proof.
  split; [each_line|]. split; [reflexivity|]. split; [distinct_names|].
  split; [discriminate | each_line].
Qed.

Lemma file_units_layout :
  WellPlot.headed_layout (firstn 1 WellDemo.file_units ++ skipn 2 WellDemo.file_units)
    0 5 WellPlot.survey_columns WellDemo.header WellDemo.stations_A.
Proof.
  split; [each_line|].
  split; [exists (repeat ["End of survey"] 5); split; reflexivity|].
  split; [distinct_names|].
  split; [repeat (apply Forall_cons; [discriminate|]); apply Forall_nil|].
  split; [each_line|]. split; [discriminate | each_line].
Qed.

(** C10, on the four demonstration surveys. *)
Lemma load_csv_replaces_paths_example :
  WellPlot.load_csv plain_reader WellDemo.fs WellDemo.wells = (WellDemo.loaded, Ok true) /\
  forall fs' : WellPlot.FileSystem,
  exists e : PyError,
    WellPlot.load_csv plain_reader fs' WellDemo.loaded = (WellDemo.loaded, Raise e).
Proof.
  assert (H : WellPlot.load_csv plain_reader WellDemo.fs WellDemo.wells
              = (WellDemo.loaded, Ok true))
    by (vm_compute; reflexivity).
  split; [exact H|].
  apply (load_csv_replaces_paths plain_reader WellDemo.fs WellDemo.wells WellDemo.loaded H).
Defined.

(** C9, as the code has it.  [load_csv] reads the first well file by
    skipping its 27 leading lines, taking the next line as the header,
    skipping the 5 trailing lines and selecting the columns Azimuth, TVD,
    NS, EW by name: under each of these names the table holds, station by
    station, the cell the file has under that name.  It reads each of the
    other three files by skipping 22 leading lines and naming the four
    cells of every remaining line Azimuth, TVD, NS, EW, no line being
    taken as a header.  (For files of these layouts, without blank lines
    and with as many cells per station as there are names.) *)
Theorem load_csv_variants
    (pd : WellPlot.Reader) (fs : WellPlot.FileSystem) (p1 p2 p3 p4 : string)
    (f1 f2 f3 f4 : WellPlot.CsvFile) (header : list string)
    (stations1 stations2 stations3 stations4 : WellPlot.CsvFile) :
  fs p1 = Some f1 -> fs p2 = Some f2 -> fs p3 = Some f3 -> fs p4 = Some f4 ->
  WellPlot.headed_layout f1 27 5 WellPlot.survey_columns header stations1 ->
  WellPlot.named_layout f2 22 WellPlot.survey_columns stations2 ->
  WellPlot.named_layout f3 22 WellPlot.survey_columns stations3 ->
  WellPlot.named_layout f4 22 WellPlot.survey_columns stations4 ->
  exists t1 : WellPlot.Table,
    WellPlot.load_csv pd fs (WellPlot.init p1 p2 p3 p4)
    = (WellPlot.mk (WellPlot.Frame t1)
         (WellPlot.Frame (WellPlot.mkTable WellPlot.survey_columns stations2))
         (WellPlot.Frame (WellPlot.mkTable WellPlot.survey_columns stations3))
         (WellPlot.Frame (WellPlot.mkTable WellPlot.survey_columns stations4)),
       Ok true) /\
    (exists footer : WellPlot.CsvFile,
        skipn 27 f1 = header :: stations1 ++ footer /\ List.length footer = 5%nat) /\
    skipn 22 f2 = stations2 /\ skipn 22 f3 = stations3 /\ skipn 22 f4 = stations4 /\
    WellPlot.columns t1
    = filter (fun h => WellPlot.mem_string h WellPlot.survey_columns) header /\
    stations_under header stations1 t1.
Proof.
  intros H1 H2 H3 H4 L1 L2 L3 L4.
  exists (WellPlot.by_name header WellPlot.survey_columns stations1).
  split; [|split; [|split; [|split; [|split; [|split]]]]].
  - apply load_csv_returns; unfold WellPlot.read_csv, WellPlot.init;
      cbn [WellPlot.well1 WellPlot.well2 WellPlot.well3 WellPlot.well4].
    + rewrite H1. now apply WellPlot.parse_headed.
    + rewrite H2. now apply WellPlot.parse_named.
    + rewrite H3. now apply WellPlot.parse_named.
    + rewrite H4. now apply WellPlot.parse_named.
  - apply L1.
  - apply L2.
  - apply L3.
  - apply L4.
  - reflexivity.
  - intros name Hname. apply getitem_by_name; [assumption|].
    destruct L1 as (_ & _ & _ & _ & Hcols & _).
    rewrite Forall_forall in Hcols. auto.
Qed.

(** C9, on the four demonstration surveys. *)
Lemma load_csv_variants_example :
  WellPlot.load_csv plain_reader WellDemo.fs WellDemo.wells = (WellDemo.loaded, Ok true) /\
  WellPlot.getitem (WellPlot.well1 WellDemo.loaded) "EW"
  = Ok (SObject [Some "0.1"; Some "0.3"]).
Proof.
  destruct (load_csv_variants plain_reader WellDemo.fs
              "well1.csv" "well2.csv" "well3.csv" "well4.csv"
              WellDemo.file_A WellDemo.file_B WellDemo.file_B WellDemo.file_B
              WellDemo.header WellDemo.stations_A WellDemo.stations_B
              WellDemo.stations_B WellDemo.stations_B)
    as (t1 & Hload & _ & _ & _ & _ & _ & Hcol);
    try reflexivity; try apply file_A_layout; try apply file_B_layout.
  assert (E : WellPlot.load_csv plain_reader WellDemo.fs WellDemo.wells
              = (WellDemo.loaded, Ok true))
    by (vm_compute; reflexivity).
  split; [exact E|].
  change (WellPlot.init "well1.csv" "well2.csv" "well3.csv" "well4.csv")
    with WellDemo.wells in Hload.
  rewrite E in Hload. inversion Hload as [E1].
  change (WellPlot.well1 WellDemo.loaded) with (WellPlot.Frame WellDemo.table_A).
  rewrite E1. rewrite (Hcol "EW") by (simpl; auto 10). reflexivity.
Defined.

(** On a file laid out as the specification words variant A (the header
    first, one line describing it, the stations, 5 trailing lines) the
    two readings part, whatever the reader: the reading in the
    specification's words gives the stations, the read that [load_csv]
    makes raises, no line being left after the 27 it skips. *)
Lemma units_file_readings (pd : WellPlot.Reader) :
  spec_variant_A pd WellDemo.file_units
  = Ok (WellPlot.by_name WellDemo.header WellPlot.survey_columns WellDemo.stations_A) /\
  exists e : PyError,
    WellPlot.load_csv pd WellDemo.fs
      (WellPlot.init "units.csv" "well2.csv" "well3.csv" "well4.csv")
    = (WellPlot.init "units.csv" "well2.csv" "well3.csv" "well4.csv", Raise e).
Proof.
  split.
  - unfold spec_variant_A. apply WellPlot.parse_headed, file_units_layout.
  - destruct (WellPlot.parse_nothing pd WellDemo.file_units 27 5
                WellPlot.survey_columns) as [e He]; [simpl; lia|].
    exists e. apply load_csv_first_raises.
    unfold WellPlot.read_csv, WellPlot.init. cbn [WellPlot.well1].
    change (WellDemo.fs "units.csv") with (Some WellDemo.file_units). exact He.
Qed.

(** C9 as the specification words it does not hold.  On the file laid
    out with the header first, one describing line and 5 trailing lines,
    the reading in the specification's words gives the two stations,
    while [load_csv] raises; on the file with 27 leading lines, [load_csv]
    gives the two stations. *)
Lemma load_csv_variant_A_skips_27 :
  spec_variant_A plain_reader WellDemo.file_units = Ok WellDemo.table_A /\
  (exists e : PyError,
      WellPlot.load_csv plain_reader WellDemo.fs
        (WellPlot.init "units.csv" "well2.csv" "well3.csv" "well4.csv")
      = (WellPlot.init "units.csv" "well2.csv" "well3.csv" "well4.csv", Raise e)) /\
  WellPlot.well1 (fst (WellPlot.load_csv plain_reader WellDemo.fs WellDemo.wells))
  = WellPlot.Frame WellDemo.table_A.
Proof.
  destruct (units_file_readings plain_reader) as [Hspec Hcode].
  split; [rewrite Hspec; vm_compute; reflexivity|].
  split; [exact Hcode | vm_compute; reflexivity].
Qed.

(* ================================================================== *)
(** * Further properties *)
(* ================================================================== *)

(** ** MSPlot.load_csv: failures and reloads *)



(** X3.  A load replaces the table and nothing else, and what it loads
    depends on the file only: loading again from the same, unchanged
    file gives the same instance, and the configuration attributes and
    stored bounds are those from before the load. *)
Theorem load_csv_reload
    (pd : MSPlot.Pandas) (env : MSPlot.Env) (path : string) (self self' : MSPlot.t) :
  MSPlot.load_csv pd env path self = (self', Ok true) ->
  MSPlot.load_csv pd env path self' = (self', Ok true) /\
  (forall other : MSPlot.t,
      MSPlot.data (fst (MSPlot.load_csv pd env path other)) = MSPlot.data self') /\
  MSPlot.color_by self' = MSPlot.color_by self /\
  MSPlot.color_scale self' = MSPlot.color_scale self /\
  MSPlot.size_by self' = MSPlot.size_by self /\
  MSPlot.size_range self' = MSPlot.size_range self /\
  MSPlot.plot_start_time self' = MSPlot.plot_start_time self /\
  MSPlot.plot_end_time self' = MSPlot.plot_end_time self /\
  MSPlot.title self' = MSPlot.title self.
Proof.
  unfold MSPlot.load_csv.
  destruct (negb (MSPlot.path_exists env path)); [discriminate|].
  destruct (MSPlot.read_csv env path) as [needed|e0]; [|discriminate].
  destruct (MSPlot.origin_datetime_column pd needed) as [col|e0]; [|discriminate].
  intros H. inv H. repeat split; reflexivity.
Qed.

(** X3, on the three-row catalog. *)
Lemma load_csv_reload_example :
  MSPlot.load_csv mdy_pandas Demo.env "catalog.csv" Demo.loaded = (Demo.loaded, Ok true).
Proof.
  apply (load_csv_reload mdy_pandas Demo.env "catalog.csv" MSPlot.init Demo.loaded).
  vm_compute. reflexivity.
Defined.

(** ** MSPlot.create_plot: which attribute names it accepts *)

(** X4.  On a loaded instance whose filtered record set is not empty,
    [create_plot] returns a trace only if [size_by] names one of the six
    numeric columns and [color_by] names one of the ten columns of the
    parsed catalog: with a text column, the datetime column or an unknown
    name as size attribute, or an unknown name as color attribute, it
    raises. *)
Theorem create_plot_accepts
    (pd : MSPlot.Pandas) (plotly : go.Plotly) (self : MSPlot.t)
    (data : MSPlot.DataFrame) (trace : go.Scatter3d) :
  MSPlot.data self = Some data ->
  df_filtered pd self data <> [] ->
  snd (MSPlot.create_plot pd plotly self) = Ok trace ->
  In (MSPlot.size_by self) numeric_columns /\ In (MSPlot.color_by self) column_names.
Proof.
  intros Hd Hne Htrace. rewrite (create_plot_eq _ _ _ _ Hd) in Htrace.
  cbn [snd] in Htrace.
  destruct (scatter_of_sizes _ _ _ _ _ Htrace) as (m & _ & Hsize & _).
  split; [exact Hsize|].
  apply scatter_of_Ok in Htrace.
  destruct Htrace as (sc & mg & ms & cc & lo & hi & _ & _ & _ & Hc & _).
  destruct (in_dec string_dec (MSPlot.color_by self) column_names) as [|Hcol];
    [assumption|].
  rewrite (column_KeyError _ _ Hcol) in Hc. discriminate.
Qed.

(** X4, on the three-row catalog: ['File Name'] as size attribute gives
    no trace. *)
Lemma create_plot_accepts_example :
  ~ (exists trace,
        snd (MSPlot.create_plot mdy_pandas named_plotly (MSPlot.set_sizeby Demo.loaded "File Name"))
        = Ok trace) /\
  Demo.rows <> [].
Proof.
  split; [|discriminate]. intros [trace H].
  apply (create_plot_accepts mdy_pandas named_plotly (MSPlot.set_sizeby Demo.loaded "File Name")
           Demo.rows)
    in H; [|reflexivity | vm_compute; discriminate].
  destruct H as [H _]. simpl in H.
  repeat (destruct H as [H | H]; [discriminate|]). contradiction.
Defined.

(** X5.  An attribute name that is no column of the parsed catalog makes
    [create_plot] raise [KeyError] with that name ([size_by] is looked up
    before [color_by]); by then the call has already stored the bounds on
    the instance. *)
Theorem create_plot_unknown_attribute
    (pd : MSPlot.Pandas) (plotly : go.Plotly) (self : MSPlot.t)
    (data : MSPlot.DataFrame) :
  MSPlot.data self = Some data ->
  ~ In (MSPlot.size_by self) column_names \/
  (In (MSPlot.size_by self) numeric_columns /\ ~ In (MSPlot.color_by self) column_names) ->
  exists key,
    snd (MSPlot.create_plot pd plotly self) = Raise (KeyError key) /\
    (~ In (MSPlot.size_by self) column_names -> key = MSPlot.size_by self) /\
    (In (MSPlot.size_by self) column_names -> key = MSPlot.color_by self) /\
    MSPlot.plot_start_time (fst (MSPlot.create_plot pd plotly self))
    = Some (lower_bound pd self data) /\
    MSPlot.plot_end_time (fst (MSPlot.create_plot pd plotly self))
    = Some (upper_bound pd self data).
Proof.
  intros Hd Hcase.
  destruct (create_plot_bounds pd plotly self data Hd) as [Hs He].
  rewrite (create_plot_eq _ _ _ _ Hd) in *. cbn [fst snd] in *.
  unfold MSPlot.scatter_of.
  destruct Hcase as [Hsize | [Hsize Hcolor]].
  - exists (MSPlot.size_by self). rewrite (column_KeyError _ _ Hsize). simpl.
    repeat split; auto. intros Hin. contradiction.
  - exists (MSPlot.color_by self).
    destruct (column_numeric _ (df_filtered pd self data) Hsize) as (sc & Hsc & Hn).
    destruct (numeric_abs_times_100 _ Hn) as (mg & ms & Ha & Ht).
    rewrite Hsc. cbn [bind]. rewrite Ha. cbn [bind]. rewrite Ht. cbn [bind].
    rewrite (column_KeyError _ _ Hcolor). cbn [bind].
    repeat split; auto. intros Hnot. exfalso. apply Hnot.
    simpl in Hsize. simpl.
    repeat (destruct Hsize as [<- | Hsize]; [auto 12|]). contradiction.
Qed.

(** X5, on the three-row catalog with [size_by] set to ['Magnitude']. *)
Lemma create_plot_unknown_attribute_example :
  snd (MSPlot.create_plot mdy_pandas named_plotly Demo.by_name) = Raise (KeyError "Magnitude") /\
  MSPlot.plot_start_time Demo.by_name = None /\
  MSPlot.plot_start_time (fst (MSPlot.create_plot mdy_pandas named_plotly Demo.by_name))
  = Some (Ts 1737288000250000000).
Proof.
  destruct (create_plot_unknown_attribute mdy_pandas named_plotly Demo.by_name Demo.rows)
    as (key & Hraise & Hkey & _ & Hs & _).
  - reflexivity.
  - left. simpl. intros H.
    repeat (destruct H as [H | H]; [discriminate|]). contradiction.
  - split; [|split; [reflexivity|]].
    + rewrite Hraise, Hkey; [reflexivity|].
      simpl. intros H. repeat (destruct H as [H | H]; [discriminate|]). contradiction.
    + rewrite Hs. vm_compute. reflexivity.
Defined.

(** ** MSPlot.create_plot: the point cloud *)

Lemma scatter_of_point_cloud (pd : MSPlot.Pandas) (plotly : go.Plotly) (self : MSPlot.t)
    (df : MSPlot.DataFrame) (trace : go.Scatter3d) :
  MSPlot.scatter_of pd plotly self df = Ok trace ->
  exists size_col magnitude marker_size color_col color_min color_max,
    MSPlot.column (MSPlot.size_by self) df = Ok size_col /\
    series_abs size_col = Ok magnitude /\
    series_times_100 magnitude = Ok marker_size /\
    MSPlot.column (MSPlot.color_by self) df = Ok color_col /\
    trace = point_cloud df
              (go.mkMarker "diameter" 25 marker_size color_col (MSPlot.color_scale self)
                 color_min color_max (MSPlot.color_by self)).
Proof.
  intros H. apply scatter_of_Ok in H.
  destruct H as (sc & mg & ms & cc & lo & hi & H1 & H2 & H3 & H4 & _ & _ & _ & _ & ->).
  exists sc, mg, ms, cc, lo, hi. auto.
Qed.

(** X6.  The point cloud of a successful [create_plot] lists, in
    chronological order, the records among the first 101 loaded rows
    whose timestamp lies within the bounds in force, each as often as it
    is among these rows and no other record; its [x], [y], [z] and hover
    entries are the easting, northing, depth and (file name, stage,
    magnitude) of these records, in that order. *)
Theorem create_plot_points_chronological
    (pd : MSPlot.Pandas) (plotly : go.Plotly) (self : MSPlot.t)
    (data : MSPlot.DataFrame) (trace : go.Scatter3d) :
  MSPlot.data self = Some data ->
  snd (MSPlot.create_plot pd plotly self) = Ok trace ->
  exists points : MSPlot.DataFrame,
    StronglySorted MSPlot.ascending points /\
    Permutation points
      (filter (inside (lower_bound pd self data) (upper_bound pd self data))
              (firstn 101 data)) /\
    go.x trace = SFloat64 (map (fun r => MSPlot.Easting (MSPlot.source r)) points) /\
    go.y trace = SFloat64 (map (fun r => MSPlot.Northing (MSPlot.source r)) points) /\
    go.z trace = SFloat64 (map (fun r => MSPlot.Depth_TVDSS (MSPlot.source r)) points) /\
    go.text trace
    = Some (map (fun r => go.mkHover (MSPlot.File_Name (MSPlot.source r))
                            (MSPlot.Stage (MSPlot.source r))
                            (MSPlot.Brune_Magnitude (MSPlot.source r))) points).
Proof.
  intros Hd Htrace. rewrite (create_plot_eq _ _ _ _ Hd) in Htrace. cbn [snd] in Htrace.
  apply scatter_of_point_cloud in Htrace.
  destruct Htrace as (sc & mg & ms & cc & lo & hi & _ & _ & _ & _ & ->).
  exists (df_filtered pd self data).
  destruct (df_filtered_spec pd self data) as [Hsorted Hperm].
  split; [exact Hsorted|]. split; [exact Hperm|]. repeat split.
Qed.

(** X6, on the three-row catalog given in reverse order: the points come
    out oldest first. *)
Lemma create_plot_points_chronological_example :
  exists trace points,
    snd (MSPlot.create_plot mdy_pandas named_plotly (MSPlot.set_data MSPlot.init (rev Demo.rows)))
    = Ok trace /\
    StronglySorted MSPlot.ascending points /\
    go.x trace = SFloat64 (map (fun r => MSPlot.Easting (MSPlot.source r)) points) /\
    go.text trace
    = Some [go.mkHover (Some "event_001") 1 (MSPlot.Brune_Magnitude Demo.event_001);
            go.mkHover (Some "event_002") 1 (MSPlot.Brune_Magnitude Demo.event_002);
            go.mkHover (Some "event_003") 2 (MSPlot.Brune_Magnitude Demo.event_003)].
Proof.
  destruct (MSPlot.create_plot mdy_pandas named_plotly (MSPlot.set_data MSPlot.init (rev Demo.rows)))
    as [st [trace|e]] eqn:E; [|vm_compute in E; discriminate].
  destruct (create_plot_points_chronological mdy_pandas named_plotly
              (MSPlot.set_data MSPlot.init (rev Demo.rows)) (rev Demo.rows) trace)
    as (points & Hsorted & _ & Hx & _ & _ & _); [reflexivity | now rewrite E |].
  exists trace, points. split; [reflexivity|]. split; [exact Hsorted|].
  split; [exact Hx|].
  vm_compute in E. inversion E. reflexivity.
Defined.

Lemma series_abs_length (s s' : Series) :
  series_abs s = Ok s' -> series_length s' = series_length s.
Proof.
  destruct s as [l|l|l|l]; simpl; try destruct (forallb is_missing l);
    intros H; inv H; simpl; now rewrite ?length_map.
Qed.

Lemma series_times_100_length (s s' : Series) :
  series_times_100 s = Ok s' -> series_length s' = series_length s.
Proof.
  destruct s as [l|l|l|l]; simpl; intros H; inv H; simpl; now rewrite ?length_map.
Qed.

Lemma window_filter_length (lower upper : Timestamp) (df : MSPlot.DataFrame) :
  (List.length (MSPlot.window_filter lower upper df) <= List.length df)%nat.
Proof. apply filter_length_le. Qed.

Lemma considered_length (pd : MSPlot.Pandas) (data : MSPlot.DataFrame) :
  List.length (MSPlot.considered pd data) = Nat.min 101 (List.length data).
Proof.
  unfold MSPlot.considered.
  rewrite (Permutation_length (MSPlot.sort_values_permutes pd _)). apply length_firstn.
Qed.

(** X7.  In the trace of a successful [create_plot] the coordinate, hover,
    size and color arrays all have one entry per plotted record, and there
    are never more than 101 records, nor more than were loaded. *)
Theorem create_plot_arrays_aligned
    (pd : MSPlot.Pandas) (plotly : go.Plotly) (self : MSPlot.t)
    (data : MSPlot.DataFrame) (trace : go.Scatter3d) :
  MSPlot.data self = Some data ->
  snd (MSPlot.create_plot pd plotly self) = Ok trace ->
  exists (n : nat) (m : go.Marker) (hover : list go.Hover),
    go.marker trace = Some m /\ go.text trace = Some hover /\
    series_length (go.x trace) = n /\ series_length (go.y trace) = n /\
    series_length (go.z trace) = n /\ List.length hover = n /\
    series_length (go.size m) = n /\ series_length (go.color m) = n /\
    (n <= 101)%nat /\ (n <= List.length data)%nat.
Proof.
  intros Hd Htrace. rewrite (create_plot_eq _ _ _ _ Hd) in Htrace. cbn [snd] in Htrace.
  apply scatter_of_point_cloud in Htrace.
  destruct Htrace as (sc & mg & ms & cc & lo & hi & Hs & Ha & Ht & Hc & ->).
  exists (List.length (df_filtered pd self data)). do 2 eexists.
  split; [reflexivity|]. split; [reflexivity|]. simpl.
  unfold MSPlot.hover_text. rewrite !length_map.
  repeat (split; [reflexivity|]).
  split; [|split; [|split]].
  - rewrite (series_times_100_length _ _ Ht), (series_abs_length _ _ Ha).
    now apply column_length in Hs.
  - now apply column_length in Hc.
  - unfold df_filtered.
    pose proof (window_filter_length (lower_bound pd self data) (upper_bound pd self data)
                  (MSPlot.considered pd data)).
    rewrite considered_length in *. lia.
  - unfold df_filtered.
    pose proof (window_filter_length (lower_bound pd self data) (upper_bound pd self data)
                  (MSPlot.considered pd data)).
    rewrite considered_length in *. lia.
Qed.

(** X7, on a table of 150 rows: 101 points. *)
Lemma create_plot_arrays_aligned_example :
  exists trace n,
    snd (MSPlot.create_plot mdy_pandas named_plotly
           (MSPlot.set_data MSPlot.init (repeat Demo.early 150)))
    = Ok trace /\
    series_length (go.x trace) = n /\ series_length (go.z trace) = n /\
    (n <= 101)%nat /\ n = 101%nat.
Proof.
  destruct (MSPlot.create_plot mdy_pandas named_plotly
              (MSPlot.set_data MSPlot.init (repeat Demo.early 150)))
    as [st [trace|e]] eqn:E; [|vm_compute in E; discriminate].
  destruct (create_plot_arrays_aligned mdy_pandas named_plotly
              (MSPlot.set_data MSPlot.init (repeat Demo.early 150))
              (repeat Demo.early 150) trace)
    as (n & m & hover & _ & _ & Hx & _ & Hz & _ & _ & _ & Hcap & _);
    [reflexivity | now rewrite E |].
  exists trace, n. split; [reflexivity|].
  split; [exact Hx|]. split; [exact Hz|]. split; [exact Hcap|].
  rewrite <- Hx. vm_compute in E. inversion E. reflexivity.
Defined.

(** ** MSPlot.create_plot: bounds across calls *)

Lemma default_window_keeps_stamped (df : MSPlot.DataFrame) :
  MSPlot.window_filter (datetime_min (map MSPlot.Origin_DateTime df))
    (datetime_max (map MSPlot.Origin_DateTime df)) df
  = filter has_timestamp df.
Proof.
  rewrite window_filter_inside. apply filter_ext_in. intros r Hr.
  unfold inside, has_timestamp.
  destruct (MSPlot.Origin_DateTime r) as [|stamp] eqn:E.
  - now destruct (datetime_min _).
  - assert (Hin : In (Ts stamp) (map MSPlot.Origin_DateTime df))
      by (rewrite <- E; now apply in_map).
    destruct (datetime_min_spec _ (ex_intro _ stamp Hin)) as (lo & -> & _ & Hlo).
    destruct (datetime_max_spec _ (ex_intro _ stamp Hin)) as (hi & -> & _ & Hhi).
    apply andb_true_iff. split; apply Z.leb_le; auto.
Qed.

(** X8.  With both bounds unset, [create_plot] plots every one of the
    first 101 loaded rows that has a timestamp, and none of those that
    have none ([NaT]): the bounds it fills in exclude no timestamp, and
    no comparison with [NaT] holds. *)
Theorem create_plot_default_window
    (pd : MSPlot.Pandas) (plotly : go.Plotly) (self : MSPlot.t)
    (data : MSPlot.DataFrame) :
  MSPlot.data self = Some data ->
  MSPlot.plot_start_time self = None ->
  MSPlot.plot_end_time self = None ->
  exists points : MSPlot.DataFrame,
    snd (MSPlot.create_plot pd plotly self) = MSPlot.scatter_of pd plotly self points /\
    StronglySorted MSPlot.ascending points /\
    Permutation points (filter has_timestamp (firstn 101 data)).
Proof.
  intros Hd Hs He. rewrite (create_plot_eq _ _ _ _ Hd). cbn [snd].
  unfold df_filtered, lower_bound, upper_bound. rewrite Hs, He.
  rewrite default_window_keeps_stamped.
  exists (filter has_timestamp (MSPlot.considered pd data)).
  split; [reflexivity|]. unfold MSPlot.considered. split.
  - apply filter_sorted, MSPlot.sort_values_ascending.
  - apply filter_permutation, MSPlot.sort_values_permutes.
Qed.

(** X8, on the three-row catalog (three points) and on the catalog whose
    second row has no date (two points). *)
Lemma create_plot_default_window_example :
  (exists points : MSPlot.DataFrame,
      snd (MSPlot.create_plot mdy_pandas named_plotly Demo.loaded)
      = MSPlot.scatter_of mdy_pandas named_plotly Demo.loaded points /\
      Permutation points (filter has_timestamp (firstn 101 Demo.rows))) /\
  List.length (filter has_timestamp (firstn 101 Demo.rows)) = 3%nat /\
  List.length (filter has_timestamp (firstn 101 Demo.rows_undated)) = 2%nat /\
  option_map (fun tr => series_length (go.x tr))
    (match snd (MSPlot.create_plot mdy_pandas named_plotly Demo.loaded_undated) with
     | Ok tr => Some tr
     | Raise _ => None
     end) = Some 2%nat.
Proof.
  destruct (create_plot_default_window mdy_pandas named_plotly Demo.loaded Demo.rows)
    as (points & Hplot & _ & Hperm); try reflexivity.
  split; [exists points; split; assumption|].
  repeat split; vm_compute; reflexivity.
Defined.

(** X9.  When both bounds are set, [create_plot] changes nothing on the
    instance, whether it returns a trace or raises, loaded or not. *)
Theorem create_plot_keeps_set_bounds
    (pd : MSPlot.Pandas) (plotly : go.Plotly) (self : MSPlot.t)
    (lower upper : Timestamp) :
  MSPlot.plot_start_time self = Some lower ->
  MSPlot.plot_end_time self = Some upper ->
  fst (MSPlot.create_plot pd plotly self) = self.
Proof.
  intros Hs He. destruct (MSPlot.data self) as [data|] eqn:Hd.
  - rewrite (create_plot_eq _ _ _ _ Hd). cbn [fst].
    now destruct (after_create_plot_bounds_set pd self data lower upper Hs He).
  - unfold MSPlot.create_plot. now rewrite Hd.
Qed.

(** X9, on the windowed three-row catalog. *)
Lemma create_plot_keeps_set_bounds_example :
  fst (MSPlot.create_plot mdy_pandas named_plotly Demo.windowed) = Demo.windowed.
Proof.
  apply (create_plot_keeps_set_bounds mdy_pandas named_plotly Demo.windowed
           (Ts 1737288000000000000) (Ts 1737288001000000000)); reflexivity.
Defined.

(** X10.  [create_plot] is idempotent on a loaded instance: a second call
    on the instance the first call left behind returns the same result
    and leaves the same instance. *)
Theorem create_plot_idempotent
    (pd : MSPlot.Pandas) (plotly : go.Plotly) (self : MSPlot.t)
    (data : MSPlot.DataFrame) :
  MSPlot.data self = Some data ->
  MSPlot.create_plot pd plotly (fst (MSPlot.create_plot pd plotly self))
  = MSPlot.create_plot pd plotly self.
Proof.
  intros Hd. rewrite (create_plot_eq _ _ _ _ Hd). cbn [fst].
  destruct (after_create_plot_frame pd self data) as (Hsz & Hcb & Hcs & Hdata).
  rewrite Hd in Hdata. rewrite (create_plot_eq _ _ _ _ Hdata).
  destruct (after_create_plot_bounds pd self data) as [Hs He].
  destruct (after_create_plot_bounds_set pd (after_create_plot pd self data) data
              (lower_bound pd self data) (upper_bound pd self data) Hs He) as [-> ->].
  f_equal. now apply scatter_of_frame.
Qed.

(** X10, on the three-row catalog. *)
Lemma create_plot_idempotent_example :
  MSPlot.create_plot mdy_pandas named_plotly (fst (MSPlot.create_plot mdy_pandas named_plotly Demo.loaded))
  = MSPlot.create_plot mdy_pandas named_plotly Demo.loaded.
Proof.
  apply (create_plot_idempotent mdy_pandas named_plotly Demo.loaded Demo.rows). reflexivity.
Defined.

(** X11.  [size_range] and [title] have no effect on the plot:
    [create_plot] returns the same result and stores the same bounds
    whatever they are set to. *)
Theorem create_plot_ignores_size_range_and_title
    (pd : MSPlot.Pandas) (plotly : go.Plotly) (self : MSPlot.t)
    (range : list Z) (ttl : string) :
  snd (MSPlot.create_plot pd plotly (MSPlot.set_sizerange self range))
  = snd (MSPlot.create_plot pd plotly self) /\
  snd (MSPlot.create_plot pd plotly (MSPlot.set_title self ttl))
  = snd (MSPlot.create_plot pd plotly self) /\
  MSPlot.plot_start_time
    (fst (MSPlot.create_plot pd plotly (MSPlot.set_sizerange self range)))
  = MSPlot.plot_start_time (fst (MSPlot.create_plot pd plotly self)) /\
  MSPlot.plot_end_time
    (fst (MSPlot.create_plot pd plotly (MSPlot.set_sizerange self range)))
  = MSPlot.plot_end_time (fst (MSPlot.create_plot pd plotly self)) /\
  MSPlot.plot_start_time (fst (MSPlot.create_plot pd plotly (MSPlot.set_title self ttl)))
  = MSPlot.plot_start_time (fst (MSPlot.create_plot pd plotly self)) /\
  MSPlot.plot_end_time (fst (MSPlot.create_plot pd plotly (MSPlot.set_title self ttl)))
  = MSPlot.plot_end_time (fst (MSPlot.create_plot pd plotly self)).
Proof.
  destruct self as [cat cb cs sb sr st en ti [data|]];
    unfold MSPlot.create_plot, MSPlot.set_sizerange, MSPlot.set_title,
      MSPlot.fill_end, MSPlot.fill_start; simpl;
    destruct st, en; simpl; repeat split; reflexivity.
Qed.

Lemma window_filter_NaT (lower upper : Timestamp) (df : MSPlot.DataFrame) :
  lower = NaT \/ upper = NaT -> MSPlot.window_filter lower upper df = [].
Proof.
  intros H. apply window_filter_none. intros r _ (lo & hi & stamp & Hlo & Hhi & _).
  destruct H; congruence.
Qed.

(** X12.  A [create_plot] on an instance loaded with a table without rows
    and with an unset bound stores [NaT] for that bound; from then on the
    instance plots nothing, whatever table is loaded later, because no
    timestamp compares with [NaT]. *)
Theorem create_plot_empty_table_poisons_bounds
    (pd : MSPlot.Pandas) (plotly : go.Plotly) (self : MSPlot.t) :
  MSPlot.data self = Some [] ->
  MSPlot.plot_start_time self = None \/ MSPlot.plot_end_time self = None ->
  forall data' : MSPlot.DataFrame,
    snd (MSPlot.create_plot pd plotly
           (MSPlot.set_data (fst (MSPlot.create_plot pd plotly self)) data'))
    = MSPlot.scatter_of pd plotly self [].
Proof.
  intros Hd Hnone data'.
  destruct (create_plot_bounds pd plotly self [] Hd) as [Hs He].
  rewrite (create_plot_eq pd plotly
             (MSPlot.set_data (fst (MSPlot.create_plot pd plotly self)) data')
             data' eq_refl).
  destruct (after_create_plot_bounds_set pd
              (MSPlot.set_data (fst (MSPlot.create_plot pd plotly self)) data') data'
              (lower_bound pd self []) (upper_bound pd self []) Hs He) as [_ ->].
  cbn [snd]. rewrite window_filter_NaT.
  - rewrite (create_plot_eq _ _ _ _ Hd). cbn [fst].
    destruct (after_create_plot_frame pd self []) as (Hsz & Hcb & Hcs & _).
    apply scatter_of_frame; assumption.
  - assert (Hnil : MSPlot.considered pd [] = []).
    { unfold MSPlot.considered. apply Permutation_nil. symmetry.
      apply MSPlot.sort_values_permutes. }
    unfold lower_bound, upper_bound. rewrite Hnil.
    destruct Hnone as [-> | ->]; [left | right]; reflexivity.
Qed.

(** X12, on an instance first given a table without rows and then the
    three-row catalog: the result is that of plotting no record, and the
    filter keeps none of the three. *)
Lemma create_plot_empty_table_poisons_bounds_example :
  snd (MSPlot.create_plot mdy_pandas named_plotly
         (MSPlot.set_data (fst (MSPlot.create_plot mdy_pandas named_plotly Demo.no_rows)) Demo.rows))
  = MSPlot.scatter_of mdy_pandas named_plotly Demo.no_rows [] /\
  MSPlot.plot_start_time (fst (MSPlot.create_plot mdy_pandas named_plotly Demo.no_rows))
  = Some NaT /\
  df_filtered mdy_pandas
    (MSPlot.set_data (fst (MSPlot.create_plot mdy_pandas named_plotly Demo.no_rows)) Demo.rows)
    Demo.rows = [].
Proof.
  split; [|split; vm_compute; reflexivity].
  apply (create_plot_empty_table_poisons_bounds mdy_pandas named_plotly Demo.no_rows);
    [reflexivity | left; reflexivity].
Defined.

(** ** The window filter composed *)

Lemma filter_filter {A : Type} (f g : A -> bool) (l : list A) :
  filter f (filter g l) = filter (fun a => g a && f a) l.
Proof.
  induction l as [|a l IH]; simpl; [reflexivity|].
  destruct (g a); simpl; [destruct (f a); now rewrite IH | exact IH].
Qed.

(** X13.  Filtering twice is filtering once with the intersection of the
    two windows: the filter is idempotent, two filters commute, and two
    windows with timestamp bounds combine into the window from the later
    start to the earlier end. *)
Theorem window_filter_compose
    (lower upper lower' upper' : Timestamp) (a b c d : Z) (df : MSPlot.DataFrame) :
  MSPlot.window_filter lower upper (MSPlot.window_filter lower upper df)
  = MSPlot.window_filter lower upper df /\
  MSPlot.window_filter lower upper (MSPlot.window_filter lower' upper' df)
  = MSPlot.window_filter lower' upper' (MSPlot.window_filter lower upper df) /\
  MSPlot.window_filter (Ts a) (Ts b) (MSPlot.window_filter (Ts c) (Ts d) df)
  = MSPlot.window_filter (Ts (Z.max a c)) (Ts (Z.min b d)) df.
Proof.
  unfold MSPlot.window_filter. rewrite !filter_filter. repeat split.
  - apply filter_ext. intros r. apply andb_diag.
  - apply filter_ext. intros r. apply andb_comm.
  - apply filter_ext. intros r. unfold MSPlot.at_or_after, MSPlot.at_or_before.
    destruct (MSPlot.Origin_DateTime r) as [|stamp]; [reflexivity|].
    apply eq_true_iff_eq. rewrite !andb_true_iff, !Z.leb_le. lia.
Qed.

(** ** DataViewer.draw: counting and composing *)

Lemma drawables_rejected_length (l : list DataViewer.PyObject) :
  (List.length (drawables l) + List.length (rejected l) = List.length l)%nat.
Proof.
  induction l as [|c l IH]; [reflexivity|].
  destruct c; simpl; lia.
Qed.

Lemma draw_eq (objs : list DataViewer.PyObject) :
  DataViewer.draw (DataViewer.mk objs)
  = (DataViewer.mkFigure (drawables (leaves objs)),
     map DataViewer.Invalid_object (rejected (leaves objs))).
Proof. unfold DataViewer.draw. now rewrite fold_visit. Qed.

(** X14.  [draw] accounts for every leaf of its input: the number of
    traces in the figure plus the number of lines printed is the number
    of leaves, so no entry is dropped silently and none is handled
    twice. *)
Theorem draw_accounts_for_every_leaf (self : DataViewer.t) :
  (List.length (DataViewer.traces (fst (DataViewer.draw self)))
   + List.length (snd (DataViewer.draw self))
   = List.length (leaves (DataViewer.plot_objects self)))%nat.
Proof.
  destruct self as [objs]. rewrite draw_eq. simpl.
  rewrite length_map. apply drawables_rejected_length.
Qed.

Lemma leaves_app (a b : list DataViewer.PyObject) :
  leaves (a ++ b) = leaves a ++ leaves b.
Proof. apply flat_map_app. Qed.

(** X15.  Drawing a concatenated input gives the traces of the first part
    followed by those of the second, and the printed lines of the first
    part followed by those of the second: what [draw] does with an entry
    does not depend on the entries around it. *)
Theorem draw_concatenation (a b : list DataViewer.PyObject) :
  DataViewer.draw (DataViewer.mk (a ++ b))
  = (DataViewer.mkFigure
       (DataViewer.traces (fst (DataViewer.draw (DataViewer.mk a)))
        ++ DataViewer.traces (fst (DataViewer.draw (DataViewer.mk b)))),
     snd (DataViewer.draw (DataViewer.mk a)) ++ snd (DataViewer.draw (DataViewer.mk b))).
Proof.
  rewrite !draw_eq. simpl.
  now rewrite leaves_app, drawables_app, rejected_app, map_app.
Qed.

Lemma no_trace_rejected (l : list DataViewer.PyObject) :
  (forall c, In c l -> DataViewer.isinstance_Scatter3d c = false) ->
  drawables l = [] /\ rejected l = l.
Proof.
  induction l as [|c l IH]; intros H; [now split|].
  destruct IH as [IH1 IH2]; [intros; apply H; now right|].
  pose proof (H c (or_introl eq_refl)) as Hc.
  destruct c; try discriminate; simpl; now rewrite ?IH1, ?IH2.
Qed.

(** X16.  [draw] looks one level into lists and no further: a list found
    inside a list is printed as an invalid object, whole, and the traces
    it may hold are not added to the figure. *)
Theorem draw_rejects_deeper_lists (inner : list (list DataViewer.PyObject)) :
  DataViewer.draw (DataViewer.mk [DataViewer.PyList (map DataViewer.PyList inner)])
  = (DataViewer.mkFigure [],
     map (fun items => DataViewer.Invalid_object (DataViewer.PyList items)) inner).
Proof.
  rewrite draw_eq. simpl. rewrite app_nil_r.
  destruct (no_trace_rejected (map DataViewer.PyList inner)) as [-> ->].
  - intros c Hc. apply in_map_iff in Hc. now destruct Hc as (items & <- & _).
  - now rewrite map_map.
Qed.

Lemma leaves_flat (objs : list DataViewer.PyObject) :
  (forall c items, In c objs -> c <> DataViewer.PyList items) -> leaves objs = objs.
Proof.
  induction objs as [|c objs IH]; intros H; [reflexivity|].
  change (leaves (c :: objs))
    with ((match c with DataViewer.PyList items => items | _ => [c] end) ++ leaves objs).
  rewrite IH by (intros c' items Hc'; apply H; now right).
  destruct c as [tr|items|s]; try reflexivity.
  exfalso. apply (H (DataViewer.PyList items) items); [now left | reflexivity].
Qed.

(** X17.  Passing entries that are not lists together in one list gives
    the same figure and the same printed lines as passing them one by
    one. *)
Theorem draw_group_as_singles (objs : list DataViewer.PyObject) :
  (forall c items, In c objs -> c <> DataViewer.PyList items) ->
  DataViewer.draw (DataViewer.mk [DataViewer.PyList objs])
  = DataViewer.draw (DataViewer.mk objs).
Proof.
  intros H. rewrite !draw_eq. rewrite (leaves_flat objs H).
  simpl. now rewrite app_nil_r.
Qed.

(** X17, on the four demonstration polylines followed by a text. *)
Lemma draw_group_as_singles_example :
  DataViewer.draw
    (DataViewer.mk
       [DataViewer.PyList
          [DataViewer.Trace (polyline WellDemo.table_A "red" "1H");
           DataViewer.Trace (polyline WellDemo.table_B "blue" "2H");
           DataViewer.Other "not a trace"]])
  = (DataViewer.mkFigure [polyline WellDemo.table_A "red" "1H";
                          polyline WellDemo.table_B "blue" "2H"],
     [DataViewer.Invalid_object (DataViewer.Other "not a trace")]).
Proof.
  rewrite draw_group_as_singles; [reflexivity|].
  intros c items [<- | [<- | [<- | []]]]; discriminate.
Defined.


(** ** WellPlot: loading and plotting together *)

Lemma getitem_Ok_inv (w : WellPlot.WellAttr) (name : string) (s : Series) :
  WellPlot.getitem w name = Ok s ->
  exists df, w = WellPlot.Frame df /\ In name (WellPlot.columns df).
Proof.
  unfold WellPlot.getitem. destruct w as [p|df]; [discriminate|].
  destruct (WellPlot.index_of name (WellPlot.columns df)) as [i|] eqn:E;
    [|discriminate].
  intros _. exists df. split; [reflexivity|]. eapply index_of_In; eauto.
Qed.

Lemma well_trace_Ok_inv (i : nat) (w : WellPlot.WellAttr) (tr : go.Scatter3d) :
  WellPlot.well_trace i w = Ok tr ->
  exists df, w = WellPlot.Frame df /\ has_positions df.
Proof.
  unfold WellPlot.well_trace. intros H.
  apply bind_Ok in H. destruct H as (c & _ & H).
  apply bind_Ok in H. destruct H as (ew & Hew & H).
  apply bind_Ok in H. destruct H as (ns & Hns & H).
  apply bind_Ok in H. destruct H as (tvd & Htvd & _).
  apply getitem_Ok_inv in Hew, Hns, Htvd.
  destruct Hew as (df & -> & Hew), Hns as (df' & E' & Hns), Htvd as (df'' & E'' & Htvd).
  inv E'. inv E''. exists df''. repeat split; assumption.
Qed.

Lemma trace_loop_Ok_inv (ws : list WellPlot.WellAttr) (i : nat)
    (acc l : list go.Scatter3d) :
  WellPlot.trace_loop i ws acc = Ok l ->
  exists frames, ws = map WellPlot.Frame frames /\ Forall has_positions frames.
Proof.
  revert i acc. induction ws as [|w ws IH]; intros i acc H.
  - exists []. split; [reflexivity | constructor].
  - simpl in H. apply bind_Ok in H. destruct H as (tr & Htr & H).
    apply well_trace_Ok_inv in Htr. destruct Htr as (df & -> & Hdf).
    destruct (IH _ _ H) as (frames & -> & Hall).
    exists (df :: frames). split; [reflexivity | now constructor].
Qed.

(** X18.  [create_plot] returns traces exactly when all four attributes
    hold tables that have the columns [EW], [NS] and [TVD]; it then
    returns four of them.  In particular it raises on an instance whose
    files were not loaded, and never returns fewer polylines than
    wells. *)
Theorem well_create_plot_requires_tables (self : WellPlot.t) :
  ((exists l, WellPlot.create_plot self = Ok l)
   <-> exists df1 df2 df3 df4,
         self = WellPlot.mk (WellPlot.Frame df1) (WellPlot.Frame df2)
                            (WellPlot.Frame df3) (WellPlot.Frame df4) /\
         Forall has_positions [df1; df2; df3; df4]) /\
  (forall l, WellPlot.create_plot self = Ok l -> List.length l = 4%nat) /\
  (forall p1 p2 p3 p4,
      exists msg, WellPlot.create_plot (WellPlot.init p1 p2 p3 p4)
                  = Raise (TypeError msg)).
Proof.
  split; [split|split].
  - intros [l H]. unfold WellPlot.create_plot in H.
    apply trace_loop_Ok_inv in H. destruct H as (frames & E & Hall).
    destruct frames as [|df1 [|df2 [|df3 [|df4 [|df5 frames]]]]]; try discriminate.
    inv E. exists df1, df2, df3, df4. destruct self; simpl in *. now subst.
  - intros (df1 & df2 & df3 & df4 & -> & Hall). eexists.
    apply (trace_loop_polylines [df1; df2; df3; df4] 0 [] Hall).
  - intros l H. pose proof H as H'. unfold WellPlot.create_plot in H'.
    apply trace_loop_Ok_inv in H'. destruct H' as (frames & E & Hall).
    destruct frames as [|df1 [|df2 [|df3 [|df4 [|df5 frames]]]]]; try discriminate.
    inv E. unfold WellPlot.create_plot in H.
    match type of H with
    | WellPlot.trace_loop _ ?ws _ = _ =>
        assert (Hws : ws = map WellPlot.Frame [df1; df2; df3; df4])
          by (simpl; congruence)
    end.
    rewrite Hws, (trace_loop_polylines [df1; df2; df3; df4] 0 [] Hall) in H.
    inv H. reflexivity.
  - intros p1 p2 p3 p4. eexists. reflexivity.
Qed.

(** X19.  Loading and plotting compose: after a successful [load_csv],
    [create_plot] returns the four polylines of the four tables loaded,
    whatever the files held. *)
Theorem well_load_then_plot
    (pd : WellPlot.Reader) (fs : WellPlot.FileSystem) (self self' : WellPlot.t) :
  WellPlot.load_csv pd fs self = (self', Ok true) ->
  exists t1 t2 t3 t4 : WellPlot.Table,
    self' = WellPlot.mk (WellPlot.Frame t1) (WellPlot.Frame t2)
                        (WellPlot.Frame t3) (WellPlot.Frame t4) /\
    WellPlot.create_plot self'
    = Ok [polyline t1 "red" "1H"; polyline t2 "blue" "2H";
          polyline t3 "green" "3H"; polyline t4 "orange" "4H"].
Proof.
  intros H. apply load_csv_Ok in H.
  destruct H as (t1 & t2 & t3 & t4 & H1 & H2 & H3 & H4 & ->).
  exists t1, t2, t3, t4. split; [reflexivity|].
  assert (Hpos : forall src sr sf names t,
             WellPlot.read_csv pd fs src sr sf WellPlot.survey_columns names = Ok t ->
             has_positions t).
  { intros src sr sf names t Hr.
    apply read_csv_Ok_path in Hr. destruct Hr as (p & file & _ & _ & Hp).
    apply WellPlot.parse_selects in Hp. rewrite Forall_forall in Hp.
    repeat split; apply Hp; simpl; auto. }
  apply (trace_loop_polylines [t1; t2; t3; t4] 0 []).
  repeat constructor; eapply Hpos; eassumption.
Qed.

(** X19, on the four demonstration surveys. *)
Lemma well_load_then_plot_example :
  exists traces,
    WellPlot.create_plot (fst (WellPlot.load_csv plain_reader WellDemo.fs WellDemo.wells))
    = Ok traces /\
    map go.name traces = [Some "1H"; Some "2H"; Some "3H"; Some "4H"].
Proof.
  destruct (well_load_then_plot plain_reader WellDemo.fs WellDemo.wells
              (fst (WellPlot.load_csv plain_reader WellDemo.fs WellDemo.wells)))
    as (t1 & t2 & t3 & t4 & _ & Hplot); [vm_compute; reflexivity|].
  rewrite Hplot. eexists. split; reflexivity.
Defined.

(** X20.  A [load_csv] that fails on the second file has already put the
    table of the first file in place of its path.  The instance is left
    half loaded, and no later [load_csv] on it can succeed, whatever the
    files then are: its first read is handed a table. *)
Theorem well_load_csv_partial_failure
    (pd : WellPlot.Reader) (fs : WellPlot.FileSystem) (self : WellPlot.t)
    (t1 : WellPlot.Table) (e : PyError) :
  WellPlot.read_csv pd fs (WellPlot.well1 self) 27 5 WellPlot.survey_columns None
  = Ok t1 ->
  WellPlot.read_csv pd fs (WellPlot.well2 self) 22 0 WellPlot.survey_columns
    (Some WellPlot.survey_columns) = Raise e ->
  WellPlot.load_csv pd fs self
  = (WellPlot.mk (WellPlot.Frame t1) (WellPlot.well2 self) (WellPlot.well3 self)
                 (WellPlot.well4 self), Raise e) /\
  forall fs' : WellPlot.FileSystem,
  exists e' : PyError,
    WellPlot.load_csv pd fs'
      (WellPlot.mk (WellPlot.Frame t1) (WellPlot.well2 self) (WellPlot.well3 self)
                   (WellPlot.well4 self))
    = (WellPlot.mk (WellPlot.Frame t1) (WellPlot.well2 self) (WellPlot.well3 self)
                   (WellPlot.well4 self), Raise e').
Proof.
  intros H1 H2. split; [|intros fs'; eexists; reflexivity].
  unfold WellPlot.load_csv, WellPlot.seq, WellPlot.eval, WellPlot.assign, WellPlot.ret.
  rewrite H1. cbn -[WellPlot.read_csv]. rewrite H2. reflexivity.
Qed.

(** X20, with the second of the demonstration files missing. *)
Lemma well_load_csv_partial_failure_example :
  exists e,
    WellPlot.load_csv plain_reader WellDemo.fs
      (WellPlot.init "well1.csv" "absent.csv" "well3.csv" "well4.csv")
    = (WellPlot.mk (WellPlot.Frame WellDemo.table_A) (WellPlot.Path "absent.csv")
                   (WellPlot.Path "well3.csv") (WellPlot.Path "well4.csv"),
       Raise e).
Proof.
  eexists.
  apply (well_load_csv_partial_failure plain_reader WellDemo.fs
           (WellPlot.init "well1.csv" "absent.csv" "well3.csv" "well4.csv")
           WellDemo.table_A (FileNotFoundError "absent.csv"));
    vm_compute; reflexivity.
Defined.
